(** * SpeakCycle TikTok uploader: a shallow embedding of [tiktok_uploader.py]

    The development follows the layout of the Python module:

    - Python values (strings as code points, JSON-shaped objects, dicts in
      insertion order, truthiness, [str()] formatting);
    - the library routines the module calls ([base64], [hashlib.sha256],
      [secrets.token_urlsafe]);
    - the outside world (token file, video files, HTTP peers, the local
      callback port) as an explicit environment plus a state with an ordered
      trace of effects;
    - the module's functions, in source order: token management, the OAuth
      callback handler, [generate_pkce], [authenticate],
      [upload_video_direct];
    - the properties proved about them.

    Console output ([print]) is not modelled. *)

From Stdlib Require Import ZArith NArith String Ascii Bool Lia.
From Stdlib Require Import Strings.Byte DecimalString List.
Import ListNotations.

Set Warnings "-register-all".

Local Open Scope Z_scope.
Local Open Scope list_scope.

(* ================================================================== *)
(** * Python values *)
(* ================================================================== *)

(** A Python [str] is a sequence of Unicode code points: [len] and slicing
    count code points, not bytes. *)
Definition pystr := list N.

(** A Python [bytes] object. *)
Definition pybytes := list byte.

(** String literals of the source. *)
Definition lit (s : string) : pystr :=
  map N_of_ascii (list_ascii_of_string s).

Definition blit (s : string) : pybytes := list_byte_of_string s.

Fixpoint pystr_eqb (s t : pystr) : bool :=
  match s, t with
  | [], [] => true
  | a :: s', b :: t' => N.eqb a b && pystr_eqb s' t'
  | _, _ => false
  end.

(** [a.startswith(p)] *)
Fixpoint startswith (p s : pystr) : bool :=
  match p, s with
  | [], _ => true
  | a :: p', b :: s' => N.eqb a b && startswith p' s'
  | _ :: _, [] => false
  end.

(** [p in s] for two strings: substring test. *)
Fixpoint substring (p s : pystr) : bool :=
  startswith p s ||
  match s with
  | [] => false
  | _ :: s' => substring p s'
  end.

(** The values that [json.load] / [response.json()] produce, and that the
    module builds as dict literals.  Dicts keep insertion order.  JSON
    numbers with a fraction are not represented. *)
Inductive pyval : Type :=
| PNone
| PBool (b : bool)
| PInt (z : Z)
| PStr (s : pystr)
| PList (l : list pyval)
| PDict (d : list (pystr * pyval)).

Definition pydict := list (pystr * pyval).

(** [d.get(k)] on the entries of a dict; [None] when the key is absent. *)
Fixpoint dict_find (k : pystr) (d : pydict) : option pyval :=
  match d with
  | [] => None
  | (k', v) :: d' => if pystr_eqb k k' then Some v else dict_find k d'
  end.

(** [d[k] = v]: an existing key keeps its position. *)
Fixpoint dict_set (k : pystr) (v : pyval) (d : pydict) : pydict :=
  match d with
  | [] => [(k, v)]
  | (k', v') :: d' =>
      if pystr_eqb k k' then (k, v) :: d' else (k', v') :: dict_set k v d'
  end.

(** [d.update(new)] *)
Definition dict_update (d new : pydict) : pydict :=
  fold_left (fun acc kv => dict_set (fst kv) (snd kv) acc) new d.

(** Truthiness, as used by [if not x]. *)
Definition truthy (v : pyval) : bool :=
  match v with
  | PNone => false
  | PBool b => b
  | PInt z => negb (z =? 0)
  | PStr s => match s with [] => false | _ => true end
  | PList l => match l with [] => false | _ => true end
  | PDict d => match d with [] => false | _ => true end
  end.

(** A surrogate code point: the strict UTF-8 codec refuses it. *)
Definition surrogate (c : N) : bool := ((55296 <=? c) && (c <=? 57343))%N.

Definition str_encodable (s : pystr) : bool :=
  forallb (fun c => negb (surrogate c)) s.

(** Can [json.dump(v, f, ensure_ascii=False)] write [v] to a file opened
    with [encoding='utf-8']?  Every string in it, keys included, must be
    free of surrogates. *)
Fixpoint encodable (v : pyval) : bool :=
  match v with
  | PStr s => str_encodable s
  | PList l =>
      (fix every (l : list pyval) : bool :=
         match l with
         | [] => true
         | x :: l' => encodable x && every l'
         end) l
  | PDict d =>
      (fix every (d : list (pystr * pyval)) : bool :=
         match d with
         | [] => true
         | (k, x) :: d' => str_encodable k && encodable x && every d'
         end) d
  | _ => true
  end.

(** [v == 'literal'] *)
Definition is_str (s : pystr) (v : pyval) : bool :=
  match v with
  | PStr t => pystr_eqb t s
  | _ => false
  end.

(** Decimal rendering of an [int]. *)
Definition str_of_int (z : Z) : pystr :=
  lit (NilZero.string_of_int (Z.to_int z)).

(** Exceptions the modelled code can raise. *)
Inductive exn : Type :=
| AttributeError
| TypeError
| KeyError
| IndexError
| JSONDecodeError
| UnicodeError
| RequestException.

Inductive res (A : Type) : Type :=
| Ok (a : A)
| Raise (e : exn).
Arguments Ok {A} a.
Arguments Raise {A} e.

(** What comes of a call that waits for somebody else: its result, or
    nothing at all.  A result is read as an awaited one where one is
    expected, so [x = Ok r] says that the answer came and was [r]. *)
Inductive awaited (A : Type) : Type :=
| Answered (r : res A)
| Silent.
Arguments Answered {A} r.
Arguments Silent {A}.
Coercion Answered : res >-> awaited.

(** [v.get(k, default)]: only dicts have [get]. *)
Definition py_get (v : pyval) (k : pystr) (default : pyval) : res pyval :=
  match v with
  | PDict d => Ok (match dict_find k d with Some x => x | None => default end)
  | _ => Raise AttributeError
  end.

(** [k in v] for a string [k]. *)
Definition py_in (k : pystr) (v : pyval) : res bool :=
  match v with
  | PDict d => Ok (match dict_find k d with Some _ => true | None => false end)
  | PList l => Ok (existsb (is_str k) l)
  | PStr s => Ok (substring k s)
  | _ => Raise TypeError
  end.

(** [v[k]] for a string [k]. *)
Definition py_item (v : pyval) (k : pystr) : res pyval :=
  match v with
  | PDict d => match dict_find k d with Some x => Ok x | None => Raise KeyError end
  | _ => Raise TypeError
  end.

Definition rbind {A B} (r : res A) (k : A -> res B) : res B :=
  match r with
  | Ok a => k a
  | Raise e => Raise e
  end.

Notation "x <~ c ;; k" := (rbind c (fun x => k))
  (at level 61, c at next level, right associativity).

(** [s[:n]] *)
Definition slice_to {A} (n : nat) (s : list A) : list A := firstn n s.

(** [s.rstrip(c)] for a one-character argument, on [str] and on [bytes]. *)
Section Rstrip.
Context {A : Type} (is_c : A -> bool).

Fixpoint rstrip (l : list A) : list A :=
  match l with
  | [] => []
  | x :: t =>
      match rstrip t with
      | [] => if is_c x then [] else [x]
      | t' => x :: t'
      end
  end.
End Rstrip.

Definition eq_sign : N := 61.

Definition str_rstrip_eq (s : pystr) : pystr := rstrip (N.eqb eq_sign) s.
Definition bytes_rstrip_eq (b : pybytes) : pybytes :=
  rstrip (fun x => N.eqb (Byte.to_N x) eq_sign) b.

(** [b.decode('ascii')] and [s.encode('ascii')] *)
Fixpoint decode_ascii (b : pybytes) : res pystr :=
  match b with
  | [] => Ok []
  | x :: b' =>
      if (Byte.to_N x <? 128)%N then
        match decode_ascii b' with
        | Ok s => Ok (Byte.to_N x :: s)
        | Raise e => Raise e
        end
      else Raise UnicodeError
  end.

Definition byte_of_N (n : N) : byte := byte_of_ascii (ascii_of_N n).

Fixpoint encode_ascii (s : pystr) : res pybytes :=
  match s with
  | [] => Ok []
  | c :: s' =>
      if (c <? 128)%N then
        match encode_ascii s' with
        | Ok b => Ok (byte_of_N c :: b)
        | Raise e => Raise e
        end
      else Raise UnicodeError
  end.

(* ================================================================== *)
(** * Library routines: base64, SHA-256, secrets *)
(* ================================================================== *)

Module Base64.

Definition alphabet : pybytes :=
  blit "ABCDEFGHIJKLMNOPQRSTUVWXYZabcdefghijklmnopqrstuvwxyz0123456789+/".

Definition digit (i : N) : byte := nth (N.to_nat i) alphabet "A"%byte.

Definition pad : byte := "="%byte.

(** The four 6-bit groups of a 24-bit block. *)
Definition sextet0 (a : byte) : N := N.shiftr (Byte.to_N a) 2.
Definition sextet1 (a b : byte) : N :=
  N.lor (N.shiftl (N.land (Byte.to_N a) 3) 4) (N.shiftr (Byte.to_N b) 4).
Definition sextet2 (b c : byte) : N :=
  N.lor (N.shiftl (N.land (Byte.to_N b) 15) 2) (N.shiftr (Byte.to_N c) 6).
Definition sextet3 (c : byte) : N := N.land (Byte.to_N c) 63.

(** [base64.b64encode] *)
Fixpoint b64encode (data : pybytes) : pybytes :=
  match data with
  | [] => []
  | [a] =>
      [digit (sextet0 a); digit (sextet1 a "000"%byte); pad; pad]
  | [a; b] =>
      [digit (sextet0 a); digit (sextet1 a b); digit (sextet2 b "000"%byte); pad]
  | a :: b :: c :: rest =>
      digit (sextet0 a) :: digit (sextet1 a b) :: digit (sextet2 b c)
        :: digit (sextet3 c) :: b64encode rest
  end.

(** The translation table of [urlsafe_b64encode]: [+] to [-], [/] to [_]. *)
Definition urlsafe_translate (x : byte) : byte :=
  if N.eqb (Byte.to_N x) 43 then "-"%byte
  else if N.eqb (Byte.to_N x) 47 then "_"%byte
  else x.

(** [base64.urlsafe_b64encode] *)
Definition urlsafe_b64encode (data : pybytes) : pybytes :=
  map urlsafe_translate (b64encode data).

(** The characters of the URL-safe alphabet: letters, digits, [-], [_]. *)
Definition urlsafe_char (c : N) : bool :=
  ((65 <=? c) && (c <=? 90) || (97 <=? c) && (c <=? 122)
   || (48 <=? c) && (c <=? 57) || (c =? 45) || (c =? 95))%N.

(** Unpadded URL-safe base64 as RFC 4648 section 3.2 describes it: the
    same digits, and no [=] appended to a short final block.  This is the
    reading of "base64url ... with = padding stripped". *)
Fixpoint b64url_nopad (data : pybytes) : pybytes :=
  match data with
  | [] => []
  | [a] =>
      [urlsafe_translate (digit (sextet0 a));
       urlsafe_translate (digit (sextet1 a "000"%byte))]
  | [a; b] =>
      [urlsafe_translate (digit (sextet0 a));
       urlsafe_translate (digit (sextet1 a b));
       urlsafe_translate (digit (sextet2 b "000"%byte))]
  | a :: b :: c :: rest =>
      urlsafe_translate (digit (sextet0 a))
        :: urlsafe_translate (digit (sextet1 a b))
        :: urlsafe_translate (digit (sextet2 b c))
        :: urlsafe_translate (digit (sextet3 c)) :: b64url_nopad rest
  end.

End Base64.

Module SHA256.

Definition mask32 : Z := 4294967295.

Definition add32 (x y : Z) : Z := Z.land (x + y) mask32.
Definition rotr (n x : Z) : Z :=
  Z.land (Z.lor (Z.shiftr x n) (Z.shiftl x (32 - n))) mask32.
Definition shr (n x : Z) : Z := Z.shiftr x n.

Definition Ch (x y z : Z) : Z :=
  Z.lxor (Z.land x y) (Z.land (Z.lxor x mask32) z).
Definition Maj (x y z : Z) : Z :=
  Z.lxor (Z.lxor (Z.land x y) (Z.land x z)) (Z.land y z).
Definition bsig0 (x : Z) : Z := Z.lxor (Z.lxor (rotr 2 x) (rotr 13 x)) (rotr 22 x).
Definition bsig1 (x : Z) : Z := Z.lxor (Z.lxor (rotr 6 x) (rotr 11 x)) (rotr 25 x).
Definition ssig0 (x : Z) : Z := Z.lxor (Z.lxor (rotr 7 x) (rotr 18 x)) (shr 3 x).
Definition ssig1 (x : Z) : Z := Z.lxor (Z.lxor (rotr 17 x) (rotr 19 x)) (shr 10 x).

(** The round constants and the initial hash value are the first 32 bits
    of the fractional parts of the cube roots (square roots) of the first
    64 (8) primes; they are computed here rather than tabulated. *)
Definition is_prime (n : nat) : bool :=
  forallb (fun d => negb (Nat.eqb (Nat.modulo n d) 0)) (seq 2 (n - 2)).

Definition primes64 : list Z :=
  Eval vm_compute in map Z.of_nat (firstn 64 (filter is_prime (seq 2 400))).

(** Largest [r] below [2^k] (added to the start value) with [r^3 <= n]. *)
Fixpoint cube_root_bits (k : nat) (n r : Z) : Z :=
  match k with
  | O => r
  | S k' =>
      let c := r + 2 ^ Z.of_nat k' in
      if c * c * c <=? n then cube_root_bits k' n c else cube_root_bits k' n r
  end.

Definition frac32_cbrt (p : Z) : Z :=
  Z.land (cube_root_bits 40 (p * 2 ^ 96) 0) mask32.
Definition frac32_sqrt (p : Z) : Z :=
  Z.land (Z.sqrt (p * 2 ^ 64)) mask32.

Definition K : list Z := Eval vm_compute in map frac32_cbrt primes64.
Definition H0 : list Z := Eval vm_compute in map frac32_sqrt (firstn 8 primes64).

(** Padding: a one bit, zeros up to 56 mod 64, the bit length on 8 bytes. *)
Definition be_bytes (n : nat) (z : Z) : pybytes :=
  map (fun i => byte_of_N (Z.to_N (Z.land (Z.shiftr z (8 * Z.of_nat i)) 255)))
      (rev (seq 0 n)).

Definition padding (len : nat) : pybytes :=
  "128"%byte
    :: repeat "000"%byte (Z.to_nat ((55 - Z.of_nat len) mod 64))
    ++ be_bytes 8 (8 * Z.of_nat len).

Fixpoint be_word (bs : pybytes) (acc : Z) : Z :=
  match bs with
  | [] => acc
  | b :: bs' => be_word bs' (Z.lor (Z.shiftl acc 8) (Z.of_N (Byte.to_N b)))
  end.

(** The sixteen big-endian words of a 64-byte block. *)
Fixpoint words (n : nat) (bs : pybytes) : list Z :=
  match n with
  | O => []
  | S n' => be_word (firstn 4 bs) 0 :: words n' (skipn 4 bs)
  end.

(** Message schedule; [w] is kept newest first. *)
Fixpoint extend (k : nat) (w : list Z) : list Z :=
  match k with
  | O => w
  | S k' =>
      let wt :=
        add32 (add32 (ssig1 (nth 1 w 0)) (nth 6 w 0))
              (add32 (ssig0 (nth 14 w 0)) (nth 15 w 0)) in
      extend k' (wt :: w)
  end.

Definition schedule (block : pybytes) : list Z :=
  rev (extend 48 (rev (words 16 block))).

Definition round (s : list Z) (kw : Z * Z) : list Z :=
  match s with
  | [a; b; c; d; e; f; g; h] =>
      let t1 := add32 (add32 (add32 h (bsig1 e)) (add32 (Ch e f g) (fst kw))) (snd kw) in
      let t2 := add32 (bsig0 a) (Maj a b c) in
      [add32 t1 t2; a; b; c; add32 d t1; e; f; g]
  | _ => s
  end.

Definition compress (h : list Z) (block : pybytes) : list Z :=
  map (fun xy => add32 (fst xy) (snd xy))
      (combine h (fold_left round (combine K (schedule block)) h)).

Fixpoint blocks (n : nat) (bs : pybytes) : list pybytes :=
  match n with
  | O => []
  | S n' => firstn 64 bs :: blocks n' (skipn 64 bs)
  end.

(** [hashlib.sha256(msg).digest()] *)
Definition digest (msg : pybytes) : pybytes :=
  let padded := msg ++ padding (length msg) in
  let h := fold_left compress (blocks (length padded / 64) padded) H0 in
  flat_map (be_bytes 4) h.

Definition hex_digit (n : N) : byte :=
  nth (N.to_nat n) (blit "0123456789abcdef") "0"%byte.

(** [.hexdigest()], used to state the standard test vectors. *)
Definition hexdigest (msg : pybytes) : pybytes :=
  flat_map (fun b => [hex_digit (N.shiftr (Byte.to_N b) 4);
                      hex_digit (N.land (Byte.to_N b) 15)])
           (digest msg).

End SHA256.

(** [secrets.token_urlsafe(nbytes)] applied to the bytes drawn from the
    system random source. *)
Definition token_urlsafe (tok : pybytes) : res pystr :=
  decode_ascii (bytes_rstrip_eq (Base64.urlsafe_b64encode tok)).


(* ================================================================== *)
(** * The outside world *)
(* ================================================================== *)

(** What [requests] hands back: [.status_code], [.text], and the result of
    [.json()] ([None] when the body does not decode, in which case
    [.json()] raises). *)
Record response : Type := mkResponse {
  status_code : Z;
  text : pystr;
  json_body : option pyval
}.

Inductive verb : Type := GET | POST | PUT.

Inductive payload : Type :=
| FormData (fields : pydict)   (* data={...} *)
| JsonBody (v : pyval)         (* json=... *)
| RawData (b : pybytes)        (* data=<bytes> *)
| Params (fields : pydict).    (* params={...} *)

Record request : Type := mkRequest {
  rq_verb : verb;
  rq_url : pystr;
  rq_headers : list (pystr * pystr);
  rq_payload : payload
}.

(** A request line arriving at the local callback port. *)
Record incoming : Type := mkIncoming {
  command : pystr;   (* "GET", "POST", ... *)
  target : pystr     (* [self.path]: the raw request target *)
}.

(** The effects of the module, in the order they happen. *)
Inductive event : Type :=
| EvHttp (rq : request)                  (* requests.post / requests.put *)
| EvSleep (secs : Z)                     (* time.sleep *)
| EvBind (ok : bool)                     (* OAuthHTTPServer(('localhost', 8080), ...) *)
| EvBrowser (url : pystr)                (* webbrowser.open *)
| EvServe (rq : incoming) (status : Z)   (* server.handle_request() answered rq *)
| EvClose                                (* server.server_close() *)
| EvSave (tokens : pyval)                (* save_tokens wrote the token file *)
| EvSaveHistory (history : pyval)        (* save_history wrote the history file *)
| EvSaveBroken (tokens : pyval)          (* save_tokens emptied the token file, then json.dump raised *)
| EvSaveHistoryBroken (history : pyval). (* save_history emptied the history file, then json.dump raised *)

(** The two components of [urllib.parse.urlparse] that the handler reads. *)
Record url_parts : Type := mkParts {
  u_path : pystr;
  u_query : pystr
}.

(** The result of [urllib.parse.parse_qs]: every key maps to a non-empty
    list of values (first value, further values). *)
Definition qs_dict := list (pystr * (pystr * list pystr)).

Fixpoint qs_find (k : pystr) (d : qs_dict) : option (pystr * list pystr) :=
  match d with
  | [] => None
  | (k', v) :: d' => if pystr_eqb k k' then Some v else qs_find k d'
  end.

(** The contents of a JSON file on disk (the token file, the history file):
    text that [json.load] decodes, or something it rejects, such as the
    beginning of a document that a failed [json.dump] leaves. *)
Inductive stored : Type :=
| Json (v : pyval)
| Garbage.

(** Everything the module reads from outside and does not change: the
    configuration from the process environment, the file system holding the
    videos, the HTTP peers, the state of port 8080, the random source, the
    clock, and the library routines whose results are taken as given. *)
Record env : Type := mkEnv {
  TIKTOK_CLIENT_KEY : pystr;
  TIKTOK_CLIENT_SECRET : pystr;
  REDIRECT_URI : pystr;
  (** [Path(p).exists()], [stat().st_size] and [open(p, 'rb').read()] *)
  fs : pystr -> option pybytes;
  (** [str(Path(p))] *)
  path_str : pystr -> pystr;
  (** [str(SAMPLE_VIDEO)] *)
  SAMPLE_VIDEO : pystr;
  (** [VIDEOS_DIR]: [None] when it does not exist, else what
      [VIDEOS_DIR.glob('*.mp4')] yields, as strings, in that order *)
  videos_dir : option (list pystr);
  (** the answer to the n-th HTTP request the process sends, or the
      exception [requests] raises for it, or [Silent] when neither ever
      comes: no call sets a timeout *)
  http : nat -> request -> awaited response;
  (** can ('localhost', 8080) be bound? *)
  port_free : bool;
  (** the system random source, as a stream of bytes *)
  rng : nat -> byte;
  (** [datetime.now().isoformat()] *)
  now_iso : pystr;
  (** [str()] of a list or a dict *)
  repr_container : pyval -> pystr;
  urlparse : pystr -> url_parts;
  parse_qs : pystr -> qs_dict;
  urlencode : list (pystr * pystr) -> pystr
}.

(** What the module changes. *)
Record world : Type := mkWorld {
  tokens_file : option stored;      (* TOKENS_FILE; [None]: no such file *)
  history_file : option stored;     (* HISTORY_FILE; [None]: no such file *)
  code_verifier : option pystr;     (* the global [_code_verifier] *)
  rng_pos : nat;                    (* random bytes consumed so far *)
  inbox : list incoming;            (* requests that reach port 8080, in order *)
  trace : list event                (* effects so far, oldest first *)
}.

Definition log (e : event) (w : world) : world :=
  mkWorld (tokens_file w) (history_file w) (code_verifier w) (rng_pos w) (inbox w) (trace w ++ [e]).

Definition is_http (e : event) : bool :=
  match e with EvHttp _ => true | _ => false end.

Definition is_put (e : event) : bool :=
  match e with
  | EvHttp rq => match rq_verb rq with PUT => true | _ => false end
  | _ => false
  end.

Definition is_serve (e : event) : bool :=
  match e with EvServe _ _ => true | _ => false end.

Definition is_bind (e : event) : bool :=
  match e with EvBind _ => true | _ => false end.

Definition is_save (e : event) : bool :=
  match e with EvSave _ => true | _ => false end.

(** In a trace, is every served request directly followed by the closing
    of the listener? *)
Fixpoint closed_after_serve (t : list event) : bool :=
  match t with
  | [] => true
  | EvServe _ _ :: rest =>
      match rest with
      | EvClose :: _ => closed_after_serve rest
      | _ => false
      end
  | _ :: rest => closed_after_serve rest
  end.

Definition http_count (t : list event) : nat := length (filter is_http t).

(** ** Computations: state passing with exceptions

    A call returns, raises, or never comes back ([handle_request] with no
    request ever arriving, a [requests] call that is never answered). *)
Inductive outcome (A : Type) : Type :=
| Returns (a : A)
| Raises (e : exn)
| Blocks.
Arguments Returns {A} a.
Arguments Raises {A} e.
Arguments Blocks {A}.

Definition M (A : Type) : Type := world -> outcome A * world.

Definition ret {A} (a : A) : M A := fun w => (Returns a, w).

Definition bind {A B} (c : M A) (k : A -> M B) : M B :=
  fun w =>
    match c w with
    | (Returns a, w') => k a w'
    | (Raises e, w') => (Raises e, w')
    | (Blocks, w') => (Blocks, w')
    end.

Definition lift {A} (r : res A) : M A :=
  fun w => match r with Ok a => (Returns a, w) | Raise e => (Raises e, w) end.

Notation "x <- c ;; k" := (bind c (fun x => k))
  (at level 61, c at next level, right associativity).
Notation "c ;;; k" := (bind c (fun _ => k))
  (at level 61, right associativity).

(* ================================================================== *)
(** * The module *)
(* ================================================================== *)

Definition API_BASE : pystr := lit "https://open.tiktokapis.com/v2".
Definition SCOPES : pystr := lit "user.info.basic,video.publish,video.upload".

(** Where a stretch of a function body ends: at a [return] with the result
    dict, or by going on with what it computed. *)
Inductive flow (A : Type) : Type :=
| Return (result : pyval)
| Go (a : A).
Arguments Return {A} result.
Arguments Go {A} a.

(** What [argparse] hands to [main]. *)
Record arguments : Type := mkArguments {
  arg_auth : bool;
  arg_account : pystr;
  arg_post : bool;
  arg_sandbox : bool;
  arg_video : option pystr;
  arg_caption : option pystr;
  arg_status : bool;
  arg_refresh : bool
}.

Section Uploader.

Variable E : env.

(** [str(v)], as f-strings apply it. *)
Definition py_str (v : pyval) : pystr :=
  match v with
  | PNone => lit "None"
  | PBool true => lit "True"
  | PBool false => lit "False"
  | PInt z => str_of_int z
  | PStr s => s
  | PList _ | PDict _ => repr_container E v
  end.

(** [response.json()] *)
Definition json (r : response) : res pyval :=
  match json_body r with
  | Some v => Ok v
  | None => Raise JSONDecodeError
  end.

(** [requests.post] and [requests.put]: the request goes out, then the
    peer's answer (or the library's exception) comes back.  No call passes
    [timeout=], so the call waits for as long as the peer stays silent. *)
Definition send (rq : request) : M response :=
  fun w =>
    match http E (http_count (trace w)) rq with
    | Answered (Ok r) => (Returns r, log (EvHttp rq) w)
    | Answered (Raise e) => (Raises e, log (EvHttp rq) w)
    | Silent => (Blocks, log (EvHttp rq) w)
    end.

Definition requests_post (url : pystr) (headers : list (pystr * pystr))
           (body : payload) : M response :=
  send (mkRequest POST url headers body).

Definition sleep (secs : Z) : M unit :=
  fun w => (Returns tt, log (EvSleep secs) w).

(** ** Token management *)

Definition load_tokens : M pyval :=
  fun w =>
    match tokens_file w with
    | Some (Json v) => (Returns v, w)
    | Some Garbage => (Raises JSONDecodeError, w)
    | None => (Returns (PDict []), w)
    end.

(** [open(TOKENS_FILE, 'w', encoding='utf-8')] empties the file, then
    [json.dump] streams into it: when a string cannot be encoded the
    exception leaves a file that holds at most the beginning of a
    document. *)
Definition save_tokens (tokens : pyval) : M unit :=
  fun w =>
    if encodable tokens then
      (Returns tt,
       mkWorld (Some (Json tokens)) (history_file w) (code_verifier w)
               (rng_pos w) (inbox w) (trace w ++ [EvSave tokens]))
    else
      (Raises UnicodeError,
       mkWorld (Some Garbage) (history_file w) (code_verifier w)
               (rng_pos w) (inbox w) (trace w ++ [EvSaveBroken tokens])).

Definition get_access_token (account : pystr) : M pyval :=
  tokens <- load_tokens ;;
  known <- lift (py_in account tokens) ;;
  if known then
    entry <- lift (py_item tokens account) ;;
    lift (py_get entry (lit "access_token") (PStr []))
  else ret (PStr []).

(** [tokens[account].update(new)] followed by reading [tokens] back: the
    entry is the object stored under [account], so the change shows in
    [tokens]. *)
Definition update_entry (tokens : pyval) (account : pystr) (new : pydict)
  : res pyval :=
  match tokens with
  | PDict d =>
      match dict_find account d with
      | Some (PDict entry) =>
          Ok (PDict (dict_set account (PDict (dict_update entry new)) d))
      | Some _ => Raise AttributeError
      | None => Raise KeyError
      end
  | _ => Raise TypeError
  end.

Definition refresh_access_token (account : pystr) : M bool :=
  tokens <- load_tokens ;;
  known <- lift (py_in account tokens) ;;
  if negb known then ret false else
  entry <- lift (py_item tokens account) ;;
  refresh_token <- lift (py_get entry (lit "refresh_token") (PStr [])) ;;
  if negb (truthy refresh_token) then ret false else
  response <- requests_post (API_BASE ++ lit "/oauth/token/") []
    (FormData [(lit "client_key", PStr (TIKTOK_CLIENT_KEY E));
               (lit "client_secret", PStr (TIKTOK_CLIENT_SECRET E));
               (lit "grant_type", PStr (lit "refresh_token"));
               (lit "refresh_token", refresh_token)]) ;;
  if negb (status_code response =? 200) then ret false else
  data <- lift (json response) ;;
  has_token <- lift (py_in (lit "access_token") data) ;;
  if negb has_token then ret false else
  access <- lift (py_item data (lit "access_token")) ;;
  refresh <- lift (py_get data (lit "refresh_token") refresh_token) ;;
  tokens' <- lift (update_entry tokens account
                     [(lit "access_token", access);
                      (lit "refresh_token", refresh);
                      (lit "refreshed_at", PStr (now_iso E))]) ;;
  save_tokens tokens' ;;;
  ret true.

(** ** Upload history *)

Definition load_history : M pyval :=
  fun w =>
    match history_file w with
    | Some (Json v) => (Returns v, w)
    | Some Garbage => (Raises JSONDecodeError, w)
    | None => (Returns (PDict [(lit "uploads", PList [])]), w)
    end.

(** As [save_tokens], for [HISTORY_FILE]. *)
Definition save_history (history : pyval) : M unit :=
  fun w =>
    if encodable history then
      (Returns tt,
       mkWorld (tokens_file w) (Some (Json history)) (code_verifier w)
               (rng_pos w) (inbox w) (trace w ++ [EvSaveHistory history]))
    else
      (Raises UnicodeError,
       mkWorld (tokens_file w) (Some Garbage) (code_verifier w)
               (rng_pos w) (inbox w)
               (trace w ++ [EvSaveHistoryBroken history])).

(** [history['uploads'].append(record)] followed by reading [history]
    back: the list is the object stored under 'uploads', so the new record
    shows in [history]. *)
Definition append_upload (history record : pyval) : res pyval :=
  uploads <~ py_item history (lit "uploads") ;;
  match history, uploads with
  | PDict d, PList l =>
      Ok (PDict (dict_set (lit "uploads") (PList (l ++ [record])) d))
  | _, _ => Raise AttributeError
  end.

Definition upload_record (account video_path : pystr) (success : pyval)
           (is_sandbox : bool) : pyval :=
  PDict [(lit "account", PStr account);
         (lit "video", PStr video_path);
         (lit "uploaded_at", PStr (now_iso E));
         (lit "success", success);
         (lit "sandbox", PBool is_sandbox)].

Definition add_to_history (account video_path : pystr) (success : pyval)
           (is_sandbox : bool) : M unit :=
  history <- load_history ;;
  history' <- lift (append_upload history
                      (upload_record account video_path success is_sandbox)) ;;
  save_history history'.

(** ** OAuth *)

(** The attributes of [OAuthHTTPServer]. *)
Record server : Type := mkServer {
  auth_code : option pystr;
  error : option pystr
}.

(** [CallbackHandler.do_GET]: the new server attributes and the status
    code sent.  The HTML bodies are fixed texts and are left out. *)
Definition do_GET (srv : server) (path : pystr) : server * Z :=
  let parsed := urlparse E path in
  if pystr_eqb (u_path parsed) (lit "/callback") then
    let params := parse_qs E (u_query parsed) in
    match qs_find (lit "code") params with
    | Some (code, _) => (mkServer (Some code) (error srv), 200)
    | None =>
        let err :=
          match qs_find (lit "error") params with
          | Some (e, _) => e
          | None => lit "unknown"
          end in
        (mkServer None (Some err), 400)
    end
  else (srv, 404).

(** [BaseHTTPRequestHandler] calls [do_<COMMAND>]; the handler class only
    defines [do_GET], any other command is answered 501 by the library. *)
Definition handle_one (srv : server) (rq : incoming) : server * Z :=
  if pystr_eqb (command rq) (lit "GET") then do_GET srv (target rq)
  else (srv, 501).

(** [server.handle_request()]: wait for one request and answer it. *)
Definition handle_request (srv : server) : M server :=
  fun w =>
    match inbox w with
    | [] => (Blocks, w)
    | rq :: later =>
        let (srv', status) := handle_one srv rq in
        (Returns srv',
         mkWorld (tokens_file w) (history_file w) (code_verifier w) (rng_pos w) later
                 (trace w ++ [EvServe rq status]))
    end.

(** [secrets.token_bytes(n)] *)
Definition token_bytes (n : nat) : M pybytes :=
  fun w =>
    (Returns (map (fun i => rng E (rng_pos w + i)%nat) (seq 0 n)),
     mkWorld (tokens_file w) (history_file w) (code_verifier w) (rng_pos w + n)%nat (inbox w)
             (trace w)).

Definition set_code_verifier (v : pystr) : M unit :=
  fun w =>
    (Returns tt,
     mkWorld (tokens_file w) (history_file w) (Some v) (rng_pos w) (inbox w) (trace w)).

Definition get_code_verifier : M (option pystr) :=
  fun w => (Returns (code_verifier w), w).

Definition generate_pkce : M pystr :=
  tok <- token_bytes 64 ;;
  token <- lift (token_urlsafe tok) ;;
  let verifier := slice_to 128 token in
  set_code_verifier verifier ;;;
  encoded <- lift (encode_ascii verifier) ;;
  let digest := SHA256.digest encoded in
  b64 <- lift (decode_ascii (Base64.urlsafe_b64encode digest)) ;;
  let code_challenge := str_rstrip_eq b64 in
  ret code_challenge.

(** [OAuthHTTPServer(('localhost', 8080), CallbackHandler)] inside
    [try ... except OSError]. *)
Definition bind_server : M bool :=
  fun w => (Returns (port_free E), log (EvBind (port_free E)) w).

Definition webbrowser_open (url : pystr) : M unit :=
  fun w => (Returns tt, log (EvBrowser url) w).

Definition server_close : M unit :=
  fun w => (Returns tt, log EvClose w).

(** [tokens[account] = entry] *)
Definition py_setitem (tokens : pyval) (account : pystr) (entry : pyval)
  : res pyval :=
  match tokens with
  | PDict d => Ok (PDict (dict_set account entry d))
  | _ => Raise TypeError
  end.

(** [v[:20]], evaluated for the closing message. *)
Definition py_slice20 (v : pyval) : res pyval :=
  match v with
  | PStr s => Ok (PStr (slice_to 20 s))
  | PList l => Ok (PList (slice_to 20 l))
  | _ => Raise TypeError
  end.

Definition opt_str (o : option pystr) : pyval :=
  match o with Some s => PStr s | None => PNone end.

Definition authenticate (account : pystr) : M bool :=
  if negb (truthy (PStr (TIKTOK_CLIENT_KEY E)))
     || negb (truthy (PStr (TIKTOK_CLIENT_SECRET E)))
  then ret false else
  code_challenge <- generate_pkce ;;
  let params :=
    [(lit "client_key", TIKTOK_CLIENT_KEY E);
     (lit "scope", SCOPES);
     (lit "response_type", lit "code");
     (lit "redirect_uri", REDIRECT_URI E);
     (lit "state", account);
     (lit "code_challenge", code_challenge);
     (lit "code_challenge_method", lit "S256")] in
  let auth_url :=
    lit "https://www.tiktok.com/v2/auth/authorize/?" ++ urlencode E params in
  bound <- bind_server ;;
  if negb bound then ret false else
  let server := mkServer None None in
  webbrowser_open auth_url ;;;
  server <- handle_request server ;;
  server_close ;;;
  if negb (truthy (opt_str (auth_code server))) then ret false else
  verifier <- get_code_verifier ;;
  response <- requests_post (API_BASE ++ lit "/oauth/token/") []
    (FormData [(lit "client_key", PStr (TIKTOK_CLIENT_KEY E));
               (lit "client_secret", PStr (TIKTOK_CLIENT_SECRET E));
               (lit "code", opt_str (auth_code server));
               (lit "grant_type", PStr (lit "authorization_code"));
               (lit "redirect_uri", PStr (REDIRECT_URI E));
               (lit "code_verifier", opt_str verifier)]) ;;
  if negb (status_code response =? 200) then ret false else
  data <- lift (json response) ;;
  has_token <- lift (py_in (lit "access_token") data) ;;
  if negb has_token then ret false else
  tokens <- load_tokens ;;
  access <- lift (py_item data (lit "access_token")) ;;
  refresh <- lift (py_get data (lit "refresh_token") (PStr [])) ;;
  expires <- lift (py_get data (lit "expires_in") (PInt 0)) ;;
  open_id <- lift (py_get data (lit "open_id") (PStr [])) ;;
  scope <- lift (py_get data (lit "scope") (PStr [])) ;;
  tokens' <- lift (py_setitem tokens account
                     (PDict [(lit "access_token", access);
                             (lit "refresh_token", refresh);
                             (lit "expires_in", expires);
                             (lit "open_id", open_id);
                             (lit "scope", scope);
                             (lit "authenticated_at", PStr (now_iso E))])) ;;
  save_tokens tokens' ;;;
  shown <- lift (py_get data (lit "open_id") (PStr (lit "N/A"))) ;;
  lift (py_slice20 shown) ;;;
  ret true.

(** ** User info *)

Definition user_info_request (access_token : pystr) : request :=
  mkRequest GET (API_BASE ++ lit "/user/info/")
            [(lit "Authorization", lit "Bearer " ++ access_token)]
            (Params [(lit "fields",
                      PStr (lit "open_id,display_name,avatar_url"))]).

Definition get_user_info (access_token : pystr) : M pyval :=
  response <- send (user_info_request access_token) ;;
  if status_code response =? 200 then
    body <- lift (json response) ;;
    data <- lift (py_get body (lit "data") (PDict [])) ;;
    lift (py_get data (lit "user") (PDict []))
  else ret (PDict []).

(** ** Video upload *)

Definition bearer (access_token : pystr) : list (pystr * pystr) :=
  [(lit "Authorization", lit "Bearer " ++ access_token);
   (lit "Content-Type", lit "application/json")].

Definition init_payload (caption privacy : pystr) (video_size : Z) : pyval :=
  PDict
    [(lit "post_info",
      PDict [(lit "title", PStr (slice_to 150 caption));
             (lit "privacy_level", PStr privacy);
             (lit "disable_duet", PBool false);
             (lit "disable_comment", PBool false);
             (lit "disable_stitch", PBool false);
             (lit "video_cover_timestamp_ms", PInt 1000)]);
     (lit "source_info",
      PDict [(lit "source", PStr (lit "FILE_UPLOAD"));
             (lit "video_size", PInt video_size);
             (lit "chunk_size", PInt (Z.min video_size (10 * 1024 * 1024)));
             (lit "total_chunk_count", PInt 1)])].

Definition init_request (caption privacy access_token : pystr)
           (video_size : Z) : request :=
  mkRequest POST (API_BASE ++ lit "/post/publish/video/init/")
            (bearer access_token)
            (JsonBody (init_payload caption privacy video_size)).

Definition put_request (upload_url : pystr) (video_data : pybytes) : request :=
  let video_size := Z.of_nat (length video_data) in
  mkRequest PUT upload_url
            [(lit "Content-Type", lit "video/mp4");
             (lit "Content-Range",
              lit "bytes 0-" ++ str_of_int (video_size - 1) ++ lit "/"
                ++ str_of_int video_size)]
            (RawData video_data).

Definition status_request (access_token : pystr) (publish_id : pyval)
  : request :=
  mkRequest POST (API_BASE ++ lit "/post/publish/status/fetch/")
            (bearer access_token)
            (JsonBody (PDict [(lit "publish_id", publish_id)])).

(** [requests.put(upload_url, ...)]: a URL that is not a string never
    names a peer, the library raises. *)
Definition requests_put (upload_url : pyval) (video_data : pybytes)
  : M response :=
  match upload_url with
  | PStr u => send (put_request u video_data)
  | _ => lift (Raise RequestException)
  end.

(** [body.get('data', {}).get(key, default)] *)
Definition data_field (body : pyval) (key : pystr) (default : pyval)
  : res pyval :=
  d <~ py_get body (lit "data") (PDict []) ;;
  py_get d key default.

Definition failure (msg : pystr) (details : pyval) : pyval :=
  PDict [(lit "success", PBool false);
         (lit "error", PStr msg);
         (lit "details", details)].

(** Step 1, after the POST: the three ways the init response is refused,
    or the upload URL and publish id it grants. *)
Definition check_init (init_response : response)
  : res (flow (pyval * pyval)) :=
  if negb (status_code init_response =? 200) then
    error_data <~ (if truthy (PStr (text init_response))
                   then json init_response
                   else Ok (PDict [])) ;;
    Ok (Return (failure (lit "Init failed: "
                           ++ str_of_int (status_code init_response))
                        error_data))
  else
  init_data <~ json init_response ;;
  has_error <~ py_in (lit "error") init_data ;;
  rejected <~ (if has_error then
                 err <~ py_item init_data (lit "error") ;;
                 code <~ py_get err (lit "code") PNone ;;
                 Ok (negb (is_str (lit "ok") code))
               else Ok false) ;;
  if (rejected : bool) then
    err <~ py_item init_data (lit "error") ;;
    message <~ py_get err (lit "message") (PStr (lit "Unknown error")) ;;
    Ok (Return (PDict [(lit "success", PBool false);
                       (lit "error", message);
                       (lit "details", init_data)]))
  else
  upload_url <~ data_field init_data (lit "upload_url") PNone ;;
  publish_id <~ data_field init_data (lit "publish_id") PNone ;;
  if negb (truthy upload_url) then
    Ok (Return (failure (lit "No upload URL received") init_data))
  else Ok (Go (upload_url, publish_id)).

(** Step 2, after the PUT. *)
Definition check_transfer (upload_response : response) : flow unit :=
  if negb ((status_code upload_response =? 200)
           || (status_code upload_response =? 201)) then
    Return (failure (lit "Upload failed: "
                       ++ str_of_int (status_code upload_response))
                    (PStr (text upload_response)))
  else Go tt.

Definition processing (publish_status : pyval) : bool :=
  existsb (fun s => is_str s publish_status)
          [lit "PROCESSING_UPLOAD"; lit "PROCESSING_DOWNLOAD";
           lit "SENDING_TO_USER_INBOX"].

(** Step 3, after one status fetch: a result to return, or the number of
    seconds to sleep before the next pass. *)
Definition check_status (publish_id : pyval) (status_response : response)
  : res (flow Z) :=
  if status_code status_response =? 200 then
    status_data <~ json status_response ;;
    publish_status <~ data_field status_data (lit "status") PNone ;;
    if is_str (lit "PUBLISH_COMPLETE") publish_status then
      Ok (Return (PDict [(lit "success", PBool true);
                         (lit "publish_id", publish_id);
                         (lit "status", publish_status)]))
    else if is_str (lit "FAILED") publish_status then
      fail_reason <~ data_field status_data (lit "fail_reason")
                                (PStr (lit "Unknown")) ;;
      Ok (Return (PDict [(lit "success", PBool false);
                         (lit "error",
                          PStr (lit "Publish failed: " ++ py_str fail_reason));
                         (lit "publish_id", publish_id)]))
    else if processing publish_status then Ok (Go 3)
    else Ok (Go 2)
  else Ok (Go 2).

Definition poll_once (access_token : pystr) (publish_id : pyval)
  : M (flow unit) :=
  status_response <- send (status_request access_token publish_id) ;;
  verdict <- lift (check_status publish_id status_response) ;;
  match verdict with
  | Return result => ret (Return result)
  | Go secs => sleep secs ;;; ret (Go tt)
  end.

Definition still_processing (publish_id : pyval) : pyval :=
  PDict [(lit "success", PBool true);
         (lit "publish_id", publish_id);
         (lit "status", PStr (lit "PROCESSING"));
         (lit "note", PStr (lit "Video is being processed by TikTok"))].

(** [for i in range(n): ...] followed by the final [return]. *)
Fixpoint poll (n : nat) (access_token : pystr) (publish_id : pyval)
  : M pyval :=
  match n with
  | O => ret (still_processing publish_id)
  | S n' =>
      p <- poll_once access_token publish_id ;;
      match p with
      | Return result => ret result
      | Go _ => poll n' access_token publish_id
      end
  end.

Definition upload_video_direct (video_path caption access_token : pystr)
           (privacy : pystr) (is_sandbox : bool) : M pyval :=
  match fs E video_path with
  | None =>
      ret (PDict [(lit "success", PBool false);
                  (lit "error", PStr (lit "Video file not found"))])
  | Some contents =>
      let video_size := Z.of_nat (length contents) in
      init_response <-
        send (init_request caption privacy access_token video_size) ;;
      granted <- lift (check_init init_response) ;;
      match granted with
      | Return result => ret result
      | Go (upload_url, publish_id) =>
          let video_data := contents in
          upload_response <- requests_put upload_url video_data ;;
          match check_transfer upload_response with
          | Return result => ret result
          | Go _ => poll 10 access_token publish_id
          end
      end
  end.

(** ** Sandbox posting *)

(** The caption used when none is given; it starts with U+1F4DA and has
    U+1F3AF in the middle. *)
Definition sandbox_caption : pystr :=
  128218%N :: lit " Learn English with SpeakCycle! "
    ++ 127919%N :: lit " #English #LearnEnglish #Education".

(** The video a sandbox post uses, as [str(video_file)]: the given path,
    else the sample video when it exists, else the first .mp4 of the
    videos folder; [None] where the function gives up. *)
Definition sandbox_video (video_path : option pystr) : option pystr :=
  match video_path with
  | Some (c :: p) => Some (path_str E (c :: p))
  | _ =>
      match fs E (SAMPLE_VIDEO E) with
      | Some _ => Some (SAMPLE_VIDEO E)
      | None =>
          match videos_dir E with
          | Some (first :: _) => Some first
          | Some [] => None
          | None => None
          end
      end
  end.

(** [access_token] is whatever [get_access_token] found; the callees only
    use it inside f-strings, hence as [str(access_token)]. *)
Definition post_sandbox_video (video_path caption : option pystr) : M bool :=
  access_token <- get_access_token (lit "default") ;;
  if negb (truthy access_token) then ret false else
  user_info <- get_user_info (py_str access_token) ;;
  (if truthy user_info
   then lift (py_get user_info (lit "display_name") (PStr (lit "Unknown")))
   else ret PNone) ;;;
  match sandbox_video video_path with
  | None => ret false
  | Some video_file =>
      let caption :=
        match caption with
        | Some (c :: s) => c :: s
        | _ => sandbox_caption
        end in
      result <- upload_video_direct video_file caption (py_str access_token)
                                    (lit "SELF_ONLY") true ;;
      success <- lift (py_item result (lit "success")) ;;
      add_to_history (lit "default") video_file success true ;;;
      if truthy success then ret true else ret false
  end.

(** ** Status display

    Only what can go wrong is modelled: the texts go to the console. *)

(** [v[:n]] and [v[-n:]] *)
Definition py_slice_to (n : nat) (v : pyval) : res pyval :=
  match v with
  | PStr s => Ok (PStr (firstn n s))
  | PList l => Ok (PList (firstn n l))
  | _ => Raise TypeError
  end.

Definition py_slice_last (n : nat) (v : pyval) : res pyval :=
  match v with
  | PStr s => Ok (PStr (skipn (length s - n) s))
  | PList l => Ok (PList (skipn (length l - n) l))
  | _ => Raise TypeError
  end.

(** [for x in xs: body(x)], stopping at the first exception. *)
Fixpoint for_each {A} (body : A -> res unit) (xs : list A) : res unit :=
  match xs with
  | [] => Ok tt
  | x :: xs' => _ <~ body x ;; for_each body xs'
  end.

(** The three lines printed for one account. *)
Definition show_account (data : pyval) : res unit :=
  auth_time <~ py_get data (lit "authenticated_at") (PStr (lit "N/A")) ;;
  _ <~ py_get data (lit "scope") (PStr (lit "N/A")) ;;
  if is_str (lit "N/A") auth_time then Ok tt
  else _ <~ py_slice_to 19 auth_time ;; Ok tt.

(** The line printed for one upload; [Path(x)] wants a string. *)
Definition show_upload (item : pyval) : res unit :=
  _ <~ py_get item (lit "success") PNone ;;
  _ <~ py_get item (lit "sandbox") PNone ;;
  uploaded_at <~ py_get item (lit "uploaded_at") (PStr []) ;;
  _ <~ py_slice_to 16 uploaded_at ;;
  video <~ py_get item (lit "video") (PStr []) ;;
  match video with
  | PStr _ => Ok tt
  | _ => Raise TypeError
  end.

(** [reversed(recent)], item by item. *)
Definition reversed_items (recent : pyval) : list pyval :=
  match recent with
  | PList l => rev l
  | PStr s => map (fun c => PStr [c]) (rev s)
  | _ => []
  end.

Definition show_status : M unit :=
  tokens <- load_tokens ;;
  (if negb (truthy tokens) then ret tt
   else match tokens with
        | PDict d => lift (for_each show_account (map snd d))
        | _ => lift (Raise AttributeError)
        end) ;;;
  history <- load_history ;;
  uploads <- lift (py_get history (lit "uploads") (PList [])) ;;
  recent <- lift (py_slice_last 5 uploads) ;;
  if truthy recent then lift (for_each show_upload (reversed_items recent))
  else ret tt.

(** ** Command line *)

Definition post_caption : pystr :=
  128218%N :: lit " Learn English! #English #LearnEnglish".

Definition main (args : arguments) : M unit :=
  if arg_auth args then
    authenticate (arg_account args) ;;; ret tt
  else if arg_refresh args then
    refresh_access_token (arg_account args) ;;; ret tt
  else if arg_status args then
    show_status
  else if arg_post args then
    if arg_sandbox args then
      post_sandbox_video (arg_video args) (arg_caption args) ;;; ret tt
    else
      match arg_video args with
      | Some (c :: p) =>
          access_token <- get_access_token (arg_account args) ;;
          if negb (truthy access_token) then ret tt else
          let caption :=
            match arg_caption args with
            | Some (c :: s) => c :: s
            | _ => post_caption
            end in
          result <- upload_video_direct (c :: p) caption (py_str access_token)
                                        (lit "PUBLIC_TO_EVERYONE") false ;;
          lift (py_item result (lit "success")) ;;;
          ret tt
      | _ => ret tt
      end
  else ret tt.

End Uploader.

(* ================================================================== *)
(** * Vocabulary of the properties *)
(* ================================================================== *)

(** The world after some more effects. *)
Definition logs (new : list event) (w : world) : world :=
  mkWorld (tokens_file w) (history_file w) (code_verifier w) (rng_pos w) (inbox w)
          (trace w ++ new).

(** A computation that only adds effects to the trace, whatever way it
    ends. *)
Definition appends {A} (c : M A) : Prop :=
  forall w, exists o new, c w = (o, logs new w).

(** [v[k1][k2]...] where every step is a dict lookup. *)
Fixpoint field (path : list pystr) (v : pyval) : option pyval :=
  match path with
  | [] => Some v
  | k :: path' =>
      match v with
      | PDict d =>
          match dict_find k d with
          | Some x => field path' x
          | None => None
          end
      | _ => None
      end
  end.

(** The challenge of a verifier in the words of the specification:
    base64url of the SHA-256 digest of the verifier, without [=] padding. *)
Definition challenge_of (verifier : pystr) : res pystr :=
  ascii <~ encode_ascii verifier ;;
  decode_ascii (Base64.b64url_nopad (SHA256.digest ascii)).

(** A status response in which the loop sees no terminal status: the
    transport did not succeed, or the reported status is neither
    [PUBLISH_COMPLETE] nor [FAILED]. *)
Definition no_terminal_status (r : response) : Prop :=
  status_code r <> 200
  \/ exists body st,
       json_body r = Some body
       /\ data_field body (lit "status") PNone = Ok st
       /\ st <> PStr (lit "PUBLISH_COMPLETE")
       /\ st <> PStr (lit "FAILED").

(** The events of [n] passes through the status loop that each end in a
    sleep. *)
Definition passes (rq : request) (pauses : list Z) : list event :=
  flat_map (fun secs => [EvHttp rq; EvSleep secs]) pauses.

(** The events of a run of the status loop: fetches each followed by a
    sleep, and possibly a last fetch after which the loop was left. *)
Definition poll_events (rq : request) (pauses : list Z) (left_early : bool)
  : list event :=
  passes rq pauses ++ (if left_early then [EvHttp rq] else []).

Definition sleep_total (t : list event) : Z :=
  fold_right (fun e acc => match e with EvSleep s => s + acc | _ => acc end)
             0 t.

Definition is_status_fetch (e : event) : bool :=
  match e with
  | EvHttp rq =>
      match rq_verb rq with
      | POST =>
          pystr_eqb (rq_url rq) (API_BASE ++ lit "/post/publish/status/fetch/")
      | _ => false
      end
  | _ => false
  end.

(** The authorization URL that [authenticate] opens for a challenge. *)
Definition authorize_url (E : env) (account challenge : pystr) : pystr :=
  lit "https://www.tiktok.com/v2/auth/authorize/?"
    ++ urlencode E [(lit "client_key", TIKTOK_CLIENT_KEY E);
                    (lit "scope", SCOPES);
                    (lit "response_type", lit "code");
                    (lit "redirect_uri", REDIRECT_URI E);
                    (lit "state", account);
                    (lit "code_challenge", challenge);
                    (lit "code_challenge_method", lit "S256")].

(** The token exchange request of [authenticate]. *)
Definition token_request (E : env) (code verifier : pyval) : request :=
  mkRequest POST (API_BASE ++ lit "/oauth/token/") []
    (FormData [(lit "client_key", PStr (TIKTOK_CLIENT_KEY E));
               (lit "client_secret", PStr (TIKTOK_CLIENT_SECRET E));
               (lit "code", code);
               (lit "grant_type", PStr (lit "authorization_code"));
               (lit "redirect_uri", PStr (REDIRECT_URI E));
               (lit "code_verifier", verifier)]).

(** The token exchange request of [refresh_access_token]. *)
Definition refresh_request (E : env) (refresh_token : pyval) : request :=
  mkRequest POST (API_BASE ++ lit "/oauth/token/") []
    (FormData [(lit "client_key", PStr (TIKTOK_CLIENT_KEY E));
               (lit "client_secret", PStr (TIKTOK_CLIENT_SECRET E));
               (lit "grant_type", PStr (lit "refresh_token"));
               (lit "refresh_token", refresh_token)]).

(** The entry [authenticate] stores for a token response. *)
Definition credential (E : env) (data : pydict) : pyval :=
  let get k default :=
    match dict_find k data with Some v => v | None => default end in
  PDict [(lit "access_token", get (lit "access_token") PNone);
         (lit "refresh_token", get (lit "refresh_token") (PStr []));
         (lit "expires_in", get (lit "expires_in") (PInt 0));
         (lit "open_id", get (lit "open_id") (PStr []));
         (lit "scope", get (lit "scope") (PStr []));
         (lit "authenticated_at", PStr (now_iso E))].

(** The refresh token [refresh_access_token] reads from a stored entry. *)
Definition stored_refresh_token (entry : pydict) : pyval :=
  match dict_find (lit "refresh_token") entry with
  | Some v => v
  | None => PStr []
  end.

(** The entry [refresh_access_token] leaves for a token response. *)
Definition refreshed (E : env) (entry data : pydict) (access : pyval)
  : pyval :=
  PDict (dict_update entry
           [(lit "access_token", access);
            (lit "refresh_token",
             match dict_find (lit "refresh_token") data with
             | Some v => v
             | None => stored_refresh_token entry
             end);
            (lit "refreshed_at", PStr (now_iso E))]).

(** The last stage of [authenticate], from the test of the captured code
    on: exchange the code, store the credential. *)
Definition exchange_and_store (E : env) (account : pystr)
           (code : option pystr) : M bool :=
  if negb (truthy (opt_str code)) then ret false else
  verifier <- get_code_verifier ;;
  response <- requests_post E (API_BASE ++ lit "/oauth/token/") []
    (FormData [(lit "client_key", PStr (TIKTOK_CLIENT_KEY E));
               (lit "client_secret", PStr (TIKTOK_CLIENT_SECRET E));
               (lit "code", opt_str code);
               (lit "grant_type", PStr (lit "authorization_code"));
               (lit "redirect_uri", PStr (REDIRECT_URI E));
               (lit "code_verifier", opt_str verifier)]) ;;
  if negb (status_code response =? 200) then ret false else
  data <- lift (json response) ;;
  has_token <- lift (py_in (lit "access_token") data) ;;
  if negb has_token then ret false else
  tokens <- load_tokens ;;
  access <- lift (py_item data (lit "access_token")) ;;
  refresh <- lift (py_get data (lit "refresh_token") (PStr [])) ;;
  expires <- lift (py_get data (lit "expires_in") (PInt 0)) ;;
  open_id <- lift (py_get data (lit "open_id") (PStr [])) ;;
  scope <- lift (py_get data (lit "scope") (PStr [])) ;;
  tokens' <- lift (py_setitem tokens account
                     (PDict [(lit "access_token", access);
                             (lit "refresh_token", refresh);
                             (lit "expires_in", expires);
                             (lit "open_id", open_id);
                             (lit "scope", scope);
                             (lit "authenticated_at", PStr (now_iso E))])) ;;
  save_tokens tokens' ;;;
  shown <- lift (py_get data (lit "open_id") (PStr (lit "N/A"))) ;;
  lift (py_slice20 shown) ;;;
  ret true.

(** The dict [load_tokens] returns for a token file that decodes to a
    dict, or for no file. *)
Definition stored_dict (file : option stored) (d : pydict) : Prop :=
  file = Some (Json (PDict d)) \/ (file = None /\ d = []).

(** The dict and the list of uploads that [add_to_history] extends, for a
    history file it can work on: no file, or a dict whose 'uploads' is a
    list. *)
Definition history_of (file : option stored)
  : option (pydict * list pyval) :=
  match file with
  | None => Some ([(lit "uploads", PList [])], [])
  | Some (Json (PDict d)) =>
      match dict_find (lit "uploads") d with
      | Some (PList l) => Some (d, l)
      | _ => None
      end
  | _ => None
  end.

Definition is_save_history (e : event) : bool :=
  match e with EvSaveHistory _ => true | _ => false end.

(** Attempts to write the token file and the history file, and those
    among them that failed. *)
Definition writes_tokens (e : event) : bool :=
  match e with EvSave _ | EvSaveBroken _ => true | _ => false end.

Definition writes_history (e : event) : bool :=
  match e with EvSaveHistory _ | EvSaveHistoryBroken _ => true | _ => false end.

Definition is_broken_save (e : event) : bool :=
  match e with EvSaveBroken _ | EvSaveHistoryBroken _ => true | _ => false end.

(** The effects [new], added to those of [w], end with a request that
    never gets an answer: the call that sent it waits forever. *)
Definition unanswered (E : env) (w : world) (new : list event) : Prop :=
  exists before rq,
    new = before ++ [EvHttp rq]
    /\ http E (http_count (trace w) + http_count before) rq = Silent.

(** The effects of the local callback listener and the browser. *)
Definition listener_event (e : event) : bool :=
  match e with
  | EvBind _ | EvBrowser _ | EvServe _ _ | EvClose => true
  | _ => false
  end.

(** The stores are such that [show_status] displays them to the end. *)
Definition displayable (w : world) : Prop :=
  fst (show_status w) = Returns tt.

(** A token file whose accounts [show_status] can list. *)
Definition tokens_shown (file : option stored) : Prop :=
  match file with
  | None => True
  | Some Garbage => False
  | Some (Json tokens) =>
      truthy tokens = false
      \/ exists d,
          tokens = PDict d
          /\ Forall (fun data => show_account data = Ok tt) (map snd d)
  end.

(** A history file whose last uploads [show_status] can list. *)
Definition history_shown (file : option stored) : Prop :=
  match file with
  | None => True
  | Some Garbage => False
  | Some (Json history) =>
      exists uploads recent,
        py_get history (lit "uploads") (PList []) = Ok uploads
        /\ py_slice_last 5 uploads = Ok recent
        /\ Forall (fun item => show_upload item = Ok tt)
                  (reversed_items recent)
  end.

(** A request to the provider's API. *)
Definition to_api (rq : request) : bool := startswith API_BASE (rq_url rq).

Definition has_key (name : pystr) {V} (fields : list (pystr * V)) : bool :=
  existsb (fun kv => pystr_eqb (fst kv) name) fields.

(** A request that carries a credential: an Authorization header, or a
    client_secret, refresh_token, code or code_verifier form field. *)
Definition carries_secret (rq : request) : bool :=
  has_key (lit "Authorization") (rq_headers rq)
  || match rq_payload rq with
     | FormData fields =>
         has_key (lit "client_secret") fields
         || has_key (lit "refresh_token") fields
         || has_key (lit "code") fields
         || has_key (lit "code_verifier") fields
     | _ => false
     end.

(** Credentials go to the API only, and what goes elsewhere is a PUT. *)
Definition guarded (e : event) : bool :=
  match e with
  | EvHttp rq =>
      implb (carries_secret rq) (to_api rq)
      && (match rq_verb rq with PUT => true | _ => false end || to_api rq)
  | _ => true
  end.

(** A computation all of whose effects satisfy [P], however it ends. *)
Definition emits {A} (P : event -> bool) (c : M A) : Prop :=
  forall w,
  exists new,
    trace (snd (c w)) = trace w ++ new /\ Forall (fun e => P e = true) new.

(** The arguments of one call of [add_to_history]. *)
Record history_call : Type := mkCall {
  call_account : pystr;
  call_video : pystr;
  call_success : pyval;
  call_sandbox : bool
}.

Definition record_of (E : env) (c : history_call) : pyval :=
  upload_record E (call_account c) (call_video c) (call_success c)
                (call_sandbox c).

(** One call of [add_to_history] after the other. *)
Fixpoint add_each (E : env) (calls : list history_call) : M unit :=
  match calls with
  | [] => ret tt
  | c :: rest =>
      add_to_history E (call_account c) (call_video c) (call_success c)
                     (call_sandbox c) ;;;
      add_each E rest
  end.

(** The sentence "whenever the init response embeds an error code other
    than ok, the failure message contains the provider's error message and
    no PUT is issued", read for every init response. *)
Definition init_error_surfaced : Prop :=
  forall (E : env) (w : world) (path caption tok privacy : pystr)
         (sandbox : bool) (contents : pybytes) (r1 : response)
         (body err : pydict) (code msg : pystr),
    fs E path = Some contents ->
    http E (http_count (trace w))
         (init_request caption privacy tok (Z.of_nat (length contents)))
    = Ok r1 ->
    json_body r1 = Some (PDict body) ->
    dict_find (lit "error") body = Some (PDict err) ->
    dict_find (lit "code") err = Some (PStr code) ->
    code <> lit "ok" ->
    dict_find (lit "message") err = Some (PStr msg) ->
    exists result shown new,
      upload_video_direct E path caption tok privacy sandbox w
      = (Returns result, logs new w)
      /\ field [lit "success"] result = Some (PBool false)
      /\ field [lit "error"] result = Some (PStr shown)
      /\ substring msg shown = true
      /\ Forall (fun e => is_put e = false) new.



(** The sentence "for every failure of [refresh_access_token] the store is
    not written and the stored credential is unchanged": a run that does
    not return [True] leaves the token file as it was. *)
Definition failed_refresh_keeps_store : Prop :=
  forall (E : env) (account : pystr) (w : world),
    fst (refresh_access_token E account w) <> Returns true ->
    tokens_file (snd (refresh_access_token E account w)) = tokens_file w.


(* ================================================================== *)
(** * A concrete environment

    Stand-ins for the library routines and a quiet outside world, used to
    run the module on concrete inputs.  The [urllib.parse] stand-ins cover
    request targets of the form [/path?key=value&key=value] without
    escapes; the properties below hold for any library behaviour. *)
(* ================================================================== *)

Module Sample.

(** [s.partition(c)]: the text before the first [c], and the text after
    it when there is one. *)
Fixpoint cut (c : N) (s : pystr) : pystr * option pystr :=
  match s with
  | [] => ([], None)
  | x :: s' =>
      if N.eqb x c then ([], Some s')
      else let (before, after) := cut c s' in (x :: before, after)
  end.

(** [s.split(c)] *)
Fixpoint split_on (c : N) (s cur : pystr) : list pystr :=
  match s with
  | [] => [rev cur]
  | x :: s' =>
      if N.eqb x c then rev cur :: split_on c s' []
      else split_on c s' (x :: cur)
  end.

Definition plain_urlparse (url : pystr) : url_parts :=
  let (no_fragment, _) := cut 35 url in
  let (path, query) := cut 63 no_fragment in
  mkParts path (match query with Some q => q | None => [] end).

Fixpoint qs_add (k v : pystr) (d : qs_dict) : qs_dict :=
  match d with
  | [] => [(k, (v, []))]
  | (k', (v0, vs)) :: d' =>
      if pystr_eqb k k' then (k', (v0, vs ++ [v])) :: d'
      else (k', (v0, vs)) :: qs_add k v d'
  end.

(** Fields without [=] or with an empty value are dropped. *)
Definition plain_parse_qs (query : pystr) : qs_dict :=
  fold_left
    (fun d field =>
       match cut 61 field with
       | (k, Some (c :: v)) => qs_add k (c :: v) d
       | _ => d
       end)
    (split_on 38 query []) [].

Fixpoint plain_urlencode (params : list (pystr * pystr)) : pystr :=
  match params with
  | [] => []
  | [(k, v)] => k ++ lit "=" ++ v
  | (k, v) :: rest => k ++ lit "=" ++ v ++ lit "&" ++ plain_urlencode rest
  end.

(** An environment with both credentials configured, port 8080 free, no
    video files, and the given HTTP peers. *)
Definition quiet (peers : nat -> request -> awaited response) : env :=
  mkEnv (lit "client-key") (lit "client-secret")
        (lit "http://localhost:8080/callback")
        (fun _ => None)
        (fun p => p)
        (lit "sample_video.mp4")
        None
        peers
        true
        (fun i => byte_of_N (N.of_nat (7 * i + 3)))
        (lit "2026-01-23T18:00:00")
        (fun _ => lit "<container>")
        plain_urlparse plain_parse_qs plain_urlencode.

Definition with_file (path : pystr) (contents : pybytes) (e : env) : env :=
  mkEnv (TIKTOK_CLIENT_KEY e) (TIKTOK_CLIENT_SECRET e) (REDIRECT_URI e)
        (fun p => if pystr_eqb p path then Some contents else fs e p)
        (path_str e) (SAMPLE_VIDEO e) (videos_dir e)
        (http e) (port_free e) (rng e) (now_iso e) (repr_container e)
        (urlparse e) (parse_qs e) (urlencode e).

Definition without_keys (e : env) : env :=
  mkEnv [] [] (REDIRECT_URI e) (fs e)
        (path_str e) (SAMPLE_VIDEO e) (videos_dir e) (http e) (port_free e) (rng e)
        (now_iso e) (repr_container e)
        (urlparse e) (parse_qs e) (urlencode e).

(** No token file, nothing done yet, and the given requests on their way
    to port 8080. *)
Definition fresh (arrivals : list incoming) : world :=
  mkWorld None None None 0 arrivals [].

Definition http_ok (body : pyval) : res response :=
  Ok (mkResponse 200 (lit "{...}") (Some body)).

Definition nobody : nat -> request -> res response :=
  fun _ _ => Raise RequestException.


End Sample.

(** Concrete runs used to illustrate the properties. *)
Module Scenario.
Import Sample.


Definition callback_abc : incoming :=
  mkIncoming (lit "GET") (lit "/callback?code=ABC").

Definition video : pystr := lit "clip.mp4".
Definition clip : pybytes := blit "0123456789".

(** Scenario: the init endpoint answers 400 with an embedded error. *)
Definition invalid_params : response :=
  mkResponse 400 (lit "{...}")
    (Some (PDict [(lit "error",
                   PDict [(lit "code", PStr (lit "invalid_params"));
                          (lit "message", PStr (lit "Invalid parameters"))])])).

Definition refusing : env :=
  with_file video clip (quiet (fun _ _ => Ok invalid_params)).

Definition upload_url : pystr := lit "https://upload.example/v1".
Definition publish_id : pyval := PStr (lit "p1").

(** The init endpoint grants an upload. *)
Definition granted : response :=
  mkResponse 200 (lit "{...}")
    (Some (PDict [(lit "data",
                   PDict [(lit "upload_url", PStr upload_url);
                          (lit "publish_id", publish_id)]);
                  (lit "error", PDict [(lit "code", PStr (lit "ok"))])])).

(** The init endpoint answers 200 with an embedded error. *)
Definition rejected : response :=
  mkResponse 200 (lit "{...}")
    (Some (PDict [(lit "error",
                   PDict [(lit "code", PStr (lit "invalid_params"));
                          (lit "message", PStr (lit "Invalid parameters"))])])).

Definition created : response := mkResponse 201 [] None.

(** An answer whose body is an HTML page, not JSON. *)
Definition page (status : Z) : response :=
  mkResponse status (lit "<html>Bad Gateway</html>") None.

(** The init endpoint is behind a gateway that answers 502 with a page. *)
Definition gateway_down : env :=
  with_file video clip (quiet (fun _ _ => Ok (page 502))).
Definition server_error : response := mkResponse 500 (lit "oops") None.

Definition reporting (status : pystr) (more : pydict) : response :=
  mkResponse 200 (lit "{...}")
    (Some (PDict [(lit "data",
                   PDict ((lit "status", PStr status) :: more))])).

Definition processing_upload : response :=
  reporting (lit "PROCESSING_UPLOAD") [].
Definition complete : response := reporting (lit "PUBLISH_COMPLETE") [].
Definition failed : response :=
  reporting (lit "FAILED")
            [(lit "fail_reason", PStr (lit "file_format_check_failed"))].

(** Peers that answer the first request with [init], the second with
    [put] and every later one with [status]. *)
Definition answers (init put status : response)
  : nat -> request -> res response :=
  fun n _ =>
    match n with
    | O => Ok init
    | S O => Ok put
    | _ => Ok status
    end.

Definition uploading (init put status : response) : env :=
  with_file video clip (quiet (answers init put status)).

Definition caption0 : pystr := lit "Learn English".
Definition token0 : pystr := lit "act.token".
Definition self_only : pystr := lit "SELF_ONLY".



(** The token endpoint grants a credential. *)
Definition token_grant : pydict :=
  [(lit "access_token", PStr (lit "act.new"));
   (lit "refresh_token", PStr (lit "rft.new"));
   (lit "expires_in", PInt 86400);
   (lit "open_id", PStr (lit "user-1"));
   (lit "scope", PStr SCOPES)].

Definition authorising : env := quiet (fun _ _ => http_ok (PDict token_grant)).

(** A run of the whole authorization: the callback brings the code ABC and
    the exchange is granted. *)
Definition authorised_run : outcome bool * world :=
  authenticate authorising (lit "default") (fresh [callback_abc]).

(** A token file with two accounts. *)
Definition stored_tokens : pydict :=
  [(lit "default",
    PDict [(lit "access_token", PStr (lit "act.old"));
           (lit "refresh_token", PStr (lit "rft.old"));
           (lit "open_id", PStr (lit "user-1"));
           (lit "scope", PStr SCOPES)]);
   (lit "second", PDict [(lit "access_token", PStr (lit "act.other"))])].

Definition signed_in : world :=
  mkWorld (Some (Json (PDict stored_tokens))) None None 0 [] [].

(** The token endpoint renews the access token and sends no new refresh
    token. *)
Definition renewing : env :=
  quiet (fun _ _ => http_ok (PDict [(lit "access_token",
                                     PStr (lit "act.new"))])).

Definition refresh_run : outcome bool * world :=
  refresh_access_token renewing (lit "default") signed_in.

(** The token endpoint renews the access token with the JSON string
    ["\ud800"]: [response.json()] decodes it to a string holding a lone
    surrogate. *)
Definition spoiling : env :=
  quiet (fun _ _ => http_ok (PDict [(lit "access_token",
                                     PStr [55296%N])])).

(** A failed sandbox post followed by a successful production post. *)
Definition two_calls : list history_call :=
  [mkCall (lit "default") video (PBool false) true;
   mkCall (lit "second") video (PBool true) false].

(** The command line [--auth]. *)
Definition auth_args : arguments :=
  mkArguments true (lit "default") false false None None false false.

(** The token endpoint grants a credential whose open_id is a number. *)
Definition odd_grant : pydict :=
  [(lit "access_token", PStr (lit "act.new"));
   (lit "refresh_token", PStr (lit "rft.new"));
   (lit "open_id", PInt 7)].

Definition crashing : env := quiet (fun _ _ => http_ok (PDict odd_grant)).

Definition crash_run : outcome bool * world :=
  authenticate crashing (lit "default") (fresh [callback_abc]).
End Scenario.

(* ================================================================== *)
(** * Properties *)
(* ================================================================== *)

(** ** Strings *)

Lemma pystr_eqb_eq (s t : pystr) : pystr_eqb s t = true <-> s = t.
Proof.
  revert t; induction s as [|a s IH]; intros [|b t]; simpl; split;
    try congruence; try discriminate.
  - intros H. apply andb_true_iff in H as [Hab Hst].
    apply N.eqb_eq in Hab. apply IH in Hst. congruence.
  - intros H. injection H as -> ->. rewrite N.eqb_refl. simpl. now apply IH.
Qed.

Lemma pystr_eqb_refl (s : pystr) : pystr_eqb s s = true.
Proof. now apply pystr_eqb_eq. Qed.

Lemma pystr_eqb_neq (s t : pystr) : pystr_eqb s t = false <-> s <> t.
Proof.
  split.
  - intros H Heq. apply pystr_eqb_eq in Heq. congruence.
  - intros H. destruct (pystr_eqb s t) eqn:Heq; [|reflexivity].
    apply pystr_eqb_eq in Heq. contradiction.
Qed.

(** ** [rstrip] *)

Section RstripFacts.
Context {A : Type} (is_c : A -> bool).

Lemma rstrip_keeps (l : list A) :
  Forall (fun x => is_c x = false) l -> rstrip is_c l = l.
Proof.
  induction 1 as [|x l Hx _ IH]; simpl; [reflexivity|].
  rewrite IH. destruct l; [now rewrite Hx|reflexivity].
Qed.

Lemma rstrip_cons_keeps (x : A) (l : list A) :
  rstrip is_c l <> [] -> rstrip is_c (x :: l) = x :: rstrip is_c l.
Proof. simpl. destruct (rstrip is_c l); congruence. Qed.

Lemma rstrip_all (l : list A) :
  Forall (fun x => is_c x = true) l -> rstrip is_c l = [].
Proof.
  induction 1 as [|x l Hx _ IH]; simpl; [reflexivity|].
  now rewrite IH, Hx.
Qed.

Lemma rstrip_app (l tail : list A) :
  Forall (fun x => is_c x = false) l ->
  Forall (fun x => is_c x = true) tail ->
  rstrip is_c (l ++ tail) = l.
Proof.
  intros Hl Ht. induction Hl as [|x l Hx Hl IH]; simpl.
  - now apply rstrip_all.
  - rewrite IH. destruct l; [now rewrite Hx|reflexivity].
Qed.
End RstripFacts.

Lemma rstrip_map {A B} (f : A -> B) (p : A -> bool) (q : B -> bool) (l : list A) :
  (forall x, q (f x) = p x) ->
  rstrip q (map f l) = map f (rstrip p l).
Proof.
  intros Hpq. induction l as [|x l IH]; simpl; [reflexivity|].
  rewrite IH. destruct (rstrip p l); simpl; [|reflexivity].
  rewrite Hpq. now destruct (p x).
Qed.

(** ** base64 *)

Lemma list_ind3 {A} (P : list A -> Prop) :
  P [] -> (forall a, P [a]) -> (forall a b, P [a; b]) ->
  (forall a b c l, P l -> P (a :: b :: c :: l)) ->
  forall l, P l.
Proof.
  intros H0 H1 H2 H3.
  assert (Hall : forall l, P l /\ (forall a, P (a :: l)) /\ (forall a b, P (a :: b :: l))).
  { induction l as [|x l (IH0 & IH1 & IH2)]; repeat split; auto. }
  intros l. apply Hall.
Qed.

Lemma lor_lt_64 (a b : N) : (a < 64 -> b < 64 -> N.lor a b < 64)%N.
Proof.
  intros Ha Hb.
  destruct (N.eq_dec (N.lor a b) 0) as [->|Hz]; [reflexivity|].
  change 64%N with (2 ^ 6)%N. apply N.log2_lt_pow2; [lia|].
  rewrite N.log2_lor.
  assert (Hlog : forall x, (x < 64)%N -> (N.log2 x < 6)%N).
  { intros x Hx. destruct (N.eq_dec x 0) as [->|Hx0]; [reflexivity|].
    apply N.log2_lt_pow2; [lia|exact Hx]. }
  apply N.max_lub_lt; auto.
Qed.

Module Base64Facts.
Import Base64.

Lemma sextet0_lt (a : byte) : (sextet0 a < 64)%N.
Proof.
  unfold sextet0. rewrite N.shiftr_div_pow2.
  pose proof (Byte.to_N_bounded a).
  apply N.Div0.div_lt_upper_bound. change (2 ^ 2)%N with 4%N. lia.
Qed.

Lemma sextet3_lt (c : byte) : (sextet3 c < 64)%N.
Proof.
  unfold sextet3. pose proof (N.land_le_r (Byte.to_N c) 63). lia.
Qed.

Lemma sextet1_lt (a b : byte) : (sextet1 a b < 64)%N.
Proof.
  unfold sextet1. apply lor_lt_64.
  - rewrite N.shiftl_mul_pow2. change (2 ^ 4)%N with 16%N.
    pose proof (N.land_le_r (Byte.to_N a) 3). lia.
  - rewrite N.shiftr_div_pow2. pose proof (Byte.to_N_bounded b).
    apply N.Div0.div_lt_upper_bound. change (2 ^ 4)%N with 16%N. lia.
Qed.

Lemma sextet2_lt (b c : byte) : (sextet2 b c < 64)%N.
Proof.
  unfold sextet2. apply lor_lt_64.
  - rewrite N.shiftl_mul_pow2. change (2 ^ 2)%N with 4%N.
    pose proof (N.land_le_r (Byte.to_N b) 15). lia.
  - rewrite N.shiftr_div_pow2. pose proof (Byte.to_N_bounded c).
    apply N.Div0.div_lt_upper_bound. change (2 ^ 6)%N with 64%N. lia.
Qed.

(** Every digit of the translated alphabet is a URL-safe character. *)
Lemma digit_urlsafe (n : N) :
  (n < 64)%N -> urlsafe_char (Byte.to_N (urlsafe_translate (digit n))) = true.
Proof.
  intros Hn. rewrite <- (N2Nat.id n).
  assert (Hk : (N.to_nat n < 64)%nat) by lia.
  set (k := N.to_nat n) in *. clearbody k. clear Hn.
  do 64 (destruct k as [|k]; [vm_compute; reflexivity|]). lia.
Qed.

Lemma urlsafe_char_ascii (c : N) :
  urlsafe_char c = true -> (c < 128)%N /\ c <> eq_sign.
Proof.
  unfold urlsafe_char, eq_sign. intros H.
  repeat (apply orb_true_iff in H as [H|H]);
    repeat (apply andb_true_iff in H as [? H]);
    repeat match goal with
           | X : (_ <=? _)%N = true |- _ => apply N.leb_le in X
           | X : (_ =? _)%N = true |- _ => apply N.eqb_eq in X
           end; lia.
Qed.

Definition urlsafe_byte (x : byte) : Prop := urlsafe_char (Byte.to_N x) = true.

Lemma nopad_urlsafe (data : pybytes) : Forall urlsafe_byte (b64url_nopad data).
Proof.
  induction data as [|a|a b|a b c l IH] using list_ind3; simpl;
    repeat constructor; try assumption; unfold urlsafe_byte;
    apply digit_urlsafe;
    auto using sextet0_lt, sextet1_lt, sextet2_lt, sextet3_lt.
Qed.

Lemma nopad_length (data : pybytes) :
  length (b64url_nopad data) = ((4 * length data + 2) / 3)%nat.
Proof.
  induction data as [|a|a b|a b c l IH] using list_ind3; try reflexivity.
  cbn [b64url_nopad length]. rewrite IH.
  replace (4 * S (S (S (length l))) + 2)%nat
    with ((4 * length l + 2) + 4 * 3)%nat by lia.
  rewrite Nat.div_add by lia. lia.
Qed.

(** The padded encoding: the unpadded digits, then only [=]. *)
Lemma padded_split (data : pybytes) :
  exists k, urlsafe_b64encode data = b64url_nopad data ++ repeat pad k.
Proof.
  unfold urlsafe_b64encode.
  induction data as [|a|a b|a b c l [k IH]] using list_ind3.
  - now exists 0%nat.
  - now exists 2%nat.
  - now exists 1%nat.
  - exists k. cbn [b64encode b64url_nopad map app]. now rewrite IH.
Qed.

(** Stripping the trailing [=] of the padded URL-safe encoding gives the
    unpadded encoding. *)
Lemma rstrip_padded (data : pybytes) :
  bytes_rstrip_eq (urlsafe_b64encode data) = b64url_nopad data.
Proof.
  destruct (padded_split data) as [k ->]. unfold bytes_rstrip_eq.
  apply rstrip_app.
  - eapply Forall_impl; [|apply nopad_urlsafe].
    intros x Hx. apply urlsafe_char_ascii in Hx as [_ Hx].
    now apply N.eqb_neq.
  - apply Forall_forall. intros x Hx. apply repeat_spec in Hx. now subst.
Qed.
End Base64Facts.

Lemma decode_ascii_ok (b : pybytes) :
  Forall (fun x => (Byte.to_N x < 128)%N) b ->
  decode_ascii b = Ok (map Byte.to_N b).
Proof.
  induction 1 as [|x b Hx _ IH]; simpl; [reflexivity|].
  apply N.ltb_lt in Hx. now rewrite Hx, IH.
Qed.

Lemma encode_ascii_ok (s : pystr) :
  Forall (fun c => (c < 128)%N) s ->
  encode_ascii s = Ok (map byte_of_N s).
Proof.
  induction 1 as [|c s Hc _ IH]; simpl; [reflexivity|].
  apply N.ltb_lt in Hc. now rewrite Hc, IH.
Qed.

Module PkceFacts.
Import Base64 Base64Facts.

Lemma nopad_ascii (data : pybytes) :
  Forall (fun x => (Byte.to_N x < 128)%N) (b64url_nopad data).
Proof.
  eapply Forall_impl; [|apply nopad_urlsafe].
  intros x Hx. now apply urlsafe_char_ascii in Hx.
Qed.

Lemma padded_ascii (data : pybytes) :
  Forall (fun x => (Byte.to_N x < 128)%N) (urlsafe_b64encode data).
Proof.
  destruct (padded_split data) as [k ->]. apply Forall_app. split.
  - apply nopad_ascii.
  - apply Forall_forall. intros x Hx. apply repeat_spec in Hx. now subst.
Qed.

Lemma token_urlsafe_ok (tok : pybytes) :
  token_urlsafe tok = Ok (map Byte.to_N (b64url_nopad tok)).
Proof.
  unfold token_urlsafe. rewrite rstrip_padded.
  apply decode_ascii_ok, nopad_ascii.
Qed.

(** Decoding the padded encoding and stripping [=] from the string is
    decoding the unpadded encoding. *)
Lemma decode_then_strip (data : pybytes) :
  exists padded,
    decode_ascii (urlsafe_b64encode data) = Ok padded
    /\ str_rstrip_eq padded = map Byte.to_N (b64url_nopad data).
Proof.
  exists (map Byte.to_N (urlsafe_b64encode data)). split.
  - apply decode_ascii_ok, padded_ascii.
  - unfold str_rstrip_eq.
    rewrite (rstrip_map Byte.to_N (fun x => N.eqb (Byte.to_N x) eq_sign)).
    + f_equal. apply rstrip_padded.
    + intros x. apply N.eqb_sym.
Qed.

Lemma urlsafe_token (data : pybytes) :
  Forall (fun c => urlsafe_char c = true) (map Byte.to_N (b64url_nopad data)).
Proof.
  apply Forall_map. apply nopad_urlsafe.
Qed.
End PkceFacts.

(** What a run of [generate_pkce] returns and leaves behind. *)
Lemma generate_pkce_run (E : env) (w : world) :
  exists verifier challenge ascii padded,
    generate_pkce E w
    = (Returns challenge,
       mkWorld (tokens_file w) (history_file w) (Some verifier) (rng_pos w + 64)%nat
               (inbox w) (trace w))
    /\ encode_ascii verifier = Ok ascii
    /\ decode_ascii (Base64.urlsafe_b64encode (SHA256.digest ascii)) = Ok padded
    /\ challenge = str_rstrip_eq padded
    /\ challenge_of verifier = Ok challenge
    /\ length verifier = 86%nat
    /\ (43 <= length verifier <= 128)%nat
    /\ Forall (fun c => Base64.urlsafe_char c = true) verifier.
Proof.
  set (tok := map (fun i => rng E (rng_pos w + i)%nat) (seq 0 64)).
  set (verifier := map Byte.to_N (Base64.b64url_nopad tok)).
  assert (Hlen : length verifier = 86%nat).
  { unfold verifier. rewrite length_map, Base64Facts.nopad_length.
    unfold tok. rewrite length_map, length_seq. reflexivity. }
  assert (Hsafe : Forall (fun c => Base64.urlsafe_char c = true) verifier)
    by apply PkceFacts.urlsafe_token.
  assert (Hascii : encode_ascii verifier = Ok (map byte_of_N verifier)).
  { apply encode_ascii_ok. eapply Forall_impl; [|exact Hsafe].
    intros c Hc. now apply Base64Facts.urlsafe_char_ascii in Hc. }
  destruct (PkceFacts.decode_then_strip (SHA256.digest (map byte_of_N verifier)))
    as (padded & Hpad & Hstrip).
  assert (Hslice : slice_to 128 verifier = verifier).
  { unfold slice_to. apply firstn_all2. lia. }
  exists verifier, (str_rstrip_eq padded), (map byte_of_N verifier), padded.
  repeat split; try assumption; try lia.
  - unfold generate_pkce, bind, token_bytes, set_code_verifier, lift, ret.
    fold tok. rewrite PkceFacts.token_urlsafe_ok. fold verifier.
    rewrite Hslice, Hascii, Hpad. reflexivity.
  - unfold challenge_of, rbind. rewrite Hascii, Hstrip.
    apply decode_ascii_ok, PkceFacts.nopad_ascii.
Qed.

(** C4.  Every run of [generate_pkce] returns: it leaves a verifier in
    [_code_verifier] and returns a challenge such that the challenge is the
    URL-safe base64 text of the SHA-256 digest of the verifier with the
    trailing [=] stripped (which is the unpadded encoding of that digest),
    the verifier is 86 characters long, hence within 43..128, and all its
    characters are letters, digits, [-] or [_]. *)
Theorem generate_pkce_pair (E : env) (w : world) :
  exists verifier challenge ascii padded,
    generate_pkce E w
    = (Returns challenge,
       mkWorld (tokens_file w) (history_file w) (Some verifier) (rng_pos w + 64)%nat
               (inbox w) (trace w))
    /\ encode_ascii verifier = Ok ascii
    /\ decode_ascii (Base64.urlsafe_b64encode (SHA256.digest ascii)) = Ok padded
    /\ challenge = str_rstrip_eq padded
    /\ challenge_of verifier = Ok challenge
    /\ length verifier = 86%nat
    /\ (43 <= length verifier <= 128)%nat
    /\ Forall (fun c => Base64.urlsafe_char c = true) verifier.
Proof. exact (generate_pkce_run E w). Qed.

(** ** The trace *)

Lemma logs_nil (w : world) : logs [] w = w.
Proof. destruct w. unfold logs. simpl. now rewrite app_nil_r. Qed.

Lemma logs_logs (a b : list event) (w : world) :
  logs b (logs a w) = logs (a ++ b) w.
Proof. unfold logs. simpl. now rewrite app_assoc. Qed.

Lemma log_logs (e : event) (w : world) : log e w = logs [e] w.
Proof. reflexivity. Qed.

Lemma http_count_app (t u : list event) :
  http_count (t ++ u) = (http_count t + http_count u)%nat.
Proof. unfold http_count. now rewrite filter_app, length_app. Qed.

Lemma http_count_passes (rq : request) (pauses : list Z) :
  http_count (passes rq pauses) = length pauses.
Proof.
  induction pauses as [|s l IH]; [reflexivity|].
  unfold passes in *. simpl. unfold http_count in *. simpl. now rewrite IH.
Qed.

(** ** Calls that go through *)

Lemma send_ok (E : env) (rq : request) (w : world) (r : response) :
  http E (http_count (trace w)) rq = Ok r ->
  send E rq w = (Returns r, logs [EvHttp rq] w).
Proof. intros H. unfold send. now rewrite H. Qed.

Lemma is_str_false (s : pystr) (v : pyval) :
  v <> PStr s -> is_str s v = false.
Proof.
  intros H. destruct v; try reflexivity. simpl.
  apply pystr_eqb_neq. congruence.
Qed.

Lemma is_str_true (s : pystr) (v : pyval) :
  is_str s v = true <-> v = PStr s.
Proof.
  split.
  - destruct v; try discriminate. simpl. intros H.
    apply pystr_eqb_eq in H. now subst.
  - intros ->. simpl. apply pystr_eqb_refl.
Qed.

(** A response without a terminal status makes the pass go on. *)
Lemma check_status_goes_on (E : env) (pid : pyval) (r : response) :
  no_terminal_status r -> exists secs, check_status E pid r = Ok (Go secs).
Proof.
  intros [Hcode | (body & st & Hbody & Hst & Hc & Hf)]; unfold check_status.
  - apply Z.eqb_neq in Hcode. rewrite Hcode. now exists 2.
  - destruct (status_code r =? 200); [|now exists 2].
    unfold json. rewrite Hbody. unfold rbind at 1. rewrite Hst.
    unfold rbind. rewrite (is_str_false _ _ Hc), (is_str_false _ _ Hf).
    destruct (processing st); eauto.
Qed.

Lemma poll_once_goes_on (E : env) (tok : pystr) (pid : pyval) (w : world)
      (r : response) (secs : Z) :
  http E (http_count (trace w)) (status_request tok pid) = Ok r ->
  check_status E pid r = Ok (Go secs) ->
  poll_once E tok pid w
  = (Returns (Go tt), logs [EvHttp (status_request tok pid); EvSleep secs] w).
Proof.
  intros Hr Hc. unfold poll_once, bind.
  rewrite (send_ok _ _ _ _ Hr). unfold lift. rewrite Hc.
  unfold sleep, ret. rewrite log_logs, logs_logs. reflexivity.
Qed.

Lemma poll_once_returns (E : env) (tok : pystr) (pid : pyval) (w : world)
      (r : response) (result : pyval) :
  http E (http_count (trace w)) (status_request tok pid) = Ok r ->
  check_status E pid r = Ok (Return result) ->
  poll_once E tok pid w
  = (Returns (Return result), logs [EvHttp (status_request tok pid)] w).
Proof.
  intros Hr Hc. unfold poll_once, bind.
  rewrite (send_ok _ _ _ _ Hr). unfold lift. now rewrite Hc.
Qed.


Lemma http_count_logs (new : list event) (w : world) :
  http_count (trace (logs new w)) = (http_count (trace w) + http_count new)%nat.
Proof. simpl. apply http_count_app. Qed.




(** [body['data'][key]] found means [data_field] finds it. *)
Lemma data_field_found (body : pyval) (key : pystr) (default v : pyval) :
  field [lit "data"; key] body = Some v ->
  data_field body key default = Ok v.
Proof.
  unfold data_field, rbind, py_get. cbn [field].
  destruct body as [| | | | |d]; try discriminate.
  destruct (dict_find (lit "data") d) as [[| | | | |dd]|]; try discriminate.
  destruct (dict_find key dd); [|discriminate]. congruence.
Qed.


(** C2.  A pass whose status response has code 200 and reports a terminal
    status ends the loop at once, whatever budget is left: the only effect
    is that one status fetch.  PUBLISH_COMPLETE gives the success dict with
    the publish id that was polled; FAILED gives the failure dict whose
    message is "Publish failed: " followed by the reported fail_reason. *)
Theorem terminal_status_returns
        (E : env) (tok : pystr) (pid : pyval) (n : nat) (w : world)
        (r : response) (body : pyval) :
  http E (http_count (trace w)) (status_request tok pid) = Ok r ->
  status_code r = 200 ->
  json_body r = Some body ->
  (field [lit "data"; lit "status"] body = Some (PStr (lit "PUBLISH_COMPLETE")) ->
   poll E (S n) tok pid w
   = (Returns (PDict [(lit "success", PBool true);
                      (lit "publish_id", pid);
                      (lit "status", PStr (lit "PUBLISH_COMPLETE"))]),
      logs [EvHttp (status_request tok pid)] w))
  /\ (forall reason,
        field [lit "data"; lit "status"] body = Some (PStr (lit "FAILED")) ->
        field [lit "data"; lit "fail_reason"] body = Some reason ->
        poll E (S n) tok pid w
        = (Returns (PDict [(lit "success", PBool false);
                           (lit "error",
                            PStr (lit "Publish failed: " ++ py_str E reason));
                           (lit "publish_id", pid)]),
           logs [EvHttp (status_request tok pid)] w)).
Proof.
  intros Hr Hcode Hbody. split.
  - intros Hst. cbn [poll]. unfold bind at 1.
    erewrite poll_once_returns; [reflexivity|exact Hr|].
    unfold check_status, json. rewrite Hcode, Hbody. simpl Z.eqb. cbv iota.
    unfold rbind at 1.
    rewrite (data_field_found _ _ _ _ Hst). reflexivity.
  - intros reason Hst Hreason. cbn [poll]. unfold bind at 1.
    erewrite poll_once_returns; [reflexivity|exact Hr|].
    unfold check_status, json. rewrite Hcode, Hbody. simpl Z.eqb. cbv iota.
    unfold rbind at 1.
    rewrite (data_field_found _ _ _ _ Hst).
    unfold rbind. change (is_str (lit "PUBLISH_COMPLETE") (PStr (lit "FAILED")))
      with false. cbv iota.
    change (is_str (lit "FAILED") (PStr (lit "FAILED"))) with true. cbv iota.
    rewrite (data_field_found _ _ _ _ Hreason). reflexivity.
Qed.

Lemma terminal_status_returns_witness :
  poll (Sample.quiet (fun _ _ => Ok Scenario.complete)) 10 Scenario.token0 Scenario.publish_id
       (Sample.fresh [])
  = (Returns (PDict [(lit "success", PBool true);
                     (lit "publish_id", Scenario.publish_id);
                     (lit "status", PStr (lit "PUBLISH_COMPLETE"))]),
     logs [EvHttp (status_request Scenario.token0 Scenario.publish_id)] (Sample.fresh []))
  /\ poll (Sample.quiet (fun _ _ => Ok Scenario.failed)) 10 Scenario.token0 Scenario.publish_id
          (Sample.fresh [])
     = (Returns (PDict [(lit "success", PBool false);
                        (lit "error",
                         PStr (lit "Publish failed: file_format_check_failed"));
                        (lit "publish_id", Scenario.publish_id)]),
        logs [EvHttp (status_request Scenario.token0 Scenario.publish_id)] (Sample.fresh [])).
Proof.
  split.
  - apply (proj1 (terminal_status_returns
                    (Sample.quiet (fun _ _ => Ok Scenario.complete)) Scenario.token0 Scenario.publish_id
                    9 (Sample.fresh []) Scenario.complete
                    (PDict [(lit "data",
                             PDict [(lit "status",
                                     PStr (lit "PUBLISH_COMPLETE"))])])
                    eq_refl eq_refl eq_refl)).
    reflexivity.
  - apply (proj2 (terminal_status_returns
                    (Sample.quiet (fun _ _ => Ok Scenario.failed)) Scenario.token0 Scenario.publish_id
                    9 (Sample.fresh []) Scenario.failed
                    (PDict [(lit "data",
                             PDict [(lit "status", PStr (lit "FAILED"));
                                    (lit "fail_reason",
                                     PStr (lit "file_format_check_failed"))])])
                    eq_refl eq_refl eq_refl)
                 (PStr (lit "file_format_check_failed"))).
    + reflexivity.
    + reflexivity.
Defined.

(** ** Computations that only add to the trace *)

Lemma appends_ret {A} (a : A) : appends (ret a).
Proof. intros w. exists (Returns a), []. unfold ret. now rewrite logs_nil. Qed.

Lemma appends_lift {A} (r : res A) : appends (lift r).
Proof.
  intros w. unfold lift. destruct r; eexists _, []; now rewrite logs_nil.
Qed.

Lemma appends_bind {A B} (c : M A) (k : A -> M B) :
  appends c -> (forall a, appends (k a)) -> appends (bind c k).
Proof.
  intros Hc Hk w. unfold bind. destruct (Hc w) as (o & new & ->).
  destruct o as [a|e|].
  - destruct (Hk a (logs new w)) as (o' & new' & ->).
    exists o', (new ++ new'). now rewrite logs_logs.
  - now exists (Raises e), new.
  - now exists Blocks, new.
Qed.

Lemma appends_send (E : env) (rq : request) : appends (send E rq).
Proof.
  intros w. unfold send.
  destruct (http E (http_count (trace w)) rq) as [[r|e]|];
    eexists _, [EvHttp rq]; reflexivity.
Qed.

Lemma appends_sleep (E : env) (secs : Z) : appends (sleep secs).
Proof. intros w. now exists (Returns tt), [EvSleep secs]. Qed.

Lemma appends_poll (E : env) (tok : pystr) (pid : pyval) (n : nat) :
  appends (poll E n tok pid).
Proof.
  induction n as [|n IH]; cbn [poll]; [apply appends_ret|].
  apply appends_bind.
  - unfold poll_once. apply appends_bind; [apply appends_send|]. intros r.
    apply appends_bind; [apply appends_lift|]. intros [result|secs].
    + apply appends_ret.
    + apply appends_bind; [now apply appends_sleep|]. intros _.
      apply appends_ret.
  - intros [result|u]; [apply appends_ret|exact IH].
Qed.

Lemma send_logs (E : env) (rq : request) (w : world) :
  exists o, send E rq w = (o, logs [EvHttp rq] w).
Proof.
  unfold send. destruct (http E (http_count (trace w)) rq) as [[r|e]|]; eauto.
Qed.

(** C7.  Whenever the video file exists, the first thing
    [upload_video_direct] does is POST the init request, and its JSON body
    carries the caption cut to its first 150 characters as title, a
    chunk_size of min(file size, 10 MiB) and a total_chunk_count of 1. *)
Theorem init_body_shape
        (E : env) (w : world) (path caption tok privacy : pystr)
        (sandbox : bool) (contents : pybytes) :
  let size := Z.of_nat (length contents) in
  fs E path = Some contents ->
  exists o title body rest,
    upload_video_direct E path caption tok privacy sandbox w
    = (o, logs (EvHttp (mkRequest POST
                          (API_BASE ++ lit "/post/publish/video/init/")
                          (bearer tok) (JsonBody body)) :: rest) w)
    /\ field [lit "post_info"; lit "title"] body = Some (PStr title)
    /\ title = firstn 150 caption
    /\ (length title <= 150)%nat
    /\ field [lit "source_info"; lit "chunk_size"] body
       = Some (PInt (Z.min size (10 * 1024 * 1024)))
    /\ (0 <= Z.min size (10 * 1024 * 1024) <= 10 * 1024 * 1024)
    /\ field [lit "source_info"; lit "total_chunk_count"] body = Some (PInt 1).
Proof.
  intros size Hfs.
  assert (Hrest : forall init_response,
             appends (granted <- lift (check_init init_response) ;;
                      match granted with
                      | Return result => ret result
                      | Go (upload_url, publish_id) =>
                          upload_response <- requests_put E upload_url contents ;;
                          match check_transfer upload_response with
                          | Return result => ret result
                          | Go _ => poll E 10 tok publish_id
                          end
                      end)).
  { intros r. apply appends_bind; [apply appends_lift|].
    intros [result|[upload_url publish_id]]; [apply appends_ret|].
    apply appends_bind.
    - unfold requests_put. destruct upload_url;
        try apply appends_lift. apply appends_send.
    - intros r2. destruct (check_transfer r2);
        [apply appends_ret|apply appends_poll]. }
  set (init := init_request caption privacy tok size).
  assert (Hrun : exists o rest,
             upload_video_direct E path caption tok privacy sandbox w
             = (o, logs (EvHttp init :: rest) w)).
  { unfold upload_video_direct. rewrite Hfs. fold size. fold init.
    unfold bind at 1. destruct (send_logs E init w) as [o ->].
    destruct o as [r|e|].
    - destruct (Hrest r (logs [EvHttp init] w)) as (o' & rest & ->).
      exists o', rest. now rewrite logs_logs.
    - now exists (Raises e), [].
    - now exists Blocks, []. }
  destruct Hrun as (o & rest & Hrun).
  exists o, (firstn 150 caption), (init_payload caption privacy size), rest.
  split; [exact Hrun|].
  repeat split; try reflexivity.
  - apply firstn_le_length.
  - lia.
  - lia.
Qed.

Lemma init_body_shape_witness :
  exists o title body rest,
    upload_video_direct
      (Scenario.uploading Scenario.granted Scenario.created Scenario.complete)
      Scenario.video (repeat 97%N 200) Scenario.token0 Scenario.self_only true
      (Sample.fresh [])
    = (o, logs (EvHttp (mkRequest POST
                          (API_BASE ++ lit "/post/publish/video/init/")
                          (bearer Scenario.token0) (JsonBody body)) :: rest)
               (Sample.fresh []))
    /\ field [lit "post_info"; lit "title"] body = Some (PStr title)
    /\ title = firstn 150 (repeat 97%N 200)
    /\ (length title <= 150)%nat
    /\ field [lit "source_info"; lit "chunk_size"] body
       = Some (PInt (Z.min 10 (10 * 1024 * 1024)))
    /\ (0 <= Z.min 10 (10 * 1024 * 1024) <= 10 * 1024 * 1024)
    /\ field [lit "source_info"; lit "total_chunk_count"] body = Some (PInt 1).
Proof.
  apply (init_body_shape
           (Scenario.uploading Scenario.granted Scenario.created
                               Scenario.complete)
           (Sample.fresh []) Scenario.video (repeat 97%N 200) Scenario.token0
           Scenario.self_only true Scenario.clip).
  reflexivity.
Defined.

(** C3, as the code has it.  A refused init response ends the call after the
    init POST alone, and a refused transfer ends it after the init POST and
    the PUT alone:
    - init answered 200 with an embedded error code other than "ok": the
      failure message is the provider's message ("Unknown error" when it
      sends none), the response body is under details;
    - init answered with another status and a body that is empty or
      decodes: the failure message is "Init failed: <status>", the decoded
      body (or an empty dict for an empty body) is under details;
    - init answered with another status and a body that is not empty and
      does not decode: the call raises the decoder's exception;
    - PUT answered with a status other than 200 and 201: the failure
      message is "Upload failed: <status>", and no status fetch follows. *)
Theorem failed_phase_aborts
        (E : env) (w : world) (path caption tok privacy : pystr)
        (sandbox : bool) (contents : pybytes) (r1 : response) :
  let k := http_count (trace w) in
  let init := init_request caption privacy tok (Z.of_nat (length contents)) in
  fs E path = Some contents ->
  http E k init = Ok r1 ->
  (forall body err code,
      status_code r1 = 200 ->
      json_body r1 = Some (PDict body) ->
      dict_find (lit "error") body = Some (PDict err) ->
      dict_find (lit "code") err = Some code ->
      code <> PStr (lit "ok") ->
      upload_video_direct E path caption tok privacy sandbox w
      = (Returns (PDict [(lit "success", PBool false);
                         (lit "error",
                          match dict_find (lit "message") err with
                          | Some message => message
                          | None => PStr (lit "Unknown error")
                          end);
                         (lit "details", PDict body)]),
         logs [EvHttp init] w))
  /\ (forall details,
         status_code r1 <> 200 ->
         (text r1 <> [] /\ json_body r1 = Some details
          \/ text r1 = [] /\ details = PDict []) ->
         upload_video_direct E path caption tok privacy sandbox w
         = (Returns (failure (lit "Init failed: " ++ str_of_int (status_code r1))
                             details),
            logs [EvHttp init] w))
  /\ (status_code r1 <> 200 ->
      text r1 <> [] ->
      json_body r1 = None ->
      upload_video_direct E path caption tok privacy sandbox w
      = (Raises JSONDecodeError, logs [EvHttp init] w))
  /\ (forall url pid r2,
         check_init r1 = Ok (Go (PStr url, pid)) ->
         http E (k + 1) (put_request url contents) = Ok r2 ->
         status_code r2 <> 200 ->
         status_code r2 <> 201 ->
         upload_video_direct E path caption tok privacy sandbox w
         = (Returns (failure (lit "Upload failed: "
                                ++ str_of_int (status_code r2))
                             (PStr (text r2))),
            logs [EvHttp init; EvHttp (put_request url contents)] w)).
Proof.
  intros k init Hfs Hinit.
  assert (Hstart : forall K : response -> M pyval,
             bind (send E init) K w = K r1 (logs [EvHttp init] w)).
  { intros K. unfold bind. now rewrite (send_ok E init w r1 Hinit). }
  repeat split.
  - intros body err code H200 Hbody Herr Hcode Hnok.
    unfold upload_video_direct. rewrite Hfs. fold init. rewrite Hstart.
    assert (Hchk : check_init r1
                   = Ok (Return (PDict [(lit "success", PBool false);
                         (lit "error",
                          match dict_find (lit "message") err with
                          | Some message => message
                          | None => PStr (lit "Unknown error")
                          end);
                         (lit "details", PDict body)]))).
    { unfold check_init, json. rewrite H200, Hbody. simpl Z.eqb. cbv iota.
      cbn [negb rbind py_in py_item py_get]. rewrite Herr.
      cbn [rbind py_get]. rewrite Hcode.
      rewrite (is_str_false _ _ Hnok). reflexivity. }
    unfold bind, lift. rewrite Hchk. reflexivity.
  - intros details Hcode Hdetails.
    unfold upload_video_direct. rewrite Hfs. fold init. rewrite Hstart.
    assert (Hchk : check_init r1
                   = Ok (Return (failure (lit "Init failed: "
                                            ++ str_of_int (status_code r1))
                                         details))).
    { unfold check_init. apply Z.eqb_neq in Hcode. rewrite Hcode.
      cbn [negb]. destruct Hdetails as [[Htext Hjson]|[Htext ->]].
      - unfold json. rewrite Hjson.
        destruct (text r1); [congruence|reflexivity].
      - rewrite Htext. reflexivity. }
    unfold bind, lift. rewrite Hchk. reflexivity.
  - intros Hcode Htext Hjson.
    unfold upload_video_direct. rewrite Hfs. fold init. rewrite Hstart.
    assert (Hchk : check_init r1 = Raise JSONDecodeError).
    { unfold check_init, json. apply Z.eqb_neq in Hcode. rewrite Hcode, Hjson.
      cbn [negb]. destruct (text r1); [congruence|reflexivity]. }
    unfold bind, lift. rewrite Hchk. reflexivity.
  - intros url pid r2 Hgrant Hput H200 H201.
    unfold upload_video_direct. rewrite Hfs. fold init. rewrite Hstart.
    unfold bind at 1, lift. rewrite Hgrant.
    unfold bind, requests_put.
    rewrite (send_ok E (put_request url contents) (logs [EvHttp init] w) r2).
    2:{ rewrite http_count_logs. exact Hput. }
    unfold check_transfer.
    apply Z.eqb_neq in H200, H201. rewrite H200, H201. cbn [orb negb].
    unfold ret. now rewrite logs_logs.
Qed.

Lemma failed_phase_aborts_witness :
  (* init answered 200 with error code invalid_params *)
  upload_video_direct
    (Scenario.uploading Scenario.rejected Scenario.created Scenario.complete)
    Scenario.video Scenario.caption0 Scenario.token0 Scenario.self_only true
    (Sample.fresh [])
  = (Returns (PDict [(lit "success", PBool false);
                     (lit "error", PStr (lit "Invalid parameters"));
                     (lit "details",
                      PDict [(lit "error",
                              PDict [(lit "code", PStr (lit "invalid_params"));
                                     (lit "message",
                                      PStr (lit "Invalid parameters"))])])]),
     logs [EvHttp (init_request Scenario.caption0 Scenario.self_only
                                Scenario.token0 10)]
          (Sample.fresh []))
  (* init answered 400 *)
  /\ upload_video_direct Scenario.refusing
       Scenario.video Scenario.caption0 Scenario.token0 Scenario.self_only true
       (Sample.fresh [])
     = (Returns (failure (lit "Init failed: 400")
                   (PDict [(lit "error",
                            PDict [(lit "code", PStr (lit "invalid_params"));
                                   (lit "message",
                                    PStr (lit "Invalid parameters"))])])),
        logs [EvHttp (init_request Scenario.caption0 Scenario.self_only
                                   Scenario.token0 10)]
             (Sample.fresh []))
  (* init answered 502 with a page *)
  /\ upload_video_direct Scenario.gateway_down
       Scenario.video Scenario.caption0 Scenario.token0 Scenario.self_only true
       (Sample.fresh [])
     = (Raises JSONDecodeError,
        logs [EvHttp (init_request Scenario.caption0 Scenario.self_only
                                   Scenario.token0 10)]
             (Sample.fresh []))
  (* PUT answered 500 *)
  /\ upload_video_direct
       (Scenario.uploading Scenario.granted Scenario.server_error
                           Scenario.complete)
       Scenario.video Scenario.caption0 Scenario.token0 Scenario.self_only true
       (Sample.fresh [])
     = (Returns (failure (lit "Upload failed: 500") (PStr (lit "oops"))),
        logs [EvHttp (init_request Scenario.caption0 Scenario.self_only
                                   Scenario.token0 10);
              EvHttp (put_request Scenario.upload_url Scenario.clip)]
             (Sample.fresh [])).
Proof.
  split; [|split; [|split]].
  - apply (proj1 (failed_phase_aborts
                    (Scenario.uploading Scenario.rejected Scenario.created
                                        Scenario.complete)
                    (Sample.fresh []) Scenario.video Scenario.caption0
                    Scenario.token0 Scenario.self_only true Scenario.clip
                    Scenario.rejected eq_refl eq_refl)
                 [(lit "error",
                   PDict [(lit "code", PStr (lit "invalid_params"));
                          (lit "message", PStr (lit "Invalid parameters"))])]
                 [(lit "code", PStr (lit "invalid_params"));
                  (lit "message", PStr (lit "Invalid parameters"))]
                 (PStr (lit "invalid_params"))).
    + reflexivity.
    + reflexivity.
    + reflexivity.
    + reflexivity.
    + vm_compute. discriminate.
  - apply (proj1 (proj2 (failed_phase_aborts
                    Scenario.refusing
                    (Sample.fresh []) Scenario.video Scenario.caption0
                    Scenario.token0 Scenario.self_only true Scenario.clip
                    Scenario.invalid_params eq_refl eq_refl))).
    + vm_compute. discriminate.
    + left. split; [vm_compute; discriminate|reflexivity].
  - apply (proj1 (proj2 (proj2 (failed_phase_aborts
                    Scenario.gateway_down
                    (Sample.fresh []) Scenario.video Scenario.caption0
                    Scenario.token0 Scenario.self_only true Scenario.clip
                    (Scenario.page 502) eq_refl eq_refl)))).
    + vm_compute. discriminate.
    + vm_compute. discriminate.
    + reflexivity.
  - apply (proj2 (proj2 (proj2 (failed_phase_aborts
                    (Scenario.uploading Scenario.granted Scenario.server_error
                                        Scenario.complete)
                    (Sample.fresh []) Scenario.video Scenario.caption0
                    Scenario.token0 Scenario.self_only true Scenario.clip
                    Scenario.granted eq_refl eq_refl)))
                 Scenario.upload_url Scenario.publish_id Scenario.server_error).
    + vm_compute. reflexivity.
    + reflexivity.
    + vm_compute. discriminate.
    + vm_compute. discriminate.
Defined.

(** C3, counterexample to the sentence as written: an init response with
    status 400 that embeds error code invalid_params and a message makes the
    call fail with the message "Init failed: 400", which does not contain the
    provider's message. *)
Lemma init_error_not_always_surfaced : ~ init_error_surfaced.
Proof.
  intros H.
  destruct (H Scenario.refusing (Sample.fresh []) Scenario.video
              (lit "hello") (lit "token") (lit "SELF_ONLY") false
              Scenario.clip Scenario.invalid_params
              [(lit "error",
                PDict [(lit "code", PStr (lit "invalid_params"));
                       (lit "message", PStr (lit "Invalid parameters"))])]
              [(lit "code", PStr (lit "invalid_params"));
               (lit "message", PStr (lit "Invalid parameters"))]
              (lit "invalid_params") (lit "Invalid parameters"))
    as (result & shown & new & Hrun & _ & Hshown & Hsub & _);
    try reflexivity.
  - vm_compute. discriminate.
  - vm_compute in Hrun. injection Hrun as <- _.
    vm_compute in Hshown. injection Hshown as <-.
    vm_compute in Hsub. discriminate.
Qed.

(** ** The callback handler *)

(** C8.  For a request to the callback path: when the parsed query has a
    [code], the handler stores its first value as the authorization code,
    leaves the error as it was and answers 200; when it has no [code] but an
    [error], the handler stores that error, stores no code and answers 400.
    Starting from the attributes [authenticate] sets (no code, no error),
    exactly one of the two is set afterwards. *)
Theorem callback_captures (E : env) (srv : server) (path : pystr) :
  let params := parse_qs E (u_query (urlparse E path)) in
  u_path (urlparse E path) = lit "/callback" ->
  (forall code more,
      qs_find (lit "code") params = Some (code, more) ->
      do_GET E srv path = (mkServer (Some code) (error srv), 200))
  /\ (forall err more,
         qs_find (lit "code") params = None ->
         qs_find (lit "error") params = Some (err, more) ->
         do_GET E srv path = (mkServer None (Some err), 400))
  /\ (auth_code srv = None -> error srv = None ->
      let session := fst (do_GET E srv path) in
      (auth_code session <> None /\ error session = None)
      \/ (auth_code session = None /\ error session <> None)).
Proof.
  intros params Hpath. unfold do_GET. rewrite Hpath.
  change (pystr_eqb (lit "/callback") (lit "/callback")) with true.
  cbv iota zeta. fold params. repeat split.
  - intros code more Hcode. now rewrite Hcode.
  - intros err more Hcode Herr. now rewrite Hcode, Herr.
  - intros Hc He. destruct (qs_find (lit "code") params) as [[code more]|].
    + left. simpl. split; [discriminate|exact He].
    + right. simpl. split; [reflexivity|discriminate].
Qed.

Lemma callback_captures_witness :
  do_GET (Sample.quiet Sample.nobody) (mkServer None None)
         (lit "/callback?code=ABC")
  = (mkServer (Some (lit "ABC")) None, 200)
  /\ do_GET (Sample.quiet Sample.nobody) (mkServer None None)
            (lit "/callback?error=access_denied")
     = (mkServer None (Some (lit "access_denied")), 400).
Proof.
  split.
  - apply (proj1 (callback_captures (Sample.quiet Sample.nobody)
                                    (mkServer None None)
                                    (lit "/callback?code=ABC") eq_refl)
                 (lit "ABC") []).
    reflexivity.
  - apply (proj1 (proj2 (callback_captures (Sample.quiet Sample.nobody)
                                           (mkServer None None)
                                           (lit "/callback?error=access_denied")
                                           eq_refl))
                 (lit "access_denied") []).
    + reflexivity.
    + reflexivity.
Defined.


(** ** [authenticate] *)

Lemma truthy_str (s : pystr) : truthy (PStr s) = true <-> s <> [].
Proof. destruct s; simpl; split; congruence. Qed.

(** C9.  With the client key or the client secret empty, [authenticate]
    returns [False] and nothing has happened: no verifier was generated, no
    random bytes were drawn, the trace has no bind, no browser and no
    request, and no arrival was taken. *)
Theorem missing_credentials_fail_fast (E : env) (account : pystr) (w : world) :
  TIKTOK_CLIENT_KEY E = [] \/ TIKTOK_CLIENT_SECRET E = [] ->
  authenticate E account w = (Returns false, w).
Proof.
  intros [H|H]; unfold authenticate; rewrite H; simpl truthy.
  - reflexivity.
  - now rewrite orb_true_r.
Qed.

Lemma missing_credentials_fail_fast_witness :
  authenticate (Sample.without_keys (Sample.quiet Sample.nobody))
               (lit "default") (Sample.fresh [Scenario.callback_abc])
  = (Returns false, Sample.fresh [Scenario.callback_abc]).
Proof.
  apply (missing_credentials_fail_fast
           (Sample.without_keys (Sample.quiet Sample.nobody))
           (lit "default") (Sample.fresh [Scenario.callback_abc])).
  left. reflexivity.
Defined.


Lemma closed_after_serve_sound (t : list event) :
  closed_after_serve t = true ->
  forall before rq status after,
    t = before ++ EvServe rq status :: after ->
    exists rest, after = EvClose :: rest.
Proof.
  induction t as [|e t IH]; intros Hc before rq status after Heq.
  - destruct before; discriminate.
  - destruct before as [|b before].
    + simpl in Heq. injection Heq as -> ->. simpl in Hc.
      destruct after as [|[] rest]; try discriminate. now exists rest.
    + simpl in Heq. injection Heq as -> ->.
      apply (IH) with (before := before) (rq := rq) (status := status);
        [|reflexivity].
      simpl in Hc. destruct b; try exact Hc.
      destruct (before ++ EvServe rq status :: after) as [|[] ?];
        try discriminate; exact Hc.
Qed.

(** Take apart the next [match] or [if] of a computation under study. *)
Ltac branch :=
  match goal with
  | |- context [match ?x with _ => _ end] =>
      lazymatch x with
      | context [match _ with _ => _ end] => fail
      | _ => destruct x eqn:?
      end
  end.

Ltac unfold_calls :=
  unfold bind, ret, lift, requests_post, send, load_tokens, save_tokens,
    get_code_verifier, bind_server, webbrowser_open, handle_request,
    server_close, log.

(** C6.  In every run of [authenticate], whatever the outside world does:
    the listener is created at most once and serves at most one request;
    the request it serves is directly followed by the closing of the
    listener, before anything else happens; and at most one arrival is
    taken off the port. *)
Theorem single_request_listener (E : env) (account : pystr) (w : world) :
  exists o w' new,
    authenticate E account w = (o, w')
    /\ trace w' = trace w ++ new
    /\ (length (filter is_bind new) <= 1)%nat
    /\ (length (filter is_serve new) <= 1)%nat
    /\ (forall before rq status after,
           new = before ++ EvServe rq status :: after ->
           exists rest, after = EvClose :: rest)
    /\ (inbox w' = inbox w \/ exists rq, inbox w = rq :: inbox w').
Proof.
  destruct (generate_pkce_run E w)
    as (verifier & challenge & ascii & padded & Hgen & _).
  destruct (authenticate E account w) as [o w'] eqn:Hrun.
  exists o, w'. revert Hrun. unfold authenticate.
  destruct (negb (truthy (PStr (TIKTOK_CLIENT_KEY E)))
            || negb (truthy (PStr (TIKTOK_CLIENT_SECRET E)))).
  { unfold ret. intros [= <- <-]. exists []. rewrite app_nil_r.
    repeat split; simpl; auto. intros [] ? ? ? ?; discriminate. }
  unfold bind at 1. rewrite Hgen. unfold_calls.
  cbn [tokens_file code_verifier rng_pos inbox trace].
  repeat (branch; cbn [tokens_file code_verifier rng_pos inbox trace negb]);
    intros [= <- <-];
    cbn [tokens_file code_verifier rng_pos inbox trace];
    rewrite <- ?app_assoc; cbn [app];
    (eexists; split; [reflexivity|]); (split; [reflexivity|]);
    (split; [cbn [length filter is_bind]; lia|]);
    (split; [cbn [length filter is_serve]; lia|]);
    (split; [apply closed_after_serve_sound; reflexivity|]);
    first [left; reflexivity | right; eexists; reflexivity].
Qed.




(** ** Token refresh *)

(** ** The whole upload protocol *)

(** What a status response can lead to. *)
Lemma check_status_cases (E : env) (pid : pyval) (r : response) :
  match check_status E pid r with
  | Ok (Return result) =>
      field [lit "publish_id"] result = Some pid
      /\ (field [lit "success"] result = Some (PBool true)
          \/ field [lit "success"] result = Some (PBool false)
             /\ exists msg, field [lit "error"] result = Some (PStr msg))
  | Ok (Go secs) => secs = 2 \/ secs = 3
  | Raise _ => True
  end.
Proof.
  unfold check_status, json.
  destruct (status_code r =? 200); [|now left].
  destruct (json_body r) as [body|]; cbn [rbind]; [|exact I].
  destruct (data_field body (lit "status") PNone) as [st|]; cbn [rbind];
    [|exact I].
  destruct (is_str (lit "PUBLISH_COMPLETE") st).
  { split; [reflexivity|now left]. }
  destruct (is_str (lit "FAILED") st).
  { destruct (data_field body (lit "fail_reason") (PStr (lit "Unknown")));
      cbn [rbind]; [|exact I].
    split; [reflexivity|]. right. split; [reflexivity|]. now eexists. }
  destruct (processing st); [now right|now left].
Qed.

(** Every run of the status loop: at most [n] fetches, a sleep of 2 or 3
    seconds after each fetch that did not end the loop; when the loop runs
    out the result is the PROCESSING dict, and any result it returns has a
    boolean success and the polled publish_id. *)
Lemma poll_shape (E : env) (tok : pystr) (pid : pyval) (n : nat) :
  forall w,
  exists o pauses left_early,
    poll E n tok pid w
    = (o, logs (poll_events (status_request tok pid) pauses left_early) w)
    /\ (length pauses + (if left_early then 1 else 0) <= n)%nat
    /\ Forall (fun secs => secs = 2 \/ secs = 3) pauses
    /\ (left_early = false -> length pauses = n)
    /\ (o = Blocks ->
        left_early = true
        /\ http E (http_count (trace w) + length pauses)
                (status_request tok pid) = Silent)
    /\ (forall result, o = Returns result ->
          field [lit "publish_id"] result = Some pid
          /\ (field [lit "success"] result = Some (PBool true)
              \/ field [lit "success"] result = Some (PBool false)
                 /\ exists msg, field [lit "error"] result = Some (PStr msg))).
Proof.
  induction n as [|n IH]; intros w.
  - exists (Returns (still_processing pid)), [], false.
    cbn [poll]. unfold ret, poll_events, passes. cbn [flat_map app].
    rewrite logs_nil.
    split; [reflexivity|]. split; [simpl; lia|]. split; [constructor|].
    split; [reflexivity|]. split; [discriminate|].
    intros result [= <-]. split; [reflexivity|now left].
  - cbn [poll]. unfold bind at 1, poll_once. unfold bind at 1.
    destruct (send_logs E (status_request tok pid) w) as [o1 Hsend].
    rewrite Hsend. unfold send in Hsend.
    destruct (http E (http_count (trace w)) (status_request tok pid))
      as [[r|e]|] eqn:Hanswer; injection Hsend as <-.
    2:{ exists (Raises e), [], true.
        split; [reflexivity|]. split; [simpl; lia|]. split; [constructor|].
        split; [discriminate|]. split; discriminate. }
    2:{ exists Blocks, [], true.
        split; [reflexivity|]. split; [simpl; lia|]. split; [constructor|].
        split; [discriminate|]. split; [|discriminate].
        intros _. split; [reflexivity|]. cbn [length].
        now rewrite Nat.add_0_r. }
    unfold bind at 1, lift at 1.
    pose proof (check_status_cases E pid r) as Hcases.
    destruct (check_status E pid r) as [[result|secs]|e].
    + exists (Returns result), [], true. unfold ret.
      split; [reflexivity|]. split; [simpl; lia|]. split; [constructor|].
      split; [discriminate|]. split; [discriminate|].
      intros result' [= <-]. exact Hcases.
    + unfold bind at 1, sleep, ret. rewrite log_logs, logs_logs. cbn [app].
      destruct (IH (logs [EvHttp (status_request tok pid); EvSleep secs] w))
        as (o & pauses & early & Hrun & Hlen & Hsecs & Hfull & Hnb & Hres).
      rewrite Hrun. exists o, (secs :: pauses), early.
      rewrite logs_logs.
      split; [reflexivity|]. split; [cbn [length]; lia|].
      split; [now constructor|].
      split; [intros Hearly; cbn [length]; now rewrite (Hfull Hearly)|].
      split; [|exact Hres].
      intros Hb. destruct (Hnb Hb) as [Hearly Hsilent].
      split; [exact Hearly|].
      rewrite http_count_logs in Hsilent.
      change (http_count [EvHttp (status_request tok pid); EvSleep secs])
        with 1%nat in Hsilent.
      cbn [length].
      replace (http_count (trace w) + S (length pauses))%nat
        with (http_count (trace w) + 1 + length pauses)%nat by lia.
      exact Hsilent.
    + exists (Raises e), [], true.
      split; [reflexivity|]. split; [simpl; lia|]. split; [constructor|].
      split; [discriminate|]. split; discriminate.
Qed.

(** What the init response can lead to: a refusal is a failure dict. *)
Lemma check_init_refusal (r : response) (result : pyval) :
  check_init r = Ok (Return result) ->
  field [lit "success"] result = Some (PBool false).
Proof.
  unfold check_init, json.
  destruct (negb (status_code r =? 200)).
  { destruct (truthy (PStr (text r))); [destruct (json_body r)|];
      cbn [rbind]; intros [= <-]; reflexivity. }
  destruct (json_body r) as [body|]; cbn [rbind]; [|discriminate].
  destruct (py_in (lit "error") body) as [[|]|]; cbn [rbind];
    try discriminate.
  - destruct (py_item body (lit "error")) as [err|]; cbn [rbind];
      [|discriminate].
    destruct (py_get err (lit "code") PNone) as [code|]; cbn [rbind];
      [|discriminate].
    destruct (negb (is_str (lit "ok") code)).
    + destruct (py_get err (lit "message") (PStr (lit "Unknown error")));
        cbn [rbind]; intros [= <-]; reflexivity.
    + destruct (data_field body (lit "upload_url") PNone); cbn [rbind];
        [|discriminate].
      destruct (data_field body (lit "publish_id") PNone); cbn [rbind];
        [|discriminate].
      destruct (negb (truthy a)); intros [= <-]; reflexivity.
  - destruct (data_field body (lit "upload_url") PNone); cbn [rbind];
      [|discriminate].
    destruct (data_field body (lit "publish_id") PNone); cbn [rbind];
      [|discriminate].
    destruct (negb (truthy a)); intros [= <-]; reflexivity.
Qed.

Lemma check_transfer_cases (r : response) :
  (check_transfer r = Go tt
   /\ (status_code r = 200 \/ status_code r = 201))
  \/ (exists result,
         check_transfer r = Return result
         /\ field [lit "success"] result = Some (PBool false)).
Proof.
  unfold check_transfer.
  destruct (status_code r =? 200) eqn:H200; cbn [orb negb].
  { left. split; [reflexivity|]. left. now apply Z.eqb_eq. }
  destruct (status_code r =? 201) eqn:H201; cbn [negb].
  { left. split; [reflexivity|]. right. now apply Z.eqb_eq. }
  right. eexists. split; reflexivity.
Qed.

(** Every run of [upload_video_direct], phase by phase. *)
Lemma upload_shape
        (E : env) (w : world) (path caption tok privacy : pystr)
        (sandbox : bool) :
  exists o new,
    upload_video_direct E path caption tok privacy sandbox w = (o, logs new w)
    /\ (o = Blocks ->
        exists before rq,
          new = before ++ [EvHttp rq]
          /\ http E (http_count (trace w) + http_count before) rq = Silent)
    /\ match fs E path with
       | None => new = []
       | Some contents =>
           let k := http_count (trace w) in
           let init :=
             init_request caption privacy tok (Z.of_nat (length contents)) in
           new = [EvHttp init]
           \/ exists r1 url pid,
               http E k init = Ok r1
               /\ check_init r1 = Ok (Go (PStr url, pid))
               /\ let put := put_request url contents in
                  new = [EvHttp init; EvHttp put]
                  \/ exists r2 pauses left_early,
                      http E (k + 1) put = Ok r2
                      /\ (status_code r2 = 200 \/ status_code r2 = 201)
                      /\ new = [EvHttp init; EvHttp put]
                                 ++ poll_events (status_request tok pid)
                                                pauses left_early
                      /\ (length pauses + (if left_early then 1 else 0)
                          <= 10)%nat
                      /\ Forall (fun secs => secs = 2 \/ secs = 3) pauses
       end.
Proof.
  unfold upload_video_direct.
  destruct (fs E path) as [contents|].
  2:{ exists (Returns (PDict [(lit "success", PBool false);
                              (lit "error", PStr (lit "Video file not found"))])),
             [].
      unfold ret. rewrite logs_nil. repeat split. discriminate. }
  set (init := init_request caption privacy tok (Z.of_nat (length contents))).
  cbv zeta. unfold bind at 1, send.
  destruct (http E (http_count (trace w)) init) as [[r1|e]|] eqn:Hinit.
  2:{ exists (Raises e), [EvHttp init].
      split; [reflexivity|]. split; [discriminate|now left]. }
  2:{ exists Blocks, [EvHttp init].
      split; [reflexivity|]. split; [|now left].
      intros _. exists [], init. split; [reflexivity|].
      now rewrite Nat.add_0_r. }
  rewrite log_logs. unfold bind at 1, lift at 1.
  destruct (check_init r1) as [[result|[upload_url pid]]|e] eqn:Hgrant.
  { exists (Returns result), [EvHttp init].
    split; [reflexivity|]. split; [discriminate|now left]. }
  2:{ exists (Raises e), [EvHttp init].
      split; [reflexivity|]. split; [discriminate|now left]. }
  unfold bind at 1, requests_put.
  destruct upload_url as [| | |url| |];
    try (exists (Raises RequestException), [EvHttp init];
         split; [reflexivity|]; split; [discriminate|now left]).
  set (put := put_request url contents).
  unfold send. rewrite http_count_logs.
  change (http_count [EvHttp init]) with 1%nat.
  destruct (http E (http_count (trace w) + 1) put) as [[r2|e]|] eqn:Hput.
  2:{ exists (Raises e), [EvHttp init; EvHttp put].
      rewrite log_logs, logs_logs.
      split; [reflexivity|]. split; [discriminate|]. right.
      exists r1, url, pid. repeat split; auto. }
  2:{ exists Blocks, [EvHttp init; EvHttp put].
      rewrite log_logs, logs_logs.
      split; [reflexivity|]. split.
      - intros _. exists [EvHttp init], put. split; [reflexivity|].
        exact Hput.
      - right. exists r1, url, pid. repeat split; auto. }
  rewrite log_logs, logs_logs. cbn [app].
  destruct (check_transfer_cases r2) as [[Hgo Hcode]|(result & Hret & _)].
  - rewrite Hgo.
    destruct (poll_shape E tok pid 10 (logs [EvHttp init; EvHttp put] w))
      as (o & pauses & early & Hrun & Hlen & Hsecs & _ & Hnb & _).
    rewrite Hrun, logs_logs. eexists o, _. split; [reflexivity|].
    split.
    { intros Hb. destruct (Hnb Hb) as [-> Hsilent].
      exists ([EvHttp init; EvHttp put]
                ++ passes (status_request tok pid) pauses),
        (status_request tok pid).
      split; [unfold poll_events; now rewrite <- app_assoc|].
      rewrite http_count_logs in Hsilent.
      rewrite http_count_app, http_count_passes.
      change (http_count [EvHttp init; EvHttp put]) with 2%nat in *.
      now rewrite Nat.add_assoc. }
    right. exists r1, url, pid.
    split; [first [reflexivity|assumption]|].
    split; [first [reflexivity|assumption]|]. right.
    exists r2, pauses, early. repeat split; auto.
  - rewrite Hret. exists (Returns result), [EvHttp init; EvHttp put].
    split; [reflexivity|]. split; [discriminate|]. right.
    exists r1, url, pid. repeat split; auto.
Qed.

(** X1.  The phases of every run of [upload_video_direct], whatever the
    peers answer: nothing at all when the file is missing; else the init
    POST first; a PUT only after an init response that granted a string
    upload URL; status fetches only after a PUT answered 200 or 201, at most
    ten of them, each one that does not end the loop followed by a sleep of
    2 or 3 seconds.  The call waits forever only on a request that gets no
    answer, and that request is then its last effect. *)
Theorem upload_protocol_shape
        (E : env) (w : world) (path caption tok privacy : pystr)
        (sandbox : bool) :
  exists o new,
    upload_video_direct E path caption tok privacy sandbox w = (o, logs new w)
    /\ (o = Blocks ->
        exists before rq,
          new = before ++ [EvHttp rq]
          /\ http E (http_count (trace w) + http_count before) rq = Silent)
    /\ match fs E path with
       | None => new = []
       | Some contents =>
           let k := http_count (trace w) in
           let init :=
             init_request caption privacy tok (Z.of_nat (length contents)) in
           new = [EvHttp init]
           \/ exists r1 url pid,
               http E k init = Ok r1
               /\ check_init r1 = Ok (Go (PStr url, pid))
               /\ let put := put_request url contents in
                  new = [EvHttp init; EvHttp put]
                  \/ exists r2 pauses left_early,
                      http E (k + 1) put = Ok r2
                      /\ (status_code r2 = 200 \/ status_code r2 = 201)
                      /\ new = [EvHttp init; EvHttp put]
                                 ++ poll_events (status_request tok pid)
                                                pauses left_early
                      /\ (length pauses + (if left_early then 1 else 0)
                          <= 10)%nat
                      /\ Forall (fun secs => secs = 2 \/ secs = 3) pauses
       end.
Proof.
  exact (upload_shape E w path caption tok privacy sandbox).
Qed.

Lemma poll_events_counts (tok : pystr) (pid : pyval) (pauses : list Z)
      (early : bool) :
  let t := poll_events (status_request tok pid) pauses early in
  http_count t = (length pauses + (if early then 1 else 0))%nat
  /\ length (filter is_status_fetch t)
     = (length pauses + (if early then 1 else 0))%nat
  /\ filter is_put t = []
  /\ Forall (fun e => is_http e = true \/ exists secs, e = EvSleep secs) t.
Proof.
  induction pauses as [|s pauses IH].
  - destruct early; repeat split; try reflexivity; repeat constructor.
  - destruct IH as (Hh & Hs & Hp & Hall).
    unfold poll_events, passes in *. cbn [flat_map app].
    unfold http_count in *. cbn [filter is_http is_put rq_verb status_request].
    change (is_status_fetch (EvHttp (status_request tok pid))) with true.
    cbn [filter is_status_fetch length]. rewrite Hh, Hs.
    repeat split; auto.
    constructor; [now left|]. constructor; [right; now eexists|]. exact Hall.
Qed.

Lemma sleep_total_poll_events (rq : request) (pauses : list Z) (early : bool) :
  Forall (fun secs => secs = 2 \/ secs = 3) pauses ->
  0 <= sleep_total (poll_events rq pauses early)
    <= 3 * Z.of_nat (length pauses).
Proof.
  induction 1 as [|s pauses Hs _ IH].
  - destruct early; simpl; lia.
  - unfold poll_events, passes in *. cbn [flat_map app length].
    unfold sleep_total in *. cbn [fold_right].
    destruct Hs; subst; lia.
Qed.

(** X2.  Bounds on what one call of [upload_video_direct] does, in every
    run: at most 12 HTTP requests, of which at most one PUT and at most ten
    status fetches; between 0 and 30 seconds of sleep; and no effect other
    than HTTP requests and sleeps (no file is written, no port is bound). *)
Theorem upload_effect_bounds
        (E : env) (w : world) (path caption tok privacy : pystr)
        (sandbox : bool) :
  exists o new,
    upload_video_direct E path caption tok privacy sandbox w = (o, logs new w)
    /\ (http_count new <= 12)%nat
    /\ (length (filter is_put new) <= 1)%nat
    /\ (length (filter is_status_fetch new) <= 10)%nat
    /\ 0 <= sleep_total new <= 30
    /\ Forall (fun e => is_http e = true \/ exists secs, e = EvSleep secs) new.
Proof.
  destruct (upload_shape E w path caption tok privacy sandbox)
    as (o & new & Hrun & _ & Hshape).
  exists o, new. split; [exact Hrun|]. clear Hrun.
  destruct (fs E path) as [contents|].
  2:{ subst new. unfold http_count, sleep_total.
      repeat split; simpl; try lia. constructor. }
  cbv zeta in Hshape.
  destruct Hshape as [-> | (r1 & url & pid & _ & _ & Hshape)].
  { unfold http_count, sleep_total.
    repeat split; simpl; try lia. repeat constructor. }
  cbv zeta in Hshape.
  destruct Hshape
    as [-> | (r2 & pauses & early & _ & _ & -> & Hlen & Hsecs)].
  { unfold http_count, sleep_total.
    repeat split; simpl; try lia. repeat constructor. }
  destruct (poll_events_counts tok pid pauses early) as (Hh & Hs & Hp & Hall).
  pose proof (sleep_total_poll_events (status_request tok pid) pauses early
                                      Hsecs) as Hsleep.
  cbv zeta in Hh, Hs, Hp, Hall.
  split; [|split; [|split; [|split]]].
  - rewrite http_count_app, Hh. simpl. lia.
  - rewrite filter_app, Hp. simpl. lia.
  - rewrite filter_app, length_app, Hs. simpl. lia.
  - unfold sleep_total in *. rewrite fold_right_app. cbn [fold_right].
    destruct early; lia.
  - apply Forall_app. split; [|exact Hall]. repeat constructor; now left.
Qed.



(** X4.  Transient answers, then completion: when the first [j] status
    responses (j < 10) show no terminal status and the next one reports
    PUBLISH_COMPLETE, the loop returns success after exactly [j + 1]
    fetches and [j] sleeps. *)
Theorem poll_completes_after_retries
        (E : env) (tok : pystr) (pid : pyval) (j : nat) (w : world)
        (r : response) (body : pyval) :
  (j < 10)%nat ->
  (forall i, (i < j)%nat ->
     exists r', http E (http_count (trace w) + i) (status_request tok pid)
                = Ok r'
                /\ no_terminal_status r') ->
  http E (http_count (trace w) + j) (status_request tok pid) = Ok r ->
  status_code r = 200 ->
  json_body r = Some body ->
  field [lit "data"; lit "status"] body = Some (PStr (lit "PUBLISH_COMPLETE")) ->
  exists pauses,
    length pauses = j
    /\ poll E 10 tok pid w
       = (Returns (PDict [(lit "success", PBool true);
                          (lit "publish_id", pid);
                          (lit "status", PStr (lit "PUBLISH_COMPLETE"))]),
          logs (poll_events (status_request tok pid) pauses true) w).
Proof.
  intros Hj. generalize 10%nat Hj. clear Hj. intros n Hj. revert n w Hj.
  induction j as [|j IH]; intros n w Hj Hbefore Hr Hcode Hbody Hst.
  - destruct n as [|n]; [lia|]. exists []. split; [reflexivity|].
    rewrite Nat.add_0_r in Hr. cbn [poll]. unfold bind at 1.
    erewrite poll_once_returns; [reflexivity|exact Hr|].
    unfold check_status, json. rewrite Hcode, Hbody. simpl Z.eqb.
    cbn [rbind]. rewrite (data_field_found _ _ _ _ Hst). reflexivity.
  - destruct n as [|n]; [lia|].
    destruct (Hbefore 0%nat) as (r0 & Hr0 & Hnt); [lia|].
    rewrite Nat.add_0_r in Hr0.
    destruct (check_status_goes_on E pid r0 Hnt) as [secs Hgo].
    pose proof (poll_once_goes_on E tok pid w r0 secs Hr0 Hgo) as Hone.
    destruct (IH n (logs [EvHttp (status_request tok pid); EvSleep secs] w))
      as (pauses & Hlen & Hrun); auto.
    + lia.
    + intros i Hi. destruct (Hbefore (S i)) as (r' & Hr' & Hnt'); [lia|].
      exists r'. split; [|exact Hnt'].
      rewrite http_count_logs.
      change (http_count [EvHttp (status_request tok pid); EvSleep secs])
        with 1%nat.
      now replace (http_count (trace w) + 1 + i)%nat
        with (http_count (trace w) + S i)%nat by lia.
    + rewrite http_count_logs.
      change (http_count [EvHttp (status_request tok pid); EvSleep secs])
        with 1%nat.
      now replace (http_count (trace w) + 1 + j)%nat
        with (http_count (trace w) + S j)%nat by lia.
    + exists (secs :: pauses). split; [cbn [length]; lia|].
      cbn [poll]. unfold bind at 1. rewrite Hone, Hrun.
      now rewrite logs_logs.
Qed.

Lemma poll_completes_after_retries_witness :
  exists pauses,
    length pauses = 2%nat
    /\ poll (Sample.quiet (Scenario.answers Scenario.processing_upload
                                            Scenario.server_error
                                            Scenario.complete))
            10 Scenario.token0 Scenario.publish_id (Sample.fresh [])
       = (Returns (PDict [(lit "success", PBool true);
                          (lit "publish_id", Scenario.publish_id);
                          (lit "status", PStr (lit "PUBLISH_COMPLETE"))]),
          logs (poll_events (status_request Scenario.token0
                                            Scenario.publish_id)
                            pauses true)
               (Sample.fresh [])).
Proof.
  apply (poll_completes_after_retries
           (Sample.quiet (Scenario.answers Scenario.processing_upload
                                           Scenario.server_error
                                           Scenario.complete))
           Scenario.token0 Scenario.publish_id 2 (Sample.fresh [])
           Scenario.complete
           (PDict [(lit "data",
                    PDict [(lit "status", PStr (lit "PUBLISH_COMPLETE"))])])).
  - lia.
  - intros [|[|i]] Hi; [| |lia].
    + exists Scenario.processing_upload. split; [reflexivity|].
      right.
      exists (PDict [(lit "data",
                      PDict [(lit "status",
                              PStr (lit "PROCESSING_UPLOAD"))])]),
             (PStr (lit "PROCESSING_UPLOAD")).
      repeat split; try reflexivity; vm_compute; discriminate.
    + exists Scenario.server_error. split; [reflexivity|].
      left. vm_compute. discriminate.
  - reflexivity.
  - reflexivity.
  - reflexivity.
  - reflexivity.
Defined.

(** ** Dicts: lookup after assignment *)

Lemma dict_find_set_same (k : pystr) (v : pyval) (d : pydict) :
  dict_find k (dict_set k v d) = Some v.
Proof.
  induction d as [|[k' v'] d IH]; simpl.
  - now rewrite pystr_eqb_refl.
  - destruct (pystr_eqb k k') eqn:Hk; simpl.
    + now rewrite pystr_eqb_refl.
    + now rewrite Hk.
Qed.

Lemma dict_find_set_other (k k' : pystr) (v : pyval) (d : pydict) :
  k' <> k -> dict_find k' (dict_set k v d) = dict_find k' d.
Proof.
  intros Hne. induction d as [|[k0 v0] d IH]; simpl.
  - apply pystr_eqb_neq in Hne. now rewrite Hne.
  - destruct (pystr_eqb k k0) eqn:Hk; simpl.
    + apply pystr_eqb_eq in Hk. subst k0.
      apply pystr_eqb_neq in Hne. now rewrite Hne.
    + now rewrite IH.
Qed.

(** [give tac]: prove the first conjunct with [tac], go on with the rest. *)
Ltac give tac := split; [tac|].

(** ** The stages of [authenticate] *)

(** The last stage: every way it can end.  Either nothing is sent (no
    code), or the exchange is sent and nothing is written, or the exchange is
    answered 200 with a dict holding an access_token and the credential is
    written under the account, which fails when it cannot be encoded. *)
Lemma exchange_and_store_cases
      (E : env) (account : pystr) (code : option pystr) (w : world) :
  exists o w' new,
    exchange_and_store E account code w = (o, w')
    /\ trace w' = trace w ++ new
    /\ history_file w' = history_file w
    /\ inbox w' = inbox w
    /\ code_verifier w' = code_verifier w
    /\ rng_pos w' = rng_pos w
    /\ ((new = [] /\ o = Returns false /\ tokens_file w' = tokens_file w
         /\ (code = None \/ code = Some []))
        \/ exists c,
            code = Some c /\ c <> []
            /\ let rq := token_request E (PStr c) (opt_str (code_verifier w)) in
               (new = [EvHttp rq] /\ tokens_file w' = tokens_file w
                /\ o <> Returns true
                /\ (o = Blocks -> http E (http_count (trace w)) rq = Silent))
               \/ exists r data old,
                   http E (http_count (trace w)) rq = Ok r
                   /\ status_code r = 200
                   /\ json_body r = Some (PDict data)
                   /\ dict_find (lit "access_token") data <> None
                   /\ stored_dict (tokens_file w) old
                   /\ let saved :=
                        PDict (dict_set account (credential E data) old) in
                      (encodable saved = true
                       /\ new = [EvHttp rq; EvSave saved]
                       /\ tokens_file w' = Some (Json saved)
                       /\ (o = Returns true \/ exists e, o = Raises e))
                      \/ (encodable saved = false
                          /\ new = [EvHttp rq; EvSaveBroken saved]
                          /\ tokens_file w' = Some Garbage
                          /\ o = Raises UnicodeError)).
Proof.
  unfold exchange_and_store.
  destruct code as [[|c0 c]|]; cbn [opt_str truthy negb].
  1,3: exists (Returns false), w, []; unfold ret; rewrite app_nil_r;
       do 6 (split; [reflexivity|]); left; do 3 (split; [reflexivity|]);
       auto.
  set (code := c0 :: c).
  set (rq := token_request E (PStr code) (opt_str (code_verifier w))).
  assert (Hcode : code <> []) by discriminate.
  (* everything that ends after the request without a write *)
  assert (Hsent : forall o,
             o <> Returns true ->
             (o = Blocks -> http E (http_count (trace w)) rq = Silent) ->
             exists (o' : outcome bool) w' new,
               (o, log (EvHttp rq) w) = (o', w')
               /\ trace w' = trace w ++ new
               /\ history_file w' = history_file w
               /\ inbox w' = inbox w
               /\ code_verifier w' = code_verifier w
               /\ rng_pos w' = rng_pos w
               /\ ((new = [] /\ o' = Returns false /\ tokens_file w' = tokens_file w
                /\ (Some code = None \/ Some code = Some []))
               \/ exists c,
                   Some code = Some c /\ c <> []
                   /\ let rq := token_request E (PStr c) (opt_str (code_verifier w)) in
                      (new = [EvHttp rq] /\ tokens_file w' = tokens_file w
                       /\ o' <> Returns true
                       /\ (o' = Blocks -> http E (http_count (trace w)) rq = Silent))
                      \/ exists r data old,
                          http E (http_count (trace w)) rq = Ok r
                          /\ status_code r = 200
                          /\ json_body r = Some (PDict data)
                          /\ dict_find (lit "access_token") data <> None
                          /\ stored_dict (tokens_file w) old
                          /\ let saved :=
                               PDict (dict_set account (credential E data) old) in
                             (encodable saved = true
                              /\ new = [EvHttp rq; EvSave saved]
                              /\ tokens_file w' = Some (Json saved)
                              /\ (o' = Returns true \/ exists e, o' = Raises e))
                             \/ (encodable saved = false
                                 /\ new = [EvHttp rq; EvSaveBroken saved]
                                 /\ tokens_file w' = Some Garbage
                                 /\ o' = Raises UnicodeError))).
  { intros o Ho Hb. exists o, (log (EvHttp rq) w), [EvHttp rq].
    do 6 (split; [reflexivity|]). right. exists code.
    split; [reflexivity|]. split; [exact Hcode|]. left.
    split; [reflexivity|]. split; [reflexivity|]. split; [exact Ho|exact Hb]. }
  unfold bind at 1, get_code_verifier.
  unfold bind at 1, requests_post, send. fold code.
  change (mkRequest POST (API_BASE ++ lit "/oauth/token/") []
            (FormData
               [(lit "client_key", PStr (TIKTOK_CLIENT_KEY E));
                (lit "client_secret", PStr (TIKTOK_CLIENT_SECRET E));
                (lit "code", PStr code);
                (lit "grant_type", PStr (lit "authorization_code"));
                (lit "redirect_uri", PStr (REDIRECT_URI E));
                (lit "code_verifier", opt_str (code_verifier w))]))
    with rq.
  destruct (http E (http_count (trace w)) rq) as [[r|e]|] eqn:Hr.
  2:{ apply Hsent; discriminate. }
  2:{ apply Hsent; [discriminate|reflexivity]. }
  destruct (status_code r =? 200) eqn:H200; cbn [negb].
  2:{ apply Hsent; discriminate. }
  apply Z.eqb_eq in H200.
  unfold bind at 1, lift at 1, json.
  destruct (json_body r) as [data|] eqn:Hjson.
  2:{ apply Hsent; discriminate. }
  unfold bind at 1, lift at 1.
  destruct (py_in (lit "access_token") data) as [[|]|] eqn:Hin; cbn [negb].
  2,3: apply Hsent; discriminate.
  unfold bind at 1, load_tokens. cbn [tokens_file log].
  destruct (tokens_file w) as [[tokens|]|] eqn:Hfile.
  2:{ apply Hsent; discriminate. }
  - (* a token file that decodes *)
    unfold bind at 1, lift at 1.
    destruct data as [| | | | |d]; cbn [py_item];
      try (apply Hsent; discriminate).
    cbn [py_in] in Hin.
    destruct (dict_find (lit "access_token") d) as [access|] eqn:Haccess;
      [|discriminate].
    unfold bind, lift, py_get, py_setitem.
    destruct tokens as [| | | | |old]; try (apply Hsent; discriminate).
    unfold save_tokens, ret, py_slice20.
    cbn [tokens_file history_file code_verifier rng_pos inbox trace log].
    assert (Hshape :
              PDict
                [(lit "access_token", access);
                 (lit "refresh_token",
                  match dict_find (lit "refresh_token") d with
                  | Some x => x | None => PStr [] end);
                 (lit "expires_in",
                  match dict_find (lit "expires_in") d with
                  | Some x => x | None => PInt 0 end);
                 (lit "open_id",
                  match dict_find (lit "open_id") d with
                  | Some x => x | None => PStr [] end);
                 (lit "scope",
                  match dict_find (lit "scope") d with
                  | Some x => x | None => PStr [] end);
                 (lit "authenticated_at", PStr (now_iso E))]
              = credential E d).
    { unfold credential. now rewrite Haccess. }
    rewrite Hshape.
    destruct (encodable (PDict (dict_set account (credential E d) old)))
      eqn:Henc.
    + destruct (match dict_find (lit "open_id") d with
                | Some x => x | None => PStr (lit "N/A") end)
        as [| | |s|l|dd];
        eexists _, _, [EvHttp rq; EvSave _];
        (split; [reflexivity|]);
        cbn [tokens_file history_file code_verifier rng_pos inbox trace];
        rewrite <- ?app_assoc;
        do 5 (split; [reflexivity|]);
        right; exists code; give reflexivity; give ltac:(exact Hcode);
        right; exists r, d, old;
        give ltac:(exact Hr); give ltac:(exact H200); give ltac:(exact Hjson);
        give congruence; give ltac:(now left);
        cbv zeta; left; give ltac:(exact Henc);
        give reflexivity; give reflexivity;
        first [left; reflexivity | right; eexists; reflexivity].
    + eexists _, _, [EvHttp rq; EvSaveBroken _].
      split; [reflexivity|].
      cbn [tokens_file history_file code_verifier rng_pos inbox trace].
      rewrite <- ?app_assoc.
      do 5 (split; [reflexivity|]).
      right. exists code. give reflexivity. give ltac:(exact Hcode).
      right. exists r, d, old.
      give ltac:(exact Hr). give ltac:(exact H200). give ltac:(exact Hjson).
      give congruence. give ltac:(now left).
      cbv zeta. right. repeat split. exact Henc.
  - (* no token file *)
    unfold bind at 1, lift at 1.
    destruct data as [| | | | |d]; cbn [py_item];
      try (apply Hsent; discriminate).
    cbn [py_in] in Hin.
    destruct (dict_find (lit "access_token") d) as [access|] eqn:Haccess;
      [|discriminate].
    unfold bind, lift, py_get, py_setitem.
    unfold save_tokens, ret, py_slice20.
    cbn [tokens_file history_file code_verifier rng_pos inbox trace log].
    assert (Hshape :
              PDict
                [(lit "access_token", access);
                 (lit "refresh_token",
                  match dict_find (lit "refresh_token") d with
                  | Some x => x | None => PStr [] end);
                 (lit "expires_in",
                  match dict_find (lit "expires_in") d with
                  | Some x => x | None => PInt 0 end);
                 (lit "open_id",
                  match dict_find (lit "open_id") d with
                  | Some x => x | None => PStr [] end);
                 (lit "scope",
                  match dict_find (lit "scope") d with
                  | Some x => x | None => PStr [] end);
                 (lit "authenticated_at", PStr (now_iso E))]
              = credential E d).
    { unfold credential. now rewrite Haccess. }
    rewrite Hshape.
    destruct (encodable (PDict (dict_set account (credential E d) [])))
      eqn:Henc.
    + destruct (match dict_find (lit "open_id") d with
                | Some x => x | None => PStr (lit "N/A") end)
        as [| | |s|l|dd];
        eexists _, _, [EvHttp rq; EvSave _];
        (split; [reflexivity|]);
        cbn [tokens_file history_file code_verifier rng_pos inbox trace];
        rewrite <- ?app_assoc;
        do 5 (split; [reflexivity|]);
        right; exists code; give reflexivity; give ltac:(exact Hcode);
        right; exists r, d, [];
        give ltac:(exact Hr); give ltac:(exact H200); give ltac:(exact Hjson);
        give congruence; give ltac:(now right);
        cbv zeta; left; give ltac:(exact Henc);
        give reflexivity; give reflexivity;
        first [left; reflexivity | right; eexists; reflexivity].
    + eexists _, _, [EvHttp rq; EvSaveBroken _].
      split; [reflexivity|].
      cbn [tokens_file history_file code_verifier rng_pos inbox trace].
      rewrite <- ?app_assoc.
      do 5 (split; [reflexivity|]).
      right. exists code. give reflexivity. give ltac:(exact Hcode).
      right. exists r, d, [].
      give ltac:(exact Hr). give ltac:(exact H200). give ltac:(exact Hjson).
      give congruence. give ltac:(now right).
      cbv zeta. right. repeat split. exact Henc.
Qed.

Lemma handle_one_code (E : env) (rq : incoming) (srv : server) (status : Z)
      (code : pystr) :
  handle_one E (mkServer None None) rq = (srv, status) ->
  auth_code srv = Some code ->
  srv = mkServer (Some code) None
  /\ status = 200
  /\ command rq = lit "GET"
  /\ u_path (urlparse E (target rq)) = lit "/callback"
  /\ exists more,
      qs_find (lit "code") (parse_qs E (u_query (urlparse E (target rq))))
      = Some (code, more).
Proof.
  unfold handle_one, do_GET.
  destruct (pystr_eqb (command rq) (lit "GET")) eqn:Hget.
  2:{ intros [= <- <-]. discriminate. }
  destruct (pystr_eqb (u_path (urlparse E (target rq))) (lit "/callback"))
    eqn:Hpath.
  2:{ intros [= <- <-]. discriminate. }
  apply pystr_eqb_eq in Hget, Hpath.
  destruct (qs_find (lit "code")
                    (parse_qs E (u_query (urlparse E (target rq)))))
    as [[c more]|].
  - intros [= <- <-]. cbn [auth_code error]. intros [= ->].
    repeat split; auto. now exists more.
  - intros [= <- <-]. discriminate.
Qed.

(** The four ways a run of [authenticate] can go up to the last stage. *)
Lemma authenticate_cases (E : env) (account : pystr) (w : world) :
  ((TIKTOK_CLIENT_KEY E = [] \/ TIKTOK_CLIENT_SECRET E = [])
   /\ authenticate E account w = (Returns false, w))
  \/ (TIKTOK_CLIENT_KEY E <> [] /\ TIKTOK_CLIENT_SECRET E <> []
      /\ exists verifier challenge,
          challenge_of verifier = Ok challenge
          /\ length verifier = 86%nat
          /\ let w1 :=
               mkWorld (tokens_file w) (history_file w) (Some verifier)
                       (rng_pos w + 64)%nat (inbox w) (trace w) in
             let url := authorize_url E account challenge in
             (port_free E = false
              /\ authenticate E account w
                 = (Returns false, logs [EvBind false] w1))
             \/ (port_free E = true /\ inbox w = []
                 /\ authenticate E account w
                    = (Blocks, logs [EvBind true; EvBrowser url] w1))
             \/ (port_free E = true
                 /\ exists rq later srv status,
                     inbox w = rq :: later
                     /\ handle_one E (mkServer None None) rq = (srv, status)
                     /\ authenticate E account w
                        = exchange_and_store E account (auth_code srv)
                            (mkWorld (tokens_file w) (history_file w)
                                     (Some verifier) (rng_pos w + 64)%nat
                                     later
                                     (trace w ++ [EvBind true; EvBrowser url;
                                                  EvServe rq status;
                                                  EvClose])))).
Proof.
  assert (Hfalsy : forall s, truthy (PStr s) = false -> s = []).
  { intros [|c s]; [reflexivity|discriminate]. }
  destruct (truthy (PStr (TIKTOK_CLIENT_KEY E))) eqn:Hkey.
  2:{ left. split; [left; now apply Hfalsy|].
      unfold authenticate. now rewrite Hkey. }
  destruct (truthy (PStr (TIKTOK_CLIENT_SECRET E))) eqn:Hsecret.
  2:{ left. split; [right; now apply Hfalsy|].
      unfold authenticate. now rewrite Hkey, Hsecret. }
  right. split; [now apply truthy_str|]. split; [now apply truthy_str|].
  destruct (generate_pkce_run E w)
    as (verifier & challenge & ascii & padded & Hgen & _ & _ & _ & Hch
        & Hlen & _).
  exists verifier, challenge. split; [exact Hch|]. split; [exact Hlen|].
  cbv zeta. remember (authenticate E account w) as run eqn:Hrun.
  unfold authenticate in Hrun. rewrite Hkey, Hsecret in Hrun.
  cbn [negb orb] in Hrun. unfold bind at 1 in Hrun. rewrite Hgen in Hrun.
  unfold bind at 1, bind_server in Hrun.
  fold (authorize_url E account challenge) in Hrun.
  destruct (port_free E) eqn:Hport; cbn [negb] in Hrun.
  2:{ left. split; [reflexivity|]. exact Hrun. }
  right. unfold bind at 1, webbrowser_open in Hrun.
  unfold bind at 1, handle_request in Hrun. cbn [inbox log] in Hrun.
  destruct (inbox w) as [|rq later] eqn:Hinbox.
  { left. split; [reflexivity|]. split; [reflexivity|].
    rewrite Hrun. unfold logs, log.
    cbn [tokens_file history_file code_verifier rng_pos inbox trace].
    rewrite <- ?app_assoc. reflexivity. }
  right. split; [reflexivity|].
  destruct (handle_one E (mkServer None None) rq) as [srv status] eqn:Hone.
  exists rq, later, srv, status.
  split; [reflexivity|]. split; [exact Hone|].
  cbv beta iota in Hrun. unfold bind at 1, server_close, log in Hrun.
  cbn [tokens_file history_file code_verifier rng_pos inbox trace] in Hrun.
  rewrite <- ?app_assoc in Hrun. cbn [app] in Hrun.
  exact Hrun.
Qed.

(** Every run of [authenticate], seen from the token file: either the
    file is not written, or the exchange was answered 200 with a dict
    holding an access_token and the credential built from that answer is
    written under the account, which fails when it cannot be encoded. *)
Lemma authenticate_writes (E : env) (account : pystr) (w : world) :
  exists o w' new,
    authenticate E account w = (o, w')
    /\ trace w' = trace w ++ new
    /\ history_file w' = history_file w
    /\ ((tokens_file w' = tokens_file w
         /\ Forall (fun e => listener_event e = true \/ is_http e = true) new
         /\ o <> Returns true)
        \/ exists verifier challenge arrival code r data old,
            challenge_of verifier = Ok challenge
            /\ let rq := token_request E (PStr code) (PStr verifier) in
               let saved :=
                 PDict (dict_set account (credential E data) old) in
               let before :=
                 [EvBind true; EvBrowser (authorize_url E account challenge);
                  EvServe arrival 200; EvClose; EvHttp rq] in
               http E (http_count (trace w)) rq = Ok r
               /\ status_code r = 200
               /\ json_body r = Some (PDict data)
               /\ dict_find (lit "access_token") data <> None
               /\ stored_dict (tokens_file w) old
               /\ ((encodable saved = true
                    /\ new = before ++ [EvSave saved]
                    /\ tokens_file w' = Some (Json saved)
                    /\ (o = Returns true \/ exists e, o = Raises e))
                   \/ (encodable saved = false
                       /\ new = before ++ [EvSaveBroken saved]
                       /\ tokens_file w' = Some Garbage
                       /\ o = Raises UnicodeError))).
Proof.
  destruct (authenticate_cases E account w)
    as [[_ Hrun] | (_ & _ & verifier & challenge & Hch & _ & Hcases)].
  { exists (Returns false), w, []. rewrite app_nil_r.
    do 3 (split; [first [assumption|reflexivity]|]). left.
    split; [reflexivity|]. split; [constructor|discriminate]. }
  cbv zeta in Hcases.
  destruct Hcases as [[_ Hrun] | [(_ & _ & Hrun) | (_ & Hrest)]].
  { eexists _, _, [EvBind false]. split; [exact Hrun|].
    do 2 (split; [reflexivity|]). left.
    split; [reflexivity|]. split; [repeat (constructor; [now left|]); constructor|discriminate]. }
  { eexists _, _, [EvBind true; EvBrowser _]. split; [exact Hrun|].
    do 2 (split; [reflexivity|]). left.
    split; [reflexivity|]. split; [repeat (constructor; [now left|]); constructor|discriminate]. }
  destruct Hrest as (arrival & later & srv & status & Hinbox & Hone & Hrun).
  set (w4 := mkWorld (tokens_file w) (history_file w) (Some verifier)
                     (rng_pos w + 64)%nat later
                     (trace w ++ [EvBind true;
                                  EvBrowser (authorize_url E account challenge);
                                  EvServe arrival status; EvClose])) in *.
  destruct (exchange_and_store_cases E account (auth_code srv) w4)
    as (o & w' & new & Htail & Htrace & Hhist & _ & _ & _ & Hnew).
  exists o, w',
    ([EvBind true; EvBrowser (authorize_url E account challenge);
      EvServe arrival status; EvClose] ++ new).
  split; [now rewrite Hrun|].
  split; [rewrite Htrace; unfold w4; cbn [trace]; now rewrite <- app_assoc|].
  split; [exact Hhist|].
  destruct Hnew as [(-> & Ho & Hfile & _) | (c & Hc & Hne & Hsent)].
  { left. split; [exact Hfile|].
    split; [repeat (constructor; [now left|]); constructor|].
    rewrite Ho. discriminate. }
  cbv zeta in Hsent.
  destruct Hsent
    as [(-> & Hfile & Ho & _) | (r & data & old & Hanswer & H200 & Hbody
                                 & Haccess & Hold & Hsaved)].
  { left. split; [exact Hfile|]. split; [|exact Ho].
    repeat (constructor; [first [now left|now right]|]); constructor. }
  destruct (handle_one_code E arrival srv status c Hone Hc)
    as (_ & -> & _).
  assert (Hcount : http_count (trace w4) = http_count (trace w)).
  { unfold w4. cbn [trace]. rewrite http_count_app. cbn. lia. }
  rewrite Hcount in Hanswer. cbn [code_verifier w4 opt_str] in Hanswer, Hsaved.
  right. exists verifier, challenge, arrival, c, r, data, old.
  split; [exact Hch|]. cbv zeta.
  do 5 (split; [assumption|]).
  cbv zeta in Hsaved.
  destruct Hsaved as [(Henc & -> & Hfile & Ho) | (Henc & -> & Hfile & Ho)].
  - left. repeat split; assumption.
  - right. repeat split; assumption.
Qed.

(** X5.  PKCE and code binding of the token exchange.  In every run of
    [authenticate] at most one HTTP request is sent, and when one is sent
    it is the token exchange carrying (a) the non-empty code that the one
    served callback request delivered, and (b) a verifier whose SHA-256
    challenge is the code_challenge of the authorization URL that was
    opened in the browser in the same run. *)
Theorem token_exchange_is_bound (E : env) (account : pystr) (w : world) :
  exists o w' new,
    authenticate E account w = (o, w')
    /\ trace w' = trace w ++ new
    /\ (http_count new <= 1)%nat
    /\ forall rq,
        In (EvHttp rq) new ->
        exists verifier challenge code arrival more,
          challenge_of verifier = Ok challenge
          /\ In (EvBrowser (authorize_url E account challenge)) new
          /\ In (EvServe arrival 200) new
          /\ command arrival = lit "GET"
          /\ u_path (urlparse E (target arrival)) = lit "/callback"
          /\ qs_find (lit "code")
                     (parse_qs E (u_query (urlparse E (target arrival))))
             = Some (code, more)
          /\ code <> []
          /\ rq = token_request E (PStr code) (PStr verifier).
Proof.
  destruct (authenticate_cases E account w)
    as [[_ Hrun] | (_ & _ & verifier & challenge & Hch & _ & Hcases)].
  { exists (Returns false), w, []. rewrite app_nil_r.
    repeat split; auto. intros rq []. }
  cbv zeta in Hcases.
  destruct Hcases as [[_ Hrun] | [(_ & _ & Hrun) | (_ & Hrest)]].
  { eexists _, _, [EvBind false]. split; [exact Hrun|].
    split; [reflexivity|]. split; [cbn; lia|].
    intros rq [Hin|[]]. discriminate Hin. }
  { eexists _, _, [EvBind true; EvBrowser _]. split; [exact Hrun|].
    split; [reflexivity|]. split; [cbn; lia|].
    intros rq [Hin|[Hin|[]]]; discriminate Hin. }
  destruct Hrest as (arrival & later & srv & status & Hinbox & Hone & Hrun).
  set (w4 := mkWorld (tokens_file w) (history_file w) (Some verifier)
                     (rng_pos w + 64)%nat later
                     (trace w ++ [EvBind true;
                                  EvBrowser (authorize_url E account challenge);
                                  EvServe arrival status; EvClose])) in *.
  destruct (exchange_and_store_cases E account (auth_code srv) w4)
    as (o & w' & new & Htail & Htrace & _ & _ & _ & _ & Hnew).
  exists o, w',
    ([EvBind true; EvBrowser (authorize_url E account challenge);
      EvServe arrival status; EvClose] ++ new).
  split; [now rewrite Hrun|].
  split; [rewrite Htrace; unfold w4; cbn [trace]; now rewrite <- app_assoc|].
  assert (Hone_request :
            forall c : pystr,
              auth_code srv = Some c -> c <> [] ->
              forall rq,
                rq = token_request E (PStr c) (opt_str (code_verifier w4)) ->
                exists v0 ch0 code arrival0 more,
                  challenge_of v0 = Ok ch0
                  /\ In (EvBrowser (authorize_url E account ch0))
                        ([EvBind true;
                          EvBrowser (authorize_url E account challenge);
                          EvServe arrival status; EvClose] ++ new)
                  /\ In (EvServe arrival0 200)
                        ([EvBind true;
                          EvBrowser (authorize_url E account challenge);
                          EvServe arrival status; EvClose] ++ new)
                  /\ command arrival0 = lit "GET"
                  /\ u_path (urlparse E (target arrival0)) = lit "/callback"
                  /\ qs_find (lit "code")
                             (parse_qs E
                                (u_query (urlparse E (target arrival0))))
                     = Some (code, more)
                  /\ code <> []
                  /\ rq = token_request E (PStr code) (PStr v0)).
  { intros c Hc Hne rq ->.
    destruct (handle_one_code E arrival srv status c Hone Hc)
      as (_ & -> & Hget & Hpath & more & Hqs).
    exists verifier, challenge, c, arrival, more.
    split; [exact Hch|]. split; [right; now left|].
    split; [right; right; now left|].
    repeat split; auto. }
  destruct Hnew as [(-> & _) | (c & Hc & Hne & Hsent)].
  { split; [cbn; lia|].
    intros rq Hin. cbn in Hin.
    destruct Hin as [Hin|[Hin|[Hin|[Hin|[]]]]]; discriminate Hin. }
  cbv zeta in Hsent.
  destruct Hsent as [(-> & _) | (r & data & old & _ & _ & _ & _ & _ & Hsaved)].
  - split; [cbn; lia|].
    intros rq Hin. cbn in Hin.
    destruct Hin as [Hin|[Hin|[Hin|[Hin|[Hin|[]]]]]]; try discriminate Hin.
    injection Hin as <-. exact (Hone_request c Hc Hne _ eq_refl).
  - cbv zeta in Hsaved.
    destruct Hsaved as [(_ & -> & _) | (_ & -> & _)];
      (split; [cbn; lia|]);
      intros rq Hin; cbn in Hin;
      destruct Hin as [Hin|[Hin|[Hin|[Hin|[Hin|[Hin|[]]]]]]];
      try discriminate Hin;
      injection Hin as <-; exact (Hone_request c Hc Hne _ eq_refl).
Qed.

(** [get_access_token] on a token file that holds a dict. *)
Lemma get_access_token_stored (account : pystr) (w : world)
      (d : pydict) :
  tokens_file w = Some (Json (PDict d)) ->
  get_access_token account w
  = (match dict_find account d with
     | Some (PDict entry) =>
         Returns (match dict_find (lit "access_token") entry with
                  | Some v => v
                  | None => PStr []
                  end)
     | Some _ => Raises AttributeError
     | None => Returns (PStr [])
     end, w).
Proof.
  intros Hfile. unfold get_access_token, bind, load_tokens, lift, ret.
  rewrite Hfile. cbn [py_in py_item].
  destruct (dict_find account d) as [[| | | | |entry]|]; reflexivity.
Qed.

(** X6.  A successful authentication can be read back.  When
    [authenticate] returns [True], its effects were the bind, the browser,
    the served callback, the close, the token exchange and one save; the
    exchange was answered 200 with a JSON object, and the token file holds
    the former dict with the entry of [account] replaced by the credential
    built from that answer.  Every other account keeps its entry, and
    [get_access_token] for that account returns the access_token of that
    answer. *)
Theorem authenticate_stores_credential
        (E : env) (account : pystr) (w w' : world) :
  authenticate E account w = (Returns true, w') ->
  exists verifier challenge arrival code r data old access,
    let rq := token_request E (PStr code) (PStr verifier) in
    let saved := PDict (dict_set account (credential E data) old) in
    trace w'
    = trace w ++ [EvBind true; EvBrowser (authorize_url E account challenge);
                  EvServe arrival 200; EvClose; EvHttp rq; EvSave saved]
    /\ http E (http_count (trace w)) rq = Ok r
    /\ status_code r = 200
    /\ json_body r = Some (PDict data)
    /\ dict_find (lit "access_token") data = Some access
    /\ stored_dict (tokens_file w) old
    /\ tokens_file w' = Some (Json saved)
    /\ get_access_token account w' = (Returns access, w')
    /\ forall other,
        other <> account ->
        dict_find other (dict_set account (credential E data) old)
        = dict_find other old.
Proof.
  intros Hrun.
  destruct (authenticate_writes E account w)
    as (o & w1 & new & Hrun' & Htrace & _ & Hcases).
  rewrite Hrun in Hrun'. injection Hrun' as <- <-.
  destruct Hcases
    as [(_ & _ & Hno) | (verifier & challenge & arrival & code & r & data
                         & old & _ & Hwritten)];
    [exfalso; apply Hno; reflexivity|].
  cbv zeta in Hwritten.
  destruct Hwritten as (Hanswer & H200 & Hbody & Haccess & Hold & Hsaved).
  destruct Hsaved as [(_ & Hnew & Hfile & _) | (_ & _ & _ & Ho)];
    [|discriminate Ho].
  destruct (dict_find (lit "access_token") data) as [access|] eqn:Hacc;
    [|exfalso; apply Haccess; reflexivity].
  exists verifier, challenge, arrival, code, r, data, old, access. cbv zeta.
  split; [rewrite Htrace, Hnew; reflexivity|].
  do 4 (split; [assumption|]). split; [exact Hold|]. split; [exact Hfile|].
  split.
  - rewrite (get_access_token_stored account w' _ Hfile).
    rewrite dict_find_set_same. unfold credential. cbn [dict_find].
    change (pystr_eqb (lit "access_token") (lit "access_token")) with true.
    cbv iota. now rewrite Hacc.
  - intros other Hother. now apply dict_find_set_other.
Qed.

Lemma authenticate_stores_credential_witness :
  exists verifier challenge arrival code r data old access,
    let rq := token_request Scenario.authorising (PStr code) (PStr verifier) in
    let saved :=
      PDict (dict_set (lit "default")
                      (credential Scenario.authorising data) old) in
    trace (snd Scenario.authorised_run)
    = trace (Sample.fresh [Scenario.callback_abc])
        ++ [EvBind true;
            EvBrowser (authorize_url Scenario.authorising (lit "default")
                                     challenge);
            EvServe arrival 200; EvClose; EvHttp rq; EvSave saved]
    /\ http Scenario.authorising
            (http_count (trace (Sample.fresh [Scenario.callback_abc]))) rq
       = Ok r
    /\ status_code r = 200
    /\ json_body r = Some (PDict data)
    /\ dict_find (lit "access_token") data = Some access
    /\ stored_dict (tokens_file (Sample.fresh [Scenario.callback_abc])) old
    /\ tokens_file (snd Scenario.authorised_run) = Some (Json saved)
    /\ get_access_token (lit "default") (snd Scenario.authorised_run)
       = (Returns access, snd Scenario.authorised_run)
    /\ forall other,
        other <> lit "default" ->
        dict_find other (dict_set (lit "default")
                           (credential Scenario.authorising data) old)
        = dict_find other old.
Proof.
  apply (authenticate_stores_credential
           Scenario.authorising (lit "default")
           (Sample.fresh [Scenario.callback_abc])
           (snd Scenario.authorised_run)).
  vm_compute. reflexivity.
Defined.

(** X7.  A failed authentication leaves the stored credentials alone.  In
    every run of [authenticate] the history file is untouched, and when the
    call returns [False] or never returns, the token file is what it was
    and nothing was saved. *)
Theorem authenticate_failure_keeps_tokens
        (E : env) (account : pystr) (w : world) :
  exists o w' new,
    authenticate E account w = (o, w')
    /\ trace w' = trace w ++ new
    /\ history_file w' = history_file w
    /\ (o = Returns false \/ o = Blocks ->
        tokens_file w' = tokens_file w
        /\ Forall (fun e => is_save e = false) new).
Proof.
  destruct (authenticate_writes E account w)
    as (o & w' & new & Hrun & Htrace & Hhist & Hcases).
  exists o, w', new. do 3 (split; [assumption|]). intros Ho.
  destruct Hcases
    as [(Hfile & Hall & _) | (verifier & challenge & arrival & code & r
                              & data & old & _ & Hwritten)].
  - split; [exact Hfile|]. eapply Forall_impl; [|exact Hall].
    intros [] [He|He]; try reflexivity; discriminate He.
  - cbv zeta in Hwritten.
    destruct Hwritten as (_ & _ & _ & _ & _ & Hsaved).
    destruct Hsaved as [(_ & _ & _ & [->|[e ->]]) | (_ & _ & _ & ->)];
      destruct Ho as [Ho|Ho]; discriminate Ho.
Qed.





(** Every way a run of [refresh_access_token] can go. *)
Lemma refresh_cases (E : env) (account : pystr) (w : world) :
  exists o w' new,
    refresh_access_token E account w = (o, w')
    /\ trace w' = trace w ++ new
    /\ history_file w' = history_file w
    /\ inbox w' = inbox w
    /\ code_verifier w' = code_verifier w
    /\ rng_pos w' = rng_pos w
    /\ ((new = [] /\ w' = w /\ o <> Returns true /\ o <> Blocks
         /\ forall d entry,
             tokens_file w = Some (Json (PDict d)) ->
             dict_find account d = Some (PDict entry) ->
             truthy (stored_refresh_token entry) = false)
        \/ exists d entry,
            tokens_file w = Some (Json (PDict d))
            /\ dict_find account d = Some (PDict entry)
            /\ truthy (stored_refresh_token entry) = true
            /\ let rq := refresh_request E (stored_refresh_token entry) in
               (new = [EvHttp rq] /\ tokens_file w' = tokens_file w
                /\ o <> Returns true
                /\ (o = Blocks -> http E (http_count (trace w)) rq = Silent))
               \/ exists r data access,
                   http E (http_count (trace w)) rq = Ok r
                   /\ status_code r = 200
                   /\ json_body r = Some (PDict data)
                   /\ dict_find (lit "access_token") data = Some access
                   /\ let saved :=
                        PDict (dict_set account
                                        (refreshed E entry data access) d) in
                      (encodable saved = true
                       /\ new = [EvHttp rq; EvSave saved]
                       /\ tokens_file w' = Some (Json saved)
                       /\ o = Returns true)
                      \/ (encodable saved = false
                          /\ new = [EvHttp rq; EvSaveBroken saved]
                          /\ tokens_file w' = Some Garbage
                          /\ o = Raises UnicodeError)).
Proof.
  assert (Hsilent : forall o : outcome bool,
             o <> Returns true -> o <> Blocks ->
             (forall d entry,
                 tokens_file w = Some (Json (PDict d)) ->
                 dict_find account d = Some (PDict entry) ->
                 truthy (stored_refresh_token entry) = false) ->
             forall run, run = (o, w) ->
             exists o w' new,
               run = (o, w')
               /\ trace w' = trace w ++ new
               /\ history_file w' = history_file w
               /\ inbox w' = inbox w
               /\ code_verifier w' = code_verifier w
               /\ rng_pos w' = rng_pos w
               /\ ((new = [] /\ w' = w /\ o <> Returns true /\ o <> Blocks
                    /\ forall d entry,
                        tokens_file w = Some (Json (PDict d)) ->
                        dict_find account d = Some (PDict entry) ->
                        truthy (stored_refresh_token entry) = false)
                   \/ exists d entry,
                       tokens_file w = Some (Json (PDict d))
                       /\ dict_find account d = Some (PDict entry)
                       /\ truthy (stored_refresh_token entry) = true
                       /\ let rq := refresh_request E (stored_refresh_token entry) in
                          (new = [EvHttp rq] /\ tokens_file w' = tokens_file w
                           /\ o <> Returns true
                           /\ (o = Blocks -> http E (http_count (trace w)) rq = Silent))
                          \/ exists r data access,
                              http E (http_count (trace w)) rq = Ok r
                              /\ status_code r = 200
                              /\ json_body r = Some (PDict data)
                              /\ dict_find (lit "access_token") data = Some access
                              /\ let saved :=
                                   PDict (dict_set account
                                                   (refreshed E entry data access) d) in
                                 (encodable saved = true
                                  /\ new = [EvHttp rq; EvSave saved]
                                  /\ tokens_file w' = Some (Json saved)
                                  /\ o = Returns true)
                                 \/ (encodable saved = false
                                     /\ new = [EvHttp rq; EvSaveBroken saved]
                                     /\ tokens_file w' = Some Garbage
                                     /\ o = Raises UnicodeError))).
  { intros o Ho Hnb Hnone run ->. exists o, w, []. rewrite app_nil_r.
    do 6 (split; [reflexivity|]). left. repeat split; auto. }
  remember (refresh_access_token E account w) as run eqn:Hrun.
  unfold refresh_access_token in Hrun.
  unfold bind at 1, load_tokens in Hrun.
  destruct (tokens_file w) as [[tokens|]|] eqn:Hfile.
  2:{ apply (Hsilent (Raises JSONDecodeError));
        [discriminate|discriminate|congruence|exact Hrun]. }
  2:{ apply (Hsilent (Returns false));
        [discriminate|discriminate|congruence|exact Hrun]. }
  unfold bind at 1, lift in Hrun.
  destruct tokens as [| b | z | s | l | d]; cbn [py_in] in Hrun;
    try (apply (Hsilent (Raises TypeError));
         [discriminate|discriminate|congruence|exact Hrun]).
  1,2: match type of Hrun with
       | context [if negb ?c then _ else _] => destruct c
       end; cbn [negb] in Hrun;
       [ apply (Hsilent (Raises TypeError));
         [discriminate|discriminate|congruence|exact Hrun]
       | apply (Hsilent (Returns false));
         [discriminate|discriminate|congruence|exact Hrun] ].
  destruct (dict_find account d) as [v|] eqn:Hentry; cbn [negb] in Hrun.
  2:{ apply (Hsilent (Returns false));
        [discriminate|discriminate|congruence|exact Hrun]. }
  unfold bind at 1, lift in Hrun. cbn [py_item] in Hrun.
  rewrite Hentry in Hrun. unfold bind at 1, lift in Hrun.
  destruct v as [| b | z | s | l | entry]; cbn [py_get] in Hrun;
    try (apply (Hsilent (Raises AttributeError));
         [discriminate|discriminate|congruence|exact Hrun]).
  fold (stored_refresh_token entry) in Hrun.
  destruct (truthy (stored_refresh_token entry)) eqn:Htoken;
    cbn [negb] in Hrun.
  2:{ apply (Hsilent (Returns false));
        [discriminate|discriminate|congruence|exact Hrun]. }
  clear Hsilent.
  set (rq := refresh_request E (stored_refresh_token entry)).
  assert (Hsent : forall o : outcome bool,
             o <> Returns true ->
             (o = Blocks -> http E (http_count (trace w)) rq = Silent) ->
             run = (o, log (EvHttp rq) w) ->
             exists o w' new,
               run = (o, w')
               /\ trace w' = trace w ++ new
               /\ history_file w' = history_file w
               /\ inbox w' = inbox w
               /\ code_verifier w' = code_verifier w
               /\ rng_pos w' = rng_pos w
               /\ ((new = [] /\ w' = w /\ o <> Returns true /\ o <> Blocks
                    /\ forall d0 entry0,
                        Some (Json (PDict d)) = Some (Json (PDict d0)) ->
                        dict_find account d0 = Some (PDict entry0) ->
                        truthy (stored_refresh_token entry0) = false)
                   \/ exists d0 entry0,
                       Some (Json (PDict d)) = Some (Json (PDict d0))
                       /\ dict_find account d0 = Some (PDict entry0)
                       /\ truthy (stored_refresh_token entry0) = true
                       /\ let rq := refresh_request E (stored_refresh_token entry0) in
                          (new = [EvHttp rq] /\ tokens_file w' = Some (Json (PDict d))
                           /\ o <> Returns true
                           /\ (o = Blocks -> http E (http_count (trace w)) rq = Silent))
                          \/ exists r data access,
                              http E (http_count (trace w)) rq = Ok r
                              /\ status_code r = 200
                              /\ json_body r = Some (PDict data)
                              /\ dict_find (lit "access_token") data = Some access
                              /\ let saved :=
                                   PDict (dict_set account
                                                   (refreshed E entry0 data access) d0) in
                                 (encodable saved = true
                                  /\ new = [EvHttp rq; EvSave saved]
                                  /\ tokens_file w' = Some (Json saved)
                                  /\ o = Returns true)
                                 \/ (encodable saved = false
                                     /\ new = [EvHttp rq; EvSaveBroken saved]
                                     /\ tokens_file w' = Some Garbage
                                     /\ o = Raises UnicodeError))).
  { intros o Ho Hb ->. exists o, (log (EvHttp rq) w), [EvHttp rq].
    do 6 (split; [reflexivity|]). right. exists d, entry.
    do 3 (split; [first [reflexivity|assumption]|]).
    left. split; [reflexivity|]. split; [exact Hfile|].
    split; [exact Ho|exact Hb]. }
  unfold bind at 1, requests_post, send in Hrun.
  fold (refresh_request E (stored_refresh_token entry)) in Hrun.
  fold rq in Hrun.
  destruct (http E (http_count (trace w)) rq) as [[r|e]|] eqn:Hanswer.
  2:{ apply (Hsent (Raises e)); [discriminate|discriminate|exact Hrun]. }
  2:{ apply (Hsent Blocks); [discriminate|reflexivity|exact Hrun]. }
  destruct (status_code r =? 200) eqn:Hstatus; cbn [negb] in Hrun.
  2:{ apply (Hsent (Returns false));
        [discriminate|discriminate|exact Hrun]. }
  apply Z.eqb_eq in Hstatus.
  unfold bind at 1, lift, json in Hrun.
  destruct (json_body r) as [data|] eqn:Hbody.
  2:{ apply (Hsent (Raises JSONDecodeError));
        [discriminate|discriminate|exact Hrun]. }
  unfold bind at 1, lift in Hrun.
  destruct data as [| b | z | s | l | data]; cbn [py_in] in Hrun;
    try (apply (Hsent (Raises TypeError));
         [discriminate|discriminate|exact Hrun]).
  1,2: match type of Hrun with
       | context [if negb ?c then _ else _] => destruct c
       end; cbn [negb] in Hrun;
       [ apply (Hsent (Raises TypeError));
         [discriminate|discriminate|exact Hrun]
       | apply (Hsent (Returns false));
         [discriminate|discriminate|exact Hrun] ].
  destruct (dict_find (lit "access_token") data) as [access|] eqn:Haccess;
    cbn [negb] in Hrun.
  2:{ apply (Hsent (Returns false));
        [discriminate|discriminate|exact Hrun]. }
  unfold bind at 1, lift in Hrun. cbn [py_item] in Hrun.
  rewrite Haccess in Hrun.
  unfold bind at 1, lift in Hrun. cbn [py_get] in Hrun.
  unfold bind at 1, lift in Hrun. unfold update_entry in Hrun.
  rewrite Hentry in Hrun.
  fold (refreshed E entry data access) in Hrun.
  unfold bind at 1, save_tokens, ret in Hrun.
  destruct (encodable (PDict (dict_set account
                                       (refreshed E entry data access) d)))
    eqn:Henc.
  - eexists _, _, [EvHttp rq; EvSave _]. split; [exact Hrun|].
    cbn [trace log tokens_file history_file inbox code_verifier rng_pos].
    split; [now rewrite <- app_assoc|].
    do 4 (split; [reflexivity|]).
    right. exists d, entry.
    do 3 (split; [first [reflexivity|assumption]|]).
    right. exists r, data, access.
    do 4 (split; [first [reflexivity|assumption]|]).
    cbv zeta. left. repeat split. exact Henc.
  - eexists _, _, [EvHttp rq; EvSaveBroken _]. split; [exact Hrun|].
    cbn [trace log tokens_file history_file inbox code_verifier rng_pos].
    split; [now rewrite <- app_assoc|].
    do 4 (split; [reflexivity|]).
    right. exists d, entry.
    do 3 (split; [first [reflexivity|assumption]|]).
    right. exists r, data, access.
    do 4 (split; [first [reflexivity|assumption]|]).
    cbv zeta. right. repeat split. exact Henc.
Qed.

(** C10, as the code has it.  Every run of [refresh_access_token] goes one
    of three ways.  Either no write of the token file is attempted, the
    file is what it was and the call does not return [True]: this is so for
    an unknown account, an empty stored refresh token, an exchange that is
    not answered 200 and an answer without access_token.  Or the account is
    stored with a refresh token, the exchange was answered 200 with a dict
    holding an access_token, the only effects are the exchange request and
    one save, the token file holds what was saved and the call returns
    [True].  Or, after such an exchange, the write itself fails because the
    document holds a string that cannot be encoded: the call raises and
    the token file is left undecodable. *)
Theorem refresh_is_atomic (E : env) (account : pystr) (w : world) :
  exists o w' new,
    refresh_access_token E account w = (o, w')
    /\ trace w' = trace w ++ new
    /\ ((tokens_file w' = tokens_file w
         /\ Forall (fun e => writes_tokens e = false) new
         /\ o <> Returns true)
        \/ exists d entry r data access,
            tokens_file w = Some (Json (PDict d))
            /\ dict_find account d = Some (PDict entry)
            /\ truthy (stored_refresh_token entry) = true
            /\ let rq := refresh_request E (stored_refresh_token entry) in
               let saved :=
                 PDict (dict_set account (refreshed E entry data access) d) in
               http E (http_count (trace w)) rq = Ok r
               /\ status_code r = 200
               /\ json_body r = Some (PDict data)
               /\ dict_find (lit "access_token") data = Some access
               /\ ((encodable saved = true
                    /\ new = [EvHttp rq; EvSave saved]
                    /\ tokens_file w' = Some (Json saved)
                    /\ o = Returns true)
                   \/ (encodable saved = false
                       /\ new = [EvHttp rq; EvSaveBroken saved]
                       /\ tokens_file w' = Some Garbage
                       /\ o = Raises UnicodeError))).
Proof.
  destruct (refresh_cases E account w)
    as (o & w' & new & Hrun & Htrace & _ & _ & _ & _ & Hcases).
  exists o, w', new. split; [exact Hrun|]. split; [exact Htrace|].
  destruct Hcases
    as [(-> & -> & Ho & _) | (d & entry & Hfile & Hentry & Htoken & Hsent)].
  { left. split; [reflexivity|]. split; [constructor|exact Ho]. }
  cbv zeta in Hsent.
  destruct Hsent
    as [(-> & Hsame & Ho & _) | (r & data & access & Hanswer & H200 & Hbody
                               & Haccess & Hsaved)].
  { left. split; [exact Hsame|]. split; [repeat constructor|exact Ho]. }
  right. exists d, entry, r, data, access.
  do 3 (split; [assumption|]). cbv zeta. do 4 (split; [assumption|]).
  exact Hsaved.
Qed.

(** C10, counterexample to the sentence as written: the token endpoint
    answers 200 with an access_token that holds a lone surrogate; the
    refresh raises while the token file is being written, and the file,
    which held the credentials of two accounts, is left undecodable. *)
Lemma refresh_can_spoil_store : ~ failed_refresh_keeps_store.
Proof.
  intros H.
  specialize (H Scenario.spoiling (lit "default") Scenario.signed_in).
  vm_compute in H.
  assert (Hfile : Some Garbage <> tokens_file Scenario.signed_in)
    by (vm_compute; discriminate).
  apply Hfile, H. discriminate.
Qed.

(** Assigning to a key that is present keeps the keys and their order. *)
Lemma dict_set_keys (k : pystr) (v : pyval) (d : pydict) :
  dict_find k d <> None -> map fst (dict_set k v d) = map fst d.
Proof.
  induction d as [|[k' v'] d IH]; simpl; [congruence|].
  destruct (pystr_eqb k k') eqn:Hk; simpl.
  - intros _. apply pystr_eqb_eq in Hk. now subst.
  - intros Hd. now rewrite IH.
Qed.

Lemma lit_keys_differ (a b : string) :
  pystr_eqb (lit a) (lit b) = false -> lit a <> lit b.
Proof. apply pystr_eqb_neq. Qed.

(** X10.  The refresh request carries the stored refresh token.  In every
    run of [refresh_access_token] at most one HTTP request is sent; one is
    sent only when the token file holds an entry for the account with a
    non-empty refresh_token, and the request is the refresh exchange for
    exactly that token.  The upload history is never touched. *)
Theorem refresh_sends_stored_token (E : env) (account : pystr) (w : world) :
  exists o w' new,
    refresh_access_token E account w = (o, w')
    /\ trace w' = trace w ++ new
    /\ (http_count new <= 1)%nat
    /\ history_file w' = history_file w
    /\ forall rq, In (EvHttp rq) new ->
        exists d entry,
          tokens_file w = Some (Json (PDict d))
          /\ dict_find account d = Some (PDict entry)
          /\ truthy (stored_refresh_token entry) = true
          /\ rq = refresh_request E (stored_refresh_token entry).
Proof.
  destruct (refresh_cases E account w)
    as (o & w' & new & Hrun & Htrace & Hhist & _ & _ & _ & Hnew).
  exists o, w', new.
  do 2 (split; [assumption|]).
  destruct Hnew as [(-> & _) | (d & entry & Hfile & Hentry & Htoken & Hsent)].
  { split; [unfold http_count; simpl; lia|]. split; [exact Hhist|].
    intros rq []. }
  cbv zeta in Hsent.
  assert (Hone : forall rq, In (EvHttp rq) new ->
                   rq = refresh_request E (stored_refresh_token entry)).
  { destruct Hsent as [(-> & _) | (r & data & access & _ & _ & _ & _ & Hs)].
    - intros rq [[= <-]|[]]. reflexivity.
    - cbv zeta in Hs. destruct Hs as [(_ & -> & _) | (_ & -> & _)];
        intros rq [[= <-]|[[=]|[]]]; reflexivity. }
  split.
  { destruct Hsent as [(-> & _) | (r & data & access & _ & _ & _ & _ & Hs)];
      [|cbv zeta in Hs; destruct Hs as [(_ & -> & _) | (_ & -> & _)]];
      unfold http_count; simpl; lia. }
  split; [exact Hhist|].
  intros rq Hin. exists d, entry. repeat split; auto.
Qed.

(** X11.  What a successful refresh changes.  When [refresh_access_token]
    returns [True], the token file held a dict with an entry for the
    account, and it now holds the same dict, with the same accounts in the
    same order and every other account unchanged, in which the entry of the
    account has the access_token of the response, the refresh_token of the
    response or else the one it had, the time of the refresh, and all its
    other fields as they were; [get_access_token] returns the new access
    token. *)
Theorem refresh_keeps_the_rest
        (E : env) (account : pystr) (w w' : world) :
  refresh_access_token E account w = (Returns true, w') ->
  exists d entry r data access entry',
    tokens_file w = Some (Json (PDict d))
    /\ dict_find account d = Some (PDict entry)
    /\ http E (http_count (trace w))
            (refresh_request E (stored_refresh_token entry)) = Ok r
    /\ json_body r = Some (PDict data)
    /\ dict_find (lit "access_token") data = Some access
    /\ tokens_file w'
       = Some (Json (PDict (dict_set account (PDict entry') d)))
    /\ map fst (dict_set account (PDict entry') d) = map fst d
    /\ (forall other,
          other <> account ->
          dict_find other (dict_set account (PDict entry') d)
          = dict_find other d)
    /\ dict_find (lit "access_token") entry' = Some access
    /\ dict_find (lit "refresh_token") entry'
       = Some (match dict_find (lit "refresh_token") data with
               | Some v => v
               | None => stored_refresh_token entry
               end)
    /\ dict_find (lit "refreshed_at") entry' = Some (PStr (now_iso E))
    /\ (forall k,
          k <> lit "access_token" -> k <> lit "refresh_token" ->
          k <> lit "refreshed_at" ->
          dict_find k entry' = dict_find k entry)
    /\ get_access_token account w' = (Returns access, w').
Proof.
  intros Hrun.
  destruct (refresh_cases E account w)
    as (o & w1 & new & Hrun' & _ & _ & _ & _ & _ & Hnew).
  rewrite Hrun in Hrun'. injection Hrun' as <- <-.
  destruct Hnew as [(_ & _ & Hno & _) | (d & entry & Hfile & Hentry & _ & Hsent)];
    [now contradiction Hno|].
  cbv zeta in Hsent.
  destruct Hsent
    as [(_ & _ & Hno & _) | (r & data & access & Hanswer & _ & Hbody & Haccess
                             & Hsaved)];
    [now contradiction Hno|].
  cbv zeta in Hsaved.
  destruct Hsaved as [(_ & _ & Hfile' & _) | (_ & _ & _ & Ho)];
    [|discriminate Ho].
  pose proof (lit_keys_differ "access_token" "refresh_token" eq_refl) as Har.
  pose proof (lit_keys_differ "access_token" "refreshed_at" eq_refl) as Hat.
  pose proof (lit_keys_differ "refresh_token" "refreshed_at" eq_refl) as Hrt.
  unfold refreshed, dict_update in Hfile'. cbn [fold_left fst snd] in Hfile'.
  eexists d, entry, r, data, access, _.
  do 5 (split; [eassumption|]).
  split; [exact Hfile'|].
  split; [apply dict_set_keys; congruence|].
  split; [intros other Hother; now apply dict_find_set_other|].
  split.
  { rewrite !dict_find_set_other by assumption. apply dict_find_set_same. }
  split.
  { rewrite dict_find_set_other by assumption. apply dict_find_set_same. }
  split; [apply dict_find_set_same|].
  split.
  { intros k Ha Hr Ht. now rewrite !dict_find_set_other by assumption. }
  rewrite (get_access_token_stored account w' _ Hfile').
  rewrite dict_find_set_same.
  rewrite !dict_find_set_other by assumption.
  now rewrite dict_find_set_same.
Qed.

Lemma refresh_keeps_the_rest_witness :
  exists d entry r data access entry',
    tokens_file Scenario.signed_in = Some (Json (PDict d))
    /\ dict_find (lit "default") d = Some (PDict entry)
    /\ http Scenario.renewing (http_count (trace Scenario.signed_in))
            (refresh_request Scenario.renewing (stored_refresh_token entry))
       = Ok r
    /\ json_body r = Some (PDict data)
    /\ dict_find (lit "access_token") data = Some access
    /\ tokens_file (snd Scenario.refresh_run)
       = Some (Json (PDict (dict_set (lit "default") (PDict entry') d)))
    /\ map fst (dict_set (lit "default") (PDict entry') d) = map fst d
    /\ (forall other,
          other <> lit "default" ->
          dict_find other (dict_set (lit "default") (PDict entry') d)
          = dict_find other d)
    /\ dict_find (lit "access_token") entry' = Some access
    /\ dict_find (lit "refresh_token") entry'
       = Some (match dict_find (lit "refresh_token") data with
               | Some v => v
               | None => stored_refresh_token entry
               end)
    /\ dict_find (lit "refreshed_at") entry'
       = Some (PStr (now_iso Scenario.renewing))
    /\ (forall k,
          k <> lit "access_token" -> k <> lit "refresh_token" ->
          k <> lit "refreshed_at" ->
          dict_find k entry' = dict_find k entry)
    /\ get_access_token (lit "default") (snd Scenario.refresh_run)
       = (Returns access, snd Scenario.refresh_run).
Proof.
  apply (refresh_keeps_the_rest
           Scenario.renewing (lit "default") Scenario.signed_in
           (snd Scenario.refresh_run)).
  vm_compute. reflexivity.
Defined.

(** What the token file holds after [authenticate] returned [True], and
    where it came from. *)
Lemma authenticate_true_file (E : env) (account : pystr) (w w' : world) :
  authenticate E account w = (Returns true, w') ->
  exists rq r data old,
    In (EvHttp rq) (trace w')
    /\ (exists n, http E n rq = Ok r)
    /\ status_code r = 200
    /\ json_body r = Some (PDict data)
    /\ dict_find (lit "access_token") data <> None
    /\ stored_dict (tokens_file w) old
    /\ tokens_file w'
       = Some (Json (PDict (dict_set account (credential E data) old))).
Proof.
  intros Hrun.
  destruct (authenticate_writes E account w)
    as (o & w1 & new & Hrun' & Htrace & _ & Hcases).
  rewrite Hrun in Hrun'. injection Hrun' as <- <-.
  destruct Hcases
    as [(_ & _ & Hno) | (verifier & challenge & arrival & code & r & data
                         & old & _ & Hwritten)];
    [exfalso; apply Hno; reflexivity|].
  cbv zeta in Hwritten.
  destruct Hwritten as (Hanswer & H200 & Hbody & Haccess & Hold & Hsaved).
  destruct Hsaved as [(_ & Hnew & Hfile & _) | (_ & _ & _ & Ho)];
    [|discriminate Ho].
  eexists _, r, data, old.
  split; [rewrite Htrace, Hnew; apply in_or_app; right;
          do 4 right; now left|].
  split; [eexists; exact Hanswer|].
  repeat split; assumption.
Qed.

(** X12.  Authenticate, then refresh.  After [authenticate] returned [True],
    a refresh for the same account uses what the token response granted:
    when it granted a non-empty refresh_token, the first effect of
    [refresh_access_token] is the refresh exchange for that token; when it
    granted none, the refresh does nothing at all. *)
Theorem refresh_after_authenticate
        (E : env) (account : pystr) (w w1 : world) :
  authenticate E account w = (Returns true, w1) ->
  exists rq r data,
    In (EvHttp rq) (trace w1)
    /\ (exists n, http E n rq = Ok r)
    /\ json_body r = Some (PDict data)
    /\ let granted :=
         match dict_find (lit "refresh_token") data with
         | Some v => v
         | None => PStr []
         end in
       exists o w2 new,
         refresh_access_token E account w1 = (o, w2)
         /\ trace w2 = trace w1 ++ new
         /\ (truthy granted = false -> o <> Returns true /\ w2 = w1)
         /\ (truthy granted = true ->
             exists more,
               new = EvHttp (refresh_request E granted) :: more).
Proof.
  intros Hauth.
  destruct (authenticate_true_file E account w w1 Hauth)
    as (rq & r & data & old & Hin & Hanswer & _ & Hbody & _ & _ & Hfile).
  exists rq, r, data. do 3 (split; [assumption|]). cbv zeta.
  destruct (refresh_cases E account w1)
    as (o & w2 & new & Hrun & Htrace & _ & _ & _ & _ & Hnew).
  exists o, w2, new. do 2 (split; [assumption|]).
  assert (Hstored : forall d entry,
             tokens_file w1 = Some (Json (PDict d)) ->
             dict_find account d = Some (PDict entry) ->
             stored_refresh_token entry
             = match dict_find (lit "refresh_token") data with
               | Some v => v
               | None => PStr []
               end).
  { intros d entry Hd Hentry. rewrite Hfile in Hd. injection Hd as <-.
    rewrite dict_find_set_same in Hentry. unfold credential in Hentry.
    injection Hentry as <-. reflexivity. }
  destruct Hnew as [(-> & -> & Hno & _ & Hfalsy)
                   | (d & entry & Hd & Hentry & Htoken & Hsent)].
  - split; [intros _; split; [exact Hno|reflexivity]|].
    intros Htruthy. exfalso.
    pose proof (Hfalsy _ _ Hfile (dict_find_set_same _ _ _)) as Hf.
    change (truthy match dict_find (lit "refresh_token") data with
                   | Some v => v
                   | None => PStr []
                   end = false) in Hf.
    congruence.
  - rewrite (Hstored d entry Hd Hentry) in Htoken, Hsent.
    split; [intros Hf; congruence|]. intros _.
    cbv zeta in Hsent.
    destruct Hsent as [(-> & _) | (r' & data' & access & _ & _ & _ & _ & Hs)].
    + now eexists.
    + cbv zeta in Hs. destruct Hs as [(_ & -> & _) | (_ & -> & _)];
        now eexists.
Qed.

Lemma refresh_after_authenticate_witness :
  exists rq r data,
    In (EvHttp rq) (trace (snd Scenario.authorised_run))
    /\ (exists n, http Scenario.authorising n rq = Ok r)
    /\ json_body r = Some (PDict data)
    /\ let granted :=
         match dict_find (lit "refresh_token") data with
         | Some v => v
         | None => PStr []
         end in
       exists o w2 new,
         refresh_access_token Scenario.authorising (lit "default")
                              (snd Scenario.authorised_run) = (o, w2)
         /\ trace w2 = trace (snd Scenario.authorised_run) ++ new
         /\ (truthy granted = false ->
             o <> Returns true /\ w2 = snd Scenario.authorised_run)
         /\ (truthy granted = true ->
             exists more,
               new = EvHttp (refresh_request Scenario.authorising granted)
                       :: more).
Proof.
  apply (refresh_after_authenticate
           Scenario.authorising (lit "default")
           (Sample.fresh [Scenario.callback_abc])
           (snd Scenario.authorised_run)).
  vm_compute. reflexivity.
Defined.

(** ** The upload history *)

(** One call of [add_to_history]: it extends the history, or the write
    fails and leaves the file undecodable, or it raises before anything is
    written. *)
Lemma add_to_history_cases
      (E : env) (account video : pystr) (success : pyval) (sandbox : bool)
      (w : world) :
  match history_of (history_file w) with
  | Some (d, l) =>
      let h := PDict (dict_set (lit "uploads")
                        (PList (l ++ [upload_record E account video success
                                                    sandbox])) d) in
      add_to_history E account video success sandbox w
      = if encodable h then
          (Returns tt,
           mkWorld (tokens_file w) (Some (Json h)) (code_verifier w)
                   (rng_pos w) (inbox w) (trace w ++ [EvSaveHistory h]))
        else
          (Raises UnicodeError,
           mkWorld (tokens_file w) (Some Garbage) (code_verifier w)
                   (rng_pos w) (inbox w)
                   (trace w ++ [EvSaveHistoryBroken h]))
  | None =>
      exists e, add_to_history E account video success sandbox w
                = (Raises e, w)
  end.
Proof.
  unfold add_to_history, history_of, bind, load_history, lift, append_upload,
    save_history.
  destruct (history_file w) as [[h|]|]; [| now eexists |].
  - destruct h as [| b | z | s | l | d]; cbn [py_item rbind];
      try (now eexists).
    destruct (dict_find (lit "uploads") d) as [[| b | z | s | l | d']|];
      cbn [rbind]; now eexists.
  - reflexivity.
Qed.

(** Encodability of containers, entry by entry. *)
Lemma encodable_list (l : list pyval) :
  encodable (PList l) = forallb encodable l.
Proof.
  induction l as [|x l IH]; [reflexivity|].
  cbn [forallb]. rewrite <- IH. reflexivity.
Qed.

Lemma encodable_dict (d : pydict) :
  encodable (PDict d)
  = forallb (fun kv => str_encodable (fst kv) && encodable (snd kv)) d.
Proof.
  induction d as [|[k x] d IH]; [reflexivity|].
  cbn [forallb fst snd]. rewrite <- IH. reflexivity.
Qed.

Lemma encodable_dict_set (k : pystr) (v : pyval) (d : pydict) :
  encodable (PDict d) = true -> str_encodable k = true ->
  encodable v = true ->
  encodable (PDict (dict_set k v d)) = true.
Proof.
  rewrite !encodable_dict. intros Hd Hk Hv.
  induction d as [|[k' v'] d IH]; cbn [dict_set forallb fst snd].
  - now rewrite Hk, Hv.
  - cbn [forallb fst snd] in Hd. apply andb_prop in Hd. destruct Hd as [Hx Hd].
    destruct (pystr_eqb k k'); cbn [forallb fst snd].
    + now rewrite Hk, Hv, Hd.
    + now rewrite Hx, (IH Hd).
Qed.

Lemma encodable_dict_find (k : pystr) (v : pyval) (d : pydict) :
  encodable (PDict d) = true -> dict_find k d = Some v -> encodable v = true.
Proof.
  rewrite encodable_dict.
  induction d as [|[k' v'] d IH]; cbn [dict_find forallb fst snd];
    [discriminate|].
  intros Hd. apply andb_prop in Hd. destruct Hd as [Hx Hd].
  apply andb_prop in Hx. destruct Hx as [_ Hv'].
  destruct (pystr_eqb k k'); [intros [= <-]; exact Hv'|now apply IH].
Qed.

Lemma encodable_list_app (l : list pyval) (r : pyval) :
  encodable (PList l) = true -> encodable r = true ->
  encodable (PList (l ++ [r])) = true.
Proof.
  rewrite !encodable_list, forallb_app. cbn [forallb].
  intros -> ->. reflexivity.
Qed.

(** X13.  The history is extended, spoiled or left alone.  A call of
    [add_to_history] on a history it can work on (no file yet, or a dict
    whose uploads is a list) builds the history with exactly one more
    record, made from its arguments and the clock, after the records that
    were there and with every other key kept.  When that history can be
    encoded it is written, the call returns, and what it wrote is again a
    history it can work on.  When it cannot (a string with a surrogate,
    such as a video path with undecodable bytes), the call raises after
    the file was emptied, and the file no longer decodes: all records are
    lost.  On any other file content the call raises and writes nothing.
    The token file is untouched in every case. *)
Theorem add_to_history_appends
        (E : env) (account video : pystr) (success : pyval) (sandbox : bool)
        (w : world) :
  exists o w',
    add_to_history E account video success sandbox w = (o, w')
    /\ tokens_file w' = tokens_file w
    /\ match history_of (history_file w) with
       | Some (d, l) =>
           exists d',
             history_of (Some (Json (PDict d')))
             = Some (d', l ++ [PDict [(lit "account", PStr account);
                                      (lit "video", PStr video);
                                      (lit "uploaded_at", PStr (now_iso E));
                                      (lit "success", success);
                                      (lit "sandbox", PBool sandbox)]])
             /\ (forall k,
                   k <> lit "uploads" -> dict_find k d' = dict_find k d)
             /\ ((encodable (PDict d') = true
                  /\ o = Returns tt
                  /\ trace w' = trace w ++ [EvSaveHistory (PDict d')]
                  /\ history_file w' = Some (Json (PDict d')))
                 \/ (encodable (PDict d') = false
                     /\ o = Raises UnicodeError
                     /\ trace w' = trace w ++ [EvSaveHistoryBroken (PDict d')]
                     /\ history_file w' = Some Garbage
                     /\ history_of (history_file w') = None))
       | None => (exists e, o = Raises e) /\ w' = w
       end.
Proof.
  pose proof (add_to_history_cases E account video success sandbox w) as H.
  destruct (history_of (history_file w)) as [[d l]|].
  - cbv zeta in H.
    destruct (encodable
                (PDict (dict_set (lit "uploads")
                          (PList (l ++ [upload_record E account video success
                                                      sandbox])) d)))
      eqn:Henc.
    + eexists _, _. split; [exact H|]. split; [reflexivity|].
      exists (dict_set (lit "uploads")
                (PList (l ++ [upload_record E account video success sandbox]))
                d).
      split.
      { cbn [history_of]. now rewrite dict_find_set_same. }
      split; [intros k Hk; now apply dict_find_set_other|].
      left. repeat split. exact Henc.
    + eexists _, _. split; [exact H|]. split; [reflexivity|].
      exists (dict_set (lit "uploads")
                (PList (l ++ [upload_record E account video success sandbox]))
                d).
      split.
      { cbn [history_of]. now rewrite dict_find_set_same. }
      split; [intros k Hk; now apply dict_find_set_other|].
      right. repeat split. exact Henc.
  - destruct H as [e H]. eexists _, _. split; [exact H|].
    split; [reflexivity|]. split; [now eexists|reflexivity].
Qed.

(** Writing a key twice: the second value stays, the keys do not move. *)
Lemma dict_set_twice (k : pystr) (u v : pyval) (d : pydict) :
  dict_set k v (dict_set k u d) = dict_set k v d.
Proof.
  induction d as [|[k' v'] d IH]; simpl.
  - now rewrite pystr_eqb_refl.
  - destruct (pystr_eqb k k') eqn:Hk; simpl.
    + now rewrite pystr_eqb_refl.
    + now rewrite Hk, IH.
Qed.

(** X14.  Records accumulate in call order.  Starting from a history
    that [add_to_history] can work on and that can be encoded, any
    sequence of calls whose records can be encoded returns, and the list
    of uploads is then the former list followed by one record per call, in
    the order of the calls; nothing is dropped, reordered or rewritten,
    and one save is done per call. *)
Theorem history_accumulates
        (E : env) (calls : list history_call) (w : world)
        (d : pydict) (l : list pyval) :
  history_of (history_file w) = Some (d, l) ->
  encodable (PDict d) = true ->
  Forall (fun c => encodable (record_of E c) = true) calls ->
  exists w' new,
    add_each E calls w = (Returns tt, w')
    /\ trace w' = trace w ++ new
    /\ length new = length calls
    /\ Forall (fun e => is_save_history e = true) new
    /\ tokens_file w' = tokens_file w
    /\ (calls <> [] ->
        history_of (history_file w')
        = Some (dict_set (lit "uploads")
                         (PList (l ++ map (record_of E) calls)) d,
                l ++ map (record_of E) calls)).
Proof.
  revert w d l.
  assert (Hgen : forall calls w d l,
             history_of (history_file w) = Some (d, l) ->
             encodable (PDict d) = true ->
             Forall (fun c => encodable (record_of E c) = true) calls ->
             exists w' new d',
               add_each E calls w = (Returns tt, w')
               /\ trace w' = trace w ++ new
               /\ length new = length calls
               /\ Forall (fun e => is_save_history e = true) new
               /\ tokens_file w' = tokens_file w
               /\ history_of (history_file w')
                  = Some (d', l ++ map (record_of E) calls)
               /\ (calls <> [] ->
                   d' = dict_set (lit "uploads")
                                 (PList (l ++ map (record_of E) calls)) d)
               /\ dict_set (lit "uploads")
                           (PList (l ++ map (record_of E) calls)) d'
                  = dict_set (lit "uploads")
                             (PList (l ++ map (record_of E) calls)) d).
  { clear calls. induction calls as [|c rest IH]; intros w d l Hw Hd Hcalls.
    - exists w, [], d. cbn [add_each map]. rewrite !app_nil_r.
      repeat split; auto. congruence.
    - cbn [add_each]. unfold bind at 1.
      pose proof (add_to_history_cases E (call_account c) (call_video c)
                    (call_success c) (call_sandbox c) w) as Hone.
      rewrite Hw in Hone. cbv zeta in Hone.
      fold (record_of E c) in *.
      inversion Hcalls as [|c0 rest0 Hc Hrest]; subst c0 rest0.
      assert (Hl : encodable (PList l) = true).
      { destruct (history_file w) as [[h|]|]; cbn [history_of] in Hw;
          try discriminate Hw.
        - destruct h as [| | | | |d0]; try discriminate Hw.
          destruct (dict_find (lit "uploads") d0) as [[| | | |l0|]|] eqn:Hup;
            try discriminate Hw.
          injection Hw as <- <-.
          exact (encodable_dict_find _ _ _ Hd Hup).
        - injection Hw as <- <-. reflexivity. }
      assert (Hd1 : encodable
                      (PDict (dict_set (lit "uploads")
                                (PList (l ++ [record_of E c])) d)) = true).
      { apply encodable_dict_set; [exact Hd|reflexivity|].
        now apply encodable_list_app. }
      rewrite Hd1 in Hone. rewrite Hone.
      match goal with
      | |- context [add_each E rest ?w1] =>
          destruct (IH w1
                      (dict_set (lit "uploads")
                                (PList (l ++ [record_of E c])) d)
                      (l ++ [record_of E c]))
            as (w' & new & d' & Hrun & Htrace & Hlen & Hall & Htok & Hhist
                & Hd' & Hset)
      end.
      { cbn [history_file history_of]. now rewrite dict_find_set_same. }
      { exact Hd1. }
      { exact Hrest. }
      exists w', (EvSaveHistory
                    (PDict (dict_set (lit "uploads")
                                     (PList (l ++ [record_of E c])) d))
                  :: new), d'.
      cbn [trace tokens_file] in Htrace, Htok.
      rewrite <- app_assoc in Htrace, Hhist, Hset, Hd'.
      cbn [app map] in *.
      split; [exact Hrun|]. split; [exact Htrace|].
      split; [cbn [length]; now rewrite Hlen|].
      split; [constructor; [reflexivity|exact Hall]|].
      split; [exact Htok|]. split; [exact Hhist|].
      rewrite dict_set_twice in Hset.
      split; [|exact Hset].
      intros _. destruct rest as [|c' rest'].
      + cbn [add_each] in Hrun. unfold ret in Hrun.
        injection Hrun as <-. cbn [history_file history_of] in Hhist.
        rewrite dict_find_set_same in Hhist. cbn [map] in *.
        now injection Hhist as <-.
      + rewrite Hd' by discriminate. apply dict_set_twice. }
  intros w d l Hw Hd Hcalls.
  destruct (Hgen calls w d l Hw Hd Hcalls)
    as (w' & new & d' & Hrun & Htrace & Hlen & Hall & Htok & Hhist & Hd' & _).
  exists w', new. repeat split; auto.
  intros Hne. now rewrite Hhist, (Hd' Hne).
Qed.

Lemma history_accumulates_witness :
  exists w' new,
    add_each (Sample.quiet Sample.nobody) Scenario.two_calls (Sample.fresh [])
    = (Returns tt, w')
    /\ trace w' = trace (Sample.fresh []) ++ new
    /\ length new = length Scenario.two_calls
    /\ Forall (fun e => is_save_history e = true) new
    /\ tokens_file w' = tokens_file (Sample.fresh [])
    /\ (Scenario.two_calls <> [] ->
        history_of (history_file w')
        = Some (dict_set (lit "uploads")
                         (PList ([] ++ map (record_of (Sample.quiet Sample.nobody))
                                           Scenario.two_calls))
                         [(lit "uploads", PList [])],
                [] ++ map (record_of (Sample.quiet Sample.nobody))
                          Scenario.two_calls)).
Proof.
  apply (history_accumulates
           (Sample.quiet Sample.nobody) Scenario.two_calls (Sample.fresh [])
           [(lit "uploads", PList [])] []).
  - reflexivity.
  - reflexivity.
  - repeat constructor.
Defined.

(** ** Posting to the sandbox *)

(** A result that [upload_video_direct] returns has a boolean success. *)
Lemma upload_result_flag
      (E : env) (w w' : world) (path caption tok privacy : pystr)
      (sandbox : bool) (result : pyval) :
  upload_video_direct E path caption tok privacy sandbox w
  = (Returns result, w') ->
  exists b, field [lit "success"] result = Some (PBool b).
Proof.
  unfold upload_video_direct.
  destruct (fs E path) as [contents|].
  2:{ unfold ret. intros [= <- <-]. now exists false. }
  set (init := init_request caption privacy tok (Z.of_nat (length contents))).
  unfold bind at 1, send.
  destruct (http E (http_count (trace w)) init) as [[r1|e]|];
    [|discriminate|discriminate].
  rewrite log_logs. unfold bind at 1, lift at 1.
  destruct (check_init r1) as [[refusal|[upload_url pid]]|e] eqn:Hgrant;
    [| |discriminate].
  { unfold ret. intros [= <- <-]. exists false.
    now apply (check_init_refusal r1). }
  unfold bind at 1, requests_put.
  destruct upload_url as [| | |url| |]; try discriminate.
  set (put := put_request url contents).
  unfold send. rewrite http_count_logs.
  destruct (http E (http_count (trace w) + http_count [EvHttp init]) put)
    as [[r2|e]|]; [|discriminate|discriminate].
  rewrite log_logs, logs_logs. cbn [app].
  destruct (check_transfer_cases r2) as [[Hgo _]|(refusal & Hret & Hno)].
  2:{ rewrite Hret. unfold ret. intros [= <- <-]. now exists false. }
  rewrite Hgo.
  destruct (poll_shape E tok pid 10 (logs [EvHttp init; EvHttp put] w))
    as (o & pauses & early & Hrun & _ & _ & _ & _ & Hres).
  rewrite Hrun. intros [= -> <-].
  destruct (Hres result eq_refl) as (_ & [Hyes|[Hno _]]);
    [now exists true|now exists false].
Qed.

(** What a call of [upload_video_direct] leaves behind: requests and
    sleeps only, and, when it returns, a result with a boolean success; it
    waits forever only on a request that gets no answer. *)
Lemma upload_outcome
      (E : env) (w : world) (path caption tok privacy : pystr)
      (sandbox : bool) :
  exists o new,
    upload_video_direct E path caption tok privacy sandbox w = (o, logs new w)
    /\ (o = Blocks -> unanswered E w new)
    /\ Forall (fun e => is_http e = true \/ exists secs, e = EvSleep secs) new
    /\ forall result,
        o = Returns result ->
        exists b, field [lit "success"] result = Some (PBool b).
Proof.
  destruct (upload_shape E w path caption tok privacy sandbox)
    as (o & new & Hrun & Hnb & Hshape).
  exists o, new. split; [exact Hrun|]. split; [exact Hnb|]. split.
  - destruct (fs E path) as [contents|]; [|subst new; constructor].
    cbv zeta in Hshape.
    destruct Hshape as [-> | (r1 & url & pid & _ & _ & Hshape)];
      [repeat constructor|].
    cbv zeta in Hshape.
    destruct Hshape as [-> | (r2 & pauses & early & _ & _ & -> & _)];
      [repeat constructor|].
    destruct (poll_events_counts tok pid pauses early) as (_ & _ & _ & Hall).
    apply Forall_app. split; [|exact Hall]. repeat constructor.
  - intros result ->.
    now apply (upload_result_flag E w _ path caption tok privacy sandbox
                                  result Hrun).
Qed.

Lemma field_item (k : pystr) (v x : pyval) :
  field [k] v = Some x -> py_item v k = Ok x.
Proof.
  destruct v as [| | | | |d]; try discriminate. cbn [field py_item].
  now destruct (dict_find k d) as [y|]; [intros [= ->]|].
Qed.

(** [get_access_token] only reads. *)
Lemma get_access_token_reads (account : pystr) (w : world) :
  exists o, get_access_token account w = (o, w) /\ o <> Blocks.
Proof.
  unfold get_access_token, bind, load_tokens, lift, ret.
  destruct (tokens_file w) as [[tokens|]|].
  - destruct (py_in account tokens) as [[|]|].
    + destruct (py_item tokens account) as [entry|].
      * destruct (py_get entry (lit "access_token") (PStr []));
          eexists; split; [reflexivity|discriminate
                          |reflexivity|discriminate].
      * eexists; split; [reflexivity|discriminate].
    + eexists; split; [reflexivity|discriminate].
    + eexists; split; [reflexivity|discriminate].
  - eexists; split; [reflexivity|discriminate].
  - cbn [py_in dict_find]. eexists; split; [reflexivity|discriminate].
Qed.

(** [get_user_info] sends one request and does nothing else. *)
Lemma get_user_info_sends (E : env) (tok : pystr) (w : world) :
  exists o,
    get_user_info E tok w = (o, log (EvHttp (user_info_request tok)) w)
    /\ (o = Blocks ->
        http E (http_count (trace w)) (user_info_request tok) = Silent).
Proof.
  unfold get_user_info, bind at 1, send.
  destruct (http E (http_count (trace w)) (user_info_request tok))
    as [[r|e]|].
  2:{ eexists; split; [reflexivity|discriminate]. }
  2:{ eexists; split; reflexivity. }
  destruct (status_code r =? 200).
  2:{ eexists; split; [reflexivity|discriminate]. }
  unfold bind, lift, json.
  destruct (json_body r) as [body|].
  2:{ eexists; split; [reflexivity|discriminate]. }
  destruct (py_get body (lit "data") (PDict [])) as [data|].
  2:{ eexists; split; [reflexivity|discriminate]. }
  destruct (py_get data (lit "user") (PDict []));
    eexists; split; [reflexivity|discriminate|reflexivity|discriminate].
Qed.

(** Every run of [post_sandbox_video], stage by stage. *)
Lemma sandbox_post_cases
        (E : env) (video caption : option pystr) (w : world) :
  exists o w' new,
    post_sandbox_video E video caption w = (o, w')
    /\ trace w' = trace w ++ new
    /\ tokens_file w' = tokens_file w
    /\ inbox w' = inbox w
    /\ code_verifier w' = code_verifier w
    /\ (o = Blocks -> unanswered E w new)
    /\ (new <> [] ->
        exists tok more,
          get_access_token (lit "default") w = (Returns tok, w)
          /\ truthy tok = true
          /\ new = EvHttp (user_info_request (py_str E tok)) :: more)
    /\ ((o <> Returns true
         /\ history_file w' = history_file w
         /\ Forall (fun e => is_http e = true
                             \/ exists secs, e = EvSleep secs) new)
        \/ exists b file d l before,
            sandbox_video E video = Some file
            /\ history_of (history_file w) = Some (d, l)
            /\ Forall (fun e => is_http e = true
                                \/ exists secs, e = EvSleep secs) before
            /\ let h :=
                 PDict (dict_set (lit "uploads")
                          (PList (l ++ [PDict [(lit "account",
                                                PStr (lit "default"));
                                               (lit "video", PStr file);
                                               (lit "uploaded_at",
                                                PStr (now_iso E));
                                               (lit "success", PBool b);
                                               (lit "sandbox", PBool true)]]))
                          d) in
               (encodable h = true
                /\ o = Returns b
                /\ new = before ++ [EvSaveHistory h]
                /\ history_file w' = Some (Json h))
               \/ (encodable h = false
                   /\ o = Raises UnicodeError
                   /\ new = before ++ [EvSaveHistoryBroken h]
                   /\ history_file w' = Some Garbage)).
Proof.
  remember (post_sandbox_video E video caption w) as run eqn:Hrun.
  match goal with |- ?g => set (G := g) end.
  unfold post_sandbox_video in Hrun. unfold bind at 1 in Hrun.
  destruct (get_access_token_reads (lit "default") w) as (o0 & Hget & Hnb0).
  rewrite Hget in Hrun.
  assert (Hquiet : forall o : outcome bool,
             o <> Returns true -> o <> Blocks -> run = (o, w) -> G).
  { intros o Ho Hnb ->. exists o, w, []. rewrite app_nil_r.
    do 5 (split; [reflexivity|]).
    split; [intros Hb; now contradiction Hnb|].
    split; [intros Hne; now contradiction Hne|].
    left. repeat split; auto. }
  destruct o0 as [tok|e|];
    [|apply (Hquiet (Raises e)); [discriminate|discriminate|exact Hrun]
     |now contradiction Hnb0].
  destruct (truthy tok) eqn:Htok; cbn [negb] in Hrun.
  2:{ apply (Hquiet (Returns false)); [discriminate|discriminate|exact Hrun]. }
  clear Hquiet.
  unfold bind at 1 in Hrun.
  destruct (get_user_info_sends E (py_str E tok) w) as (o1 & Hinfo & Hnb1).
  rewrite Hinfo in Hrun. rewrite log_logs in Hrun.
  set (rq := user_info_request (py_str E tok)) in *.
  assert (Hsent : forall (o : outcome bool) more,
             o <> Returns true ->
             (o = Blocks -> unanswered E w ([EvHttp rq] ++ more)) ->
             Forall (fun e => is_http e = true
                              \/ exists secs, e = EvSleep secs) more ->
             run = (o, logs ([EvHttp rq] ++ more) w) -> G).
  { intros o more Ho Hnb Hmore ->. exists o, (logs ([EvHttp rq] ++ more) w),
      ([EvHttp rq] ++ more).
    do 5 (split; [reflexivity|]). split; [exact Hnb|].
    split; [intros _; exists tok, more; repeat split; assumption|].
    left. split; [exact Ho|]. split; [reflexivity|].
    constructor; [now left|exact Hmore]. }
  destruct o1 as [info|e|];
    [|apply (Hsent (Raises e) []); [discriminate|discriminate|constructor
                                    |exact Hrun]
     |apply (Hsent Blocks []); [discriminate| |constructor|exact Hrun]].
  2:{ intros _. exists [], rq. split; [reflexivity|].
      cbn [http_count filter length]. rewrite Nat.add_0_r.
      now apply Hnb1. }
  unfold bind at 1 in Hrun.
  assert (Hshow : exists o : outcome pyval,
             (if truthy info
              then lift (py_get info (lit "display_name")
                                (PStr (lit "Unknown")))
              else ret PNone) (logs [EvHttp rq] w)
             = (o, logs [EvHttp rq] w) /\ o <> Blocks).
  { destruct (truthy info); unfold lift, ret;
      [destruct (py_get info (lit "display_name") (PStr (lit "Unknown")))|];
      eexists; split; try reflexivity; discriminate. }
  destruct Hshow as (o2 & Hshow & Hnb2). rewrite Hshow in Hrun. clear Hshow.
  destruct o2 as [name|e|];
    [|apply (Hsent (Raises e) []); [discriminate|discriminate|constructor
                                    |exact Hrun]
     |now contradiction Hnb2].
  destruct (sandbox_video E video) as [file|] eqn:Hvideo.
  2:{ apply (Hsent (Returns false) []);
        [discriminate|discriminate|constructor|exact Hrun]. }
  cbv zeta in Hrun. unfold bind at 1 in Hrun.
  match type of Hrun with
  | context [upload_video_direct E ?f ?c ?t ?p ?s ?w1] =>
      destruct (upload_outcome E w1 f c t p s)
        as (o3 & new3 & Hup & Hnb3 & Hall3 & Hflag);
      rewrite Hup in Hrun; clear Hup
  end.
  rewrite logs_logs in Hrun.
  destruct o3 as [result|e|];
    [|apply (Hsent (Raises e) new3); [discriminate|discriminate|exact Hall3
                                      |exact Hrun]
     |apply (Hsent Blocks new3); [discriminate| |exact Hall3|exact Hrun]].
  2:{ intros _. destruct (Hnb3 eq_refl) as (before3 & rq3 & -> & Hsilent).
      exists ([EvHttp rq] ++ before3), rq3.
      split; [now rewrite <- app_assoc|].
      rewrite http_count_logs in Hsilent. rewrite http_count_app.
      now rewrite Nat.add_assoc. }
  destruct (Hflag result eq_refl) as (b & Hb). apply field_item in Hb.
  unfold bind at 1, lift in Hrun. rewrite Hb in Hrun.
  unfold bind at 1 in Hrun.
  pose proof (add_to_history_cases E (lit "default") file (PBool b) true
                (logs ([EvHttp rq] ++ new3) w)) as Hadd.
  cbn [history_file logs] in Hadd.
  destruct (history_of (history_file w)) as [[d l]|] eqn:Hhist.
  2:{ destruct Hadd as (e & Hadd). rewrite Hadd in Hrun.
      apply (Hsent (Raises e) new3);
        [discriminate|discriminate|exact Hall3|exact Hrun]. }
  cbv zeta in Hadd. rewrite Hadd in Hrun. clear Hadd.
  assert (Hbefore : Forall (fun e => is_http e = true
                                     \/ exists secs, e = EvSleep secs)
                           ([EvHttp rq] ++ new3))
    by (constructor; [now left|exact Hall3]).
  destruct (encodable
              (PDict (dict_set (lit "uploads")
                        (PList (l ++ [upload_record E (lit "default") file
                                                    (PBool b) true])) d)))
    eqn:Henc.
  - cbn [truthy] in Hrun.
    assert (Hret : forall w1 : world,
               (if b then ret true else ret false) w1 = (Returns b, w1))
      by (intros w1; now destruct b).
    rewrite Hret in Hrun. clear Hret.
    eexists (Returns b), _, (([EvHttp rq] ++ new3) ++ [EvSaveHistory _]).
    split; [exact Hrun|].
    cbn [trace tokens_file history_file inbox code_verifier logs].
    split; [now rewrite <- !app_assoc|].
    do 3 (split; [reflexivity|]). split; [discriminate|].
    split; [intros _; exists tok; eexists; repeat split; assumption|].
    right. exists b, file, d, l, ([EvHttp rq] ++ new3).
    do 2 (split; [reflexivity|]). split; [exact Hbefore|]. cbv zeta.
    left. repeat split. exact Henc.
  - eexists (Raises UnicodeError), _,
      (([EvHttp rq] ++ new3) ++ [EvSaveHistoryBroken _]).
    split; [exact Hrun|].
    cbn [trace tokens_file history_file inbox code_verifier logs].
    split; [now rewrite <- !app_assoc|].
    do 3 (split; [reflexivity|]). split; [discriminate|].
    split; [intros _; exists tok; eexists; repeat split; assumption|].
    right. exists b, file, d, l, ([EvHttp rq] ++ new3).
    do 2 (split; [reflexivity|]). split; [exact Hbefore|]. cbv zeta.
    right. repeat split. exact Henc.
Qed.


(** ** The command line *)

(** [show_status] only reads. *)
Lemma show_status_reads (w : world) :
  exists o, show_status w = (o, w) /\ o <> Blocks.
Proof.
  assert (Hlift : forall (A : Type) (r : res A) (w0 : world),
             exists o, lift r w0 = (o, w0) /\ o <> Blocks).
  { intros A [a|e] w0; eexists; split; try reflexivity; discriminate. }
  unfold show_status. unfold bind at 1, load_tokens.
  destruct (tokens_file w) as [[tokens|]|];
    [|eexists; split; [reflexivity|discriminate]|].
  - unfold bind at 1.
    assert (Haccounts : exists o : outcome unit,
               (if negb (truthy tokens) then ret tt
                else match tokens with
                     | PDict d => lift (for_each show_account (map snd d))
                     | _ => lift (Raise AttributeError)
                     end) w = (o, w) /\ o <> Blocks).
    { destruct (negb (truthy tokens));
        [eexists; split; [reflexivity|discriminate]|].
      destruct tokens; apply Hlift. }
    destruct Haccounts as (o1 & -> & Hnb1).
    destruct o1 as [[]|e|];
      [|eexists; split; [reflexivity|discriminate]|now contradiction Hnb1].
    unfold bind at 1, load_history.
    destruct (history_file w) as [[history|]|];
      [|eexists; split; [reflexivity|discriminate]|].
    + unfold bind at 1.
      destruct (Hlift _ (py_get history (lit "uploads") (PList [])) w)
        as (o2 & -> & Hnb2).
      destruct o2 as [uploads|e|];
        [|eexists; split; [reflexivity|discriminate]|now contradiction Hnb2].
      unfold bind at 1.
      destruct (Hlift _ (py_slice_last 5 uploads) w) as (o3 & -> & Hnb3).
      destruct o3 as [recent|e|];
        [|eexists; split; [reflexivity|discriminate]|now contradiction Hnb3].
      destruct (truthy recent); [apply Hlift|].
      eexists; split; [reflexivity|discriminate].
    + cbn. eexists; split; [reflexivity|discriminate].
  - cbn [truthy negb]. unfold bind at 1, ret at 1.
    unfold bind at 1, load_history.
    destruct (history_file w) as [[history|]|];
      [|eexists; split; [reflexivity|discriminate]|].
    + unfold bind at 1.
      destruct (Hlift _ (py_get history (lit "uploads") (PList [])) w)
        as (o2 & -> & Hnb2).
      destruct o2 as [uploads|e|];
        [|eexists; split; [reflexivity|discriminate]|now contradiction Hnb2].
      unfold bind at 1.
      destruct (Hlift _ (py_slice_last 5 uploads) w) as (o3 & -> & Hnb3).
      destruct o3 as [recent|e|];
        [|eexists; split; [reflexivity|discriminate]|now contradiction Hnb3].
      destruct (truthy recent); [apply Hlift|].
      eexists; split; [reflexivity|discriminate].
    + cbn. eexists; split; [reflexivity|discriminate].
Qed.

(** [authenticate] never touches the upload history. *)
Lemma authenticate_frame (E : env) (account : pystr) (w : world) :
  exists o w' new,
    authenticate E account w = (o, w')
    /\ trace w' = trace w ++ new
    /\ history_file w' = history_file w.
Proof.
  destruct (authenticate_cases E account w)
    as [[_ Hrun] | (_ & _ & verifier & challenge & _ & _ & Hcases)].
  { exists (Returns false), w, []. rewrite app_nil_r. now repeat split. }
  cbv zeta in Hcases.
  destruct Hcases as [[_ Hrun] | [(_ & _ & Hrun) | (_ & Hrest)]].
  { eexists _, _, [EvBind false]. split; [exact Hrun|]. now split. }
  { eexists _, _, [EvBind true; EvBrowser _]. split; [exact Hrun|].
    now split. }
  destruct Hrest as (arrival & later & srv & status & _ & _ & Hrun).
  match type of Hrun with
  | _ = exchange_and_store _ _ _ ?w4 =>
      destruct (exchange_and_store_cases E account (auth_code srv) w4)
        as (o & w' & new & Htail & Htrace & Hhist & _)
  end.
  exists o, w',
    ([EvBind true; EvBrowser (authorize_url E account challenge);
      EvServe arrival status; EvClose] ++ new).
  split; [now rewrite Hrun|].
  split; [rewrite Htrace; cbn [trace]; now rewrite <- app_assoc|].
  exact Hhist.
Qed.

(** Running a step and dropping its result. *)
Lemma drop_result {A} (c : M A) (w w' : world) (o : outcome A) :
  c w = (o, w') ->
  exists o' : outcome unit,
    (c ;;; ret tt) w = (o', w') /\ (o' = Blocks -> o = Blocks).
Proof.
  intros Hrun. unfold bind, ret. rewrite Hrun.
  destruct o; eexists; split; try reflexivity; auto; discriminate.
Qed.

(** Every run of [main], mode by mode: what it leaves alone. *)
Lemma main_frame (E : env) (args : arguments) (w : world) :
  exists o w' new,
    main E args w = (o, w')
    /\ trace w' = trace w ++ new
    /\ (arg_auth args = false -> arg_refresh args = false ->
        tokens_file w' = tokens_file w)
    /\ (arg_auth args = true \/ arg_refresh args = true
        \/ arg_status args = true \/ arg_post args = false
        \/ arg_sandbox args = false ->
        history_file w' = history_file w)
    /\ (arg_auth args = false -> arg_refresh args = false ->
        arg_status args = true \/ arg_post args = false ->
        w' = w /\ o <> Blocks)
    /\ (arg_auth args = false -> arg_refresh args = false ->
        arg_status args = true \/ arg_post args = false
        \/ arg_sandbox args = false ->
        Forall (fun e => is_http e = true
                         \/ exists secs, e = EvSleep secs) new)
    /\ (arg_auth args = false ->
        inbox w' = inbox w
        /\ code_verifier w' = code_verifier w
        /\ Forall (fun e => listener_event e = false) new
        /\ (o = Blocks -> unanswered E w new)).
Proof.
  assert (Hquiet : forall t,
             Forall (fun e => is_http e = true
                              \/ exists secs, e = EvSleep secs) t ->
             Forall (fun e => listener_event e = false) t).
  { intros t Ht. eapply Forall_impl; [|exact Ht].
    intros ev [Hh|[pause ->]];
      [destruct ev; try reflexivity; discriminate Hh|reflexivity]. }
  unfold main.
  destruct (arg_auth args) eqn:Hauth.
  { destruct (authenticate_frame E (arg_account args) w)
      as (o & w' & new & Hrun & Htrace & Hhist).
    destruct (drop_result _ _ _ _ Hrun) as (o' & Hrun' & _).
    exists o', w', new. split; [exact Hrun'|]. split; [exact Htrace|].
    split; [discriminate|]. split; [intros _; exact Hhist|].
    split; [discriminate|]. split; discriminate. }
  destruct (arg_refresh args) eqn:Hrefresh.
  { destruct (refresh_cases E (arg_account args) w)
      as (o & w' & new & Hrun & Htrace & Hhist & Hinbox & Hver & _ & Hnew).
    destruct (drop_result _ _ _ _ Hrun) as (o' & Hrun' & Hnb').
    exists o', w', new. split; [exact Hrun'|]. split; [exact Htrace|].
    split; [discriminate|]. split; [intros _; exact Hhist|].
    split; [discriminate|]. split; [discriminate|]. intros _.
    split; [exact Hinbox|]. split; [exact Hver|].
    destruct Hnew as [(-> & _ & _ & Hnb & _)
                     | (d & entry & _ & _ & _ & Hsent)].
    { split; [constructor|]. intros Hb. now contradiction (Hnb (Hnb' Hb)). }
    cbv zeta in Hsent.
    destruct Hsent as [(-> & _ & _ & Hb)
                      | (r & data & access & _ & _ & _ & _ & Hs)].
    { split; [repeat constructor|]. intros Ho.
      eexists [], _. split; [reflexivity|].
      cbn [http_count filter length]. rewrite Nat.add_0_r.
      exact (Hb (Hnb' Ho)). }
    cbv zeta in Hs.
    destruct Hs as [(_ & -> & _ & Ho) | (_ & -> & _ & Ho)];
      (split; [repeat constructor|]);
      intros Hb; apply Hnb' in Hb; rewrite Ho in Hb; discriminate Hb. }
  assert (Hnothing : forall o : outcome unit,
             o <> Blocks ->
             exists o0 w' new,
               (o, w) = (o0, w')
               /\ trace w' = trace w ++ new
               /\ (false = false -> false = false ->
                   tokens_file w' = tokens_file w)
               /\ (false = true \/ false = true
                   \/ arg_status args = true \/ arg_post args = false
                   \/ arg_sandbox args = false ->
                   history_file w' = history_file w)
               /\ (false = false -> false = false ->
                   arg_status args = true \/ arg_post args = false ->
                   w' = w /\ o0 <> Blocks)
               /\ (false = false -> false = false ->
                   arg_status args = true \/ arg_post args = false
                   \/ arg_sandbox args = false ->
                   Forall (fun e => is_http e = true
                                    \/ exists secs, e = EvSleep secs) new)
               /\ (false = false ->
                   inbox w' = inbox w
                   /\ code_verifier w' = code_verifier w
                   /\ Forall (fun e => listener_event e = false) new
                   /\ (o0 = Blocks -> unanswered E w new))).
  { intros o Hnb. exists o, w, []. rewrite app_nil_r.
    do 5 (split; [auto|]). split; [intros _ _ _; constructor|].
    intros _. do 2 (split; [reflexivity|]). split; [constructor|].
    intros Hb. now contradiction Hnb. }
  destruct (arg_status args) eqn:Hstatus.
  { destruct (show_status_reads w) as (o & -> & Hnb). now apply Hnothing. }
  destruct (arg_post args) eqn:Hpost.
  2:{ unfold ret. apply Hnothing. discriminate. }
  destruct (arg_sandbox args) eqn:Hsandbox.
  { destruct (sandbox_post_cases E (arg_video args) (arg_caption args) w)
      as (o & w' & new & Hrun & Htrace & Htok & Hinbox & Hver & Hnb & _
          & Hrec).
    destruct (drop_result _ _ _ _ Hrun) as (o' & Hrun' & Hnb').
    exists o', w', new. split; [exact Hrun'|]. split; [exact Htrace|].
    split; [intros _ _; exact Htok|].
    split; [intros [H|[H|[H|[H|H]]]]; discriminate H|].
    split; [intros _ _ [H|H]; discriminate H|].
    split; [intros _ _ [H|[H|H]]; discriminate H|]. intros _.
    split; [exact Hinbox|]. split; [exact Hver|].
    split; [|intros Hb; exact (Hnb (Hnb' Hb))].
    destruct Hrec as [(_ & _ & Hall) | (b & file & d & l & before & _ & _
                                        & Hall & Hs)];
      [now apply Hquiet|].
    cbv zeta in Hs.
    destruct Hs as [(_ & _ & -> & _) | (_ & _ & -> & _)];
      (apply Forall_app; split; [now apply Hquiet|repeat constructor]). }
  destruct (arg_video args) as [[|c p]|] eqn:Hvideo;
    [unfold ret; apply Hnothing; discriminate| |
     unfold ret; apply Hnothing; discriminate].
  unfold bind at 1.
  destruct (get_access_token_reads (arg_account args) w) as (o0 & -> & Hnb0).
  destruct o0 as [tok|e|];
    [|apply Hnothing; discriminate|now contradiction Hnb0].
  destruct (negb (truthy tok)); [unfold ret; apply Hnothing; discriminate|].
  cbv zeta. unfold bind at 1.
  match goal with
  | |- context [upload_video_direct E ?f ?cap ?t ?pr ?s ?w1] =>
      destruct (upload_outcome E w1 f cap t pr s)
        as (o3 & new3 & -> & Hnb3 & Hall3 & Hflag)
  end.
  assert (Hafter : forall o : outcome unit,
             (o = Blocks -> unanswered E w new3) ->
             exists o0 w' new,
               (o, logs new3 w) = (o0, w')
               /\ trace w' = trace w ++ new
               /\ (false = false -> false = false ->
                   tokens_file w' = tokens_file w)
               /\ (false = true \/ false = true
                   \/ false = true \/ true = false
                   \/ false = false ->
                   history_file w' = history_file w)
               /\ (false = false -> false = false ->
                   false = true \/ true = false ->
                   w' = w /\ o0 <> Blocks)
               /\ (false = false -> false = false ->
                   false = true \/ true = false
                   \/ false = false ->
                   Forall (fun e => is_http e = true
                                    \/ exists secs, e = EvSleep secs) new)
               /\ (false = false ->
                   inbox w' = inbox w
                   /\ code_verifier w' = code_verifier w
                   /\ Forall (fun e => listener_event e = false) new
                   /\ (o0 = Blocks -> unanswered E w new))).
  { intros o Hnb. exists o, (logs new3 w), new3.
    do 4 (split; [reflexivity|]).
    split; [intros _ _ [H|H]; discriminate H|].
    split; [intros _ _ _; exact Hall3|]. intros _.
    do 2 (split; [reflexivity|]). split; [now apply Hquiet|exact Hnb]. }
  destruct o3 as [result|e|];
    [|apply Hafter; discriminate|apply Hafter; intros _; now apply Hnb3].
  unfold bind at 1, lift.
  destruct (py_item result (lit "success")); unfold ret;
    apply Hafter; discriminate.
Qed.

(** X16.  What each mode of the command line may change.  In every run of
    [main]: the token file changes only under --auth or --refresh; the
    upload history changes only for a sandbox post (--post --sandbox
    without --auth, --refresh, --status), so a production post is never
    recorded; --status and a run without any mode change nothing, have no
    effect and come to an end; only --auth binds the port, opens the
    browser, takes arrivals or sets the verifier; and without --auth a run
    waits forever only on a request that gets no answer. *)
Theorem main_writes_by_mode (E : env) (args : arguments) (w : world) :
  exists o w' new,
    main E args w = (o, w')
    /\ trace w' = trace w ++ new
    /\ (arg_auth args = false -> arg_refresh args = false ->
        tokens_file w' = tokens_file w)
    /\ (arg_auth args = true \/ arg_refresh args = true
        \/ arg_status args = true \/ arg_post args = false
        \/ arg_sandbox args = false ->
        history_file w' = history_file w)
    /\ (arg_auth args = false -> arg_refresh args = false ->
        arg_status args = true \/ arg_post args = false ->
        w' = w /\ o <> Blocks)
    /\ (arg_auth args = false -> arg_refresh args = false ->
        arg_status args = true \/ arg_post args = false
        \/ arg_sandbox args = false ->
        Forall (fun e => is_http e = true
                         \/ exists secs, e = EvSleep secs) new)
    /\ (arg_auth args = false ->
        inbox w' = inbox w
        /\ code_verifier w' = code_verifier w
        /\ Forall (fun e => listener_event e = false) new
        /\ (o = Blocks -> unanswered E w new)).
Proof.
  exact (main_frame E args w).
Qed.

(** ** The size of a SHA-256 digest *)

Module SHA256Facts.
Import SHA256.

Lemma round_length (s : list Z) (kw : Z * Z) : length (round s kw) = length s.
Proof.
  unfold round.
  destruct s as [|a [|b [|c [|d [|e [|f [|g [|h [|i s]]]]]]]]]; reflexivity.
Qed.

Lemma rounds_length (kws : list (Z * Z)) (s : list Z) :
  length (fold_left round kws s) = length s.
Proof.
  revert s. induction kws as [|kw kws IH]; intros s; simpl; [reflexivity|].
  now rewrite IH, round_length.
Qed.

Lemma compress_length (h : list Z) (block : pybytes) :
  length (compress h block) = length h.
Proof.
  unfold compress. rewrite length_map, length_combine, rounds_length.
  apply Nat.min_id.
Qed.

Lemma compress_all_length (bs : list pybytes) (h : list Z) :
  length (fold_left compress bs h) = length h.
Proof.
  revert h. induction bs as [|b bs IH]; intros h; simpl; [reflexivity|].
  now rewrite IH, compress_length.
Qed.

Lemma be_bytes_length (n : nat) (z : Z) : length (be_bytes n z) = n.
Proof. unfold be_bytes. now rewrite length_map, length_rev, length_seq. Qed.

Lemma words_bytes_length (h : list Z) :
  length (flat_map (be_bytes 4) h) = (4 * length h)%nat.
Proof.
  induction h as [|x h IH]; [reflexivity|].
  cbn [flat_map]. rewrite length_app, be_bytes_length, IH. cbn [length]. lia.
Qed.

Lemma digest_length (msg : pybytes) : length (digest msg) = 32%nat.
Proof.
  unfold digest. cbv zeta.
  now rewrite words_bytes_length, compress_all_length.
Qed.
End SHA256Facts.

(** X17.  The shape of the PKCE challenge.  Whatever the random source
    gives, [generate_pkce] returns a challenge of exactly 43 characters,
    all from the URL-safe base64 alphabet (so without [=] padding), which
    is the S256 challenge of the 86-character verifier it stored and never
    that verifier itself. *)
Theorem challenge_is_43_urlsafe (E : env) (w : world) :
  exists verifier challenge w',
    generate_pkce E w = (Returns challenge, w')
    /\ code_verifier w' = Some verifier
    /\ challenge_of verifier = Ok challenge
    /\ length challenge = 43%nat
    /\ Forall (fun c => Base64.urlsafe_char c = true) challenge
    /\ challenge <> verifier.
Proof.
  destruct (generate_pkce_run E w)
    as (verifier & challenge & ascii & padded & Hrun & Hascii & _ & _ & Hch
        & Hlen & _).
  exists verifier, challenge. eexists. split; [exact Hrun|].
  split; [reflexivity|]. split; [exact Hch|].
  unfold challenge_of in Hch. rewrite Hascii in Hch. cbn [rbind] in Hch.
  rewrite (decode_ascii_ok _ (PkceFacts.nopad_ascii _)) in Hch.
  injection Hch as <-.
  assert (H43 : length (map Byte.to_N
                            (Base64.b64url_nopad (SHA256.digest ascii)))
                = 43%nat).
  { rewrite length_map, Base64Facts.nopad_length, SHA256Facts.digest_length.
    reflexivity. }
  split; [exact H43|]. split; [apply PkceFacts.urlsafe_token|].
  intros Heq. rewrite Heq in H43. lia.
Qed.

(** ** What [show_status] can display *)

Lemma for_each_ok {A} (body : A -> res unit) (xs : list A) :
  (for_each body xs = Ok tt /\ Forall (fun x => body x = Ok tt) xs)
  \/ (exists e, for_each body xs = Raise e)
     /\ ~ Forall (fun x => body x = Ok tt) xs.
Proof.
  induction xs as [|x xs IH]; cbn [for_each]; [left; now split|].
  destruct (body x) as [[]|e] eqn:Hx; cbn [rbind].
  - destruct IH as [[Hok Hall]|[[e He] Hno]].
    + left. split; [exact Hok|]. now constructor.
    + right. split; [exists e; first [reflexivity|assumption]|]. intros Hall. apply Hno.
      now inversion Hall.
  - right. split; [exists e; first [reflexivity|assumption]|]. intros Hall. inversion Hall. congruence.
Qed.

(** The first half of [show_status]: the accounts. *)
Lemma accounts_part (tokens : pyval) (w : world) :
  let part :=
    (if negb (truthy tokens) then ret tt
     else match tokens with
          | PDict d => lift (for_each show_account (map snd d))
          | _ => lift (Raise AttributeError)
          end) in
  (part w = (Returns tt, w) /\ tokens_shown (Some (Json tokens)))
  \/ (exists e, part w = (Raises e, w))
     /\ ~ tokens_shown (Some (Json tokens)).
Proof.
  cbv zeta. unfold tokens_shown.
  destruct (truthy tokens) eqn:Htruthy; cbn [negb].
  2:{ left. split; [reflexivity|now left]. }
  assert (Hno : forall e,
             (forall d, tokens <> PDict d) ->
             (exists e0, lift (Raise e) w = (Raises e0, w) :> outcome unit * world)
             /\ ~ (true = false
                   \/ exists d,
                       tokens = PDict d
                       /\ Forall (fun data => show_account data = Ok tt)
                                 (map snd d))).
  { intros e Hd. split; [exists e; first [reflexivity|assumption]|].
    intros [H|(d & H & _)]; [discriminate H|now apply (Hd d)]. }
  destruct tokens as [| b | z | s | l | d];
    try (right; apply Hno; intros d0; discriminate).
  unfold lift.
  destruct (for_each_ok show_account (map snd d)) as [[-> Hall]|[[e ->] Hnot]].
  - left. split; [reflexivity|]. right. now exists d.
  - right. split; [exists e; first [reflexivity|assumption]|].
    intros [H|(d0 & [= <-] & Hall)]; [discriminate H|now apply Hnot].
Qed.

(** The second half: the recent uploads. *)
Lemma uploads_part (w : world) :
  let part :=
    (history <- load_history ;;
     uploads <- lift (py_get history (lit "uploads") (PList [])) ;;
     recent <- lift (py_slice_last 5 uploads) ;;
     if truthy recent then lift (for_each show_upload (reversed_items recent))
     else ret tt) in
  (part w = (Returns tt, w) /\ history_shown (history_file w))
  \/ (exists e, part w = (Raises e, w)) /\ ~ history_shown (history_file w).
Proof.
  cbv zeta. unfold history_shown.
  assert (Hshown : forall history,
             let rest :=
               (uploads <- lift (py_get history (lit "uploads") (PList [])) ;;
                recent <- lift (py_slice_last 5 uploads) ;;
                if truthy recent
                then lift (for_each show_upload (reversed_items recent))
                else ret tt) in
             let shown :=
               exists uploads recent,
                 py_get history (lit "uploads") (PList []) = Ok uploads
                 /\ py_slice_last 5 uploads = Ok recent
                 /\ Forall (fun item => show_upload item = Ok tt)
                           (reversed_items recent) in
             (rest w = (Returns tt, w) /\ shown)
             \/ (exists e, rest w = (Raises e, w)) /\ ~ shown).
  { intros history. cbv zeta. unfold bind, lift, ret.
    destruct (py_get history (lit "uploads") (PList [])) as [uploads|e].
    2:{ right. split; [now exists e|]. intros (u & r & H & _).
        discriminate H. }
    destruct (py_slice_last 5 uploads) as [recent|e] eqn:Hslice.
    2:{ right. split; [now exists e|]. intros (u & r & [= <-] & H & _).
        congruence. }
    destruct (truthy recent) eqn:Htruthy.
    - destruct (for_each_ok show_upload (reversed_items recent))
        as [[-> Hall]|[[e ->] Hnot]].
      + left. split; [reflexivity|]. now exists uploads, recent.
      + right. split; [now exists e|].
        intros (u & r & [= <-] & H & Hall). rewrite Hslice in H.
        injection H as <-. now apply Hnot.
    - left. split; [reflexivity|]. exists uploads, recent.
      do 2 (split; [first [reflexivity|assumption]|]).
      destruct recent as [| b | z | [|c s] | [|x l] | d];
        try discriminate Htruthy; constructor. }
  destruct (history_file w) as [[history|]|] eqn:Hfile.
  - destruct (Hshown history) as [[Hrun Hs]|[[e Hrun] Hs]];
      cbv zeta in Hrun, Hs.
    + left. split; [|exact Hs].
      unfold bind at 1, load_history. rewrite Hfile. exact Hrun.
    + right. split; [|exact Hs]. exists e.
      unfold bind at 1, load_history. rewrite Hfile. exact Hrun.
  - right. split; [|intros []]. eexists.
    unfold bind at 1, load_history. rewrite Hfile. reflexivity.
  - left. split; [|exact I].
    unfold bind at 1, load_history. rewrite Hfile. reflexivity.
Qed.

(** [show_status] displays everything exactly when both stores can be
    shown; it depends on nothing else. *)
Lemma displayable_iff (w : world) :
  displayable w <-> tokens_shown (tokens_file w) /\ history_shown (history_file w).
Proof.
  unfold displayable, show_status. unfold bind at 1, load_tokens.
  pose proof (uploads_part w) as Hup. cbv zeta in Hup.
  destruct (tokens_file w) as [[tokens|]|].
  - unfold bind at 1.
    destruct (accounts_part tokens w) as [[Hacc Hshown]|[[e Hacc] Hnot]];
      cbv zeta in Hacc; rewrite Hacc.
    + destruct Hup as [[-> Hh]|[[e ->] Hnh]]; cbn [fst].
      * split; [intros _; now split|reflexivity].
      * split; [discriminate|]. intros [_ Hh]. now contradiction Hnh.
    + cbn [fst]. split; [discriminate|]. intros [Ht _]. now contradiction Hnot.
  - cbn [fst]. split; [discriminate|]. intros [[] _].
  - cbn [truthy negb]. unfold bind at 1, ret at 1.
    destruct Hup as [[-> Hh]|[[e ->] Hnh]]; cbn [fst].
    + split; [intros _; split; [exact I|exact Hh]|reflexivity].
    + split; [discriminate|]. intros [_ Hh]. now contradiction Hnh.
Qed.

(** What [show_status] prints for an account depends on its
    authenticated_at only. *)
Lemma show_account_same (e e' : pydict) :
  dict_find (lit "authenticated_at") e' = dict_find (lit "authenticated_at") e ->
  show_account (PDict e') = show_account (PDict e).
Proof. intros H. unfold show_account. cbn [py_get]. now rewrite H. Qed.

Lemma show_account_stamped (e : pydict) (s : pystr) :
  dict_find (lit "authenticated_at") e = Some (PStr s) ->
  show_account (PDict e) = Ok tt.
Proof.
  intros H. unfold show_account. cbn [py_get]. rewrite H. cbn [rbind].
  now destruct (is_str (lit "N/A") (PStr s)).
Qed.

Lemma dict_find_in (k : pystr) (v : pyval) (d : pydict) :
  dict_find k d = Some v -> In v (map snd d).
Proof.
  induction d as [|[k' v'] d IH]; [discriminate|]. cbn [dict_find map snd].
  destruct (pystr_eqb k k'); [intros [= ->]; now left|right; auto].
Qed.

Lemma Forall_dict_set (P : pyval -> Prop) (k : pystr) (v : pyval) (d : pydict) :
  Forall P (map snd d) -> P v -> Forall P (map snd (dict_set k v d)).
Proof.
  intros Hd Hv. induction d as [|[k' v'] d IH]; cbn [dict_set map snd].
  - now repeat constructor.
  - inversion Hd; subst.
    destruct (pystr_eqb k k'); cbn [map snd]; constructor; auto.
Qed.

(** The accounts that can be listed, for a dict that [load_tokens]
    returns. *)
Lemma tokens_shown_dict (file : option stored) (old : pydict) :
  stored_dict file old -> tokens_shown file ->
  Forall (fun data => show_account data = Ok tt) (map snd old).
Proof.
  intros [->|[-> ->]]; [|constructor]. cbn [tokens_shown].
  intros [Hfalsy|(d & [= <-] & Hall)]; [|exact Hall].
  destruct old; [constructor|discriminate Hfalsy].
Qed.

(** The files [authenticate] leaves. *)
Lemma authenticate_files (E : env) (account : pystr) (w : world) :
  exists new,
    trace (snd (authenticate E account w)) = trace w ++ new
    /\ history_file (snd (authenticate E account w)) = history_file w
    /\ ((Forall (fun e => is_broken_save e = false) new
         /\ (tokens_file (snd (authenticate E account w)) = tokens_file w
             \/ exists data old,
                 stored_dict (tokens_file w) old
                 /\ tokens_file (snd (authenticate E account w))
                    = Some (Json (PDict (dict_set account (credential E data)
                                                  old)))))
        \/ (Exists (fun e => is_broken_save e = true) new
            /\ tokens_file (snd (authenticate E account w)) = Some Garbage)).
Proof.
  destruct (authenticate_writes E account w)
    as (o & w' & new & -> & Htrace & Hhist & Hcases).
  cbn [snd]. exists new. split; [exact Htrace|]. split; [exact Hhist|].
  destruct Hcases
    as [(Hfile & Hall & _) | (verifier & challenge & arrival & code & r
                              & data & old & _ & Hwritten)].
  - left. split; [|now left]. eapply Forall_impl; [|exact Hall].
    intros [] [He|He]; try reflexivity; discriminate He.
  - cbv zeta in Hwritten.
    destruct Hwritten as (_ & _ & _ & _ & Hold & Hsaved).
    destruct Hsaved as [(_ & -> & Hfile & _) | (_ & -> & Hfile & _)].
    + left. split; [repeat constructor|]. right. now exists data, old.
    + right. split; [|exact Hfile]. do 5 apply Exists_cons_tl.
      now apply Exists_cons_hd.
Qed.

(** The files [refresh_access_token] leaves. *)
Lemma refresh_files (E : env) (account : pystr) (w : world) :
  exists new,
    trace (snd (refresh_access_token E account w)) = trace w ++ new
    /\ history_file (snd (refresh_access_token E account w)) = history_file w
    /\ ((Forall (fun e => is_broken_save e = false) new
         /\ (tokens_file (snd (refresh_access_token E account w))
             = tokens_file w
             \/ exists d entry data access,
                 tokens_file w = Some (Json (PDict d))
                 /\ dict_find account d = Some (PDict entry)
                 /\ tokens_file (snd (refresh_access_token E account w))
                    = Some (Json (PDict (dict_set account
                                           (refreshed E entry data access)
                                           d)))))
        \/ (Exists (fun e => is_broken_save e = true) new
            /\ tokens_file (snd (refresh_access_token E account w))
               = Some Garbage)).
Proof.
  destruct (refresh_cases E account w)
    as (o & w' & new & -> & Htrace & Hhist & _ & _ & _ & Hnew).
  cbn [snd]. exists new. split; [exact Htrace|]. split; [exact Hhist|].
  destruct Hnew as [(-> & -> & _) | (d & entry & Hfile & Hentry & _ & Hsent)].
  { left. split; [constructor|now left]. }
  cbv zeta in Hsent.
  destruct Hsent as [(-> & Hsame & _) | (r & data & access & _ & _ & _ & _ & Hs)].
  { left. split; [repeat constructor|now left]. }
  cbv zeta in Hs.
  destruct Hs as [(_ & -> & Hsaved & _) | (_ & -> & Hsaved & _)].
  - left. split; [repeat constructor|]. right.
    now exists d, entry, data, access.
  - right. split; [|exact Hsaved]. apply Exists_cons_tl.
    now apply Exists_cons_hd.
Qed.

(** One more record can be listed when the others could. *)
Lemma history_shown_append
      (file : option stored) (d : pydict) (l : list pyval) (record : pyval) :
  history_of file = Some (d, l) ->
  history_shown file ->
  show_upload record = Ok tt ->
  history_shown
    (Some (Json (PDict (dict_set (lit "uploads") (PList (l ++ [record])) d)))).
Proof.
  intros Hof Hshown Hrecord. cbn [history_shown py_get].
  rewrite dict_find_set_same.
  eexists _, _. split; [reflexivity|]. split; [reflexivity|].
  cbn [reversed_items]. apply Forall_rev.
  assert (Hold : Forall (fun item => show_upload item = Ok tt)
                        (skipn (length l - 5) l)).
  { destruct file as [[history|]|]; cbn [history_of] in Hof;
      try discriminate Hof.
    - destruct history as [| | | | |d0]; try discriminate Hof.
      destruct (dict_find (lit "uploads") d0) as [[| | | |l0|]|] eqn:Hup;
        try discriminate Hof.
      injection Hof as <- <-.
      cbn [history_shown py_get] in Hshown. rewrite Hup in Hshown.
      destruct Hshown as (uploads & recent & [= <-] & [= <-] & Hall).
      cbn [reversed_items] in Hall. apply Forall_rev in Hall.
      now rewrite rev_involutive in Hall.
    - injection Hof as <- <-. constructor. }
  rewrite length_app. cbn [length].
  rewrite skipn_app. apply Forall_app. split.
  - rewrite Forall_forall in *. intros x Hx. apply Hold.
    replace (length l + 1 - 5)%nat
      with ((length l + 1 - 5 - (length l - 5)) + (length l - 5))%nat in Hx
      by lia.
    rewrite <- skipn_skipn in Hx.
    rewrite <- (firstn_skipn (length l + 1 - 5 - (length l - 5))
                             (skipn (length l - 5) l)).
    apply in_or_app. now right.
  - replace (length l + 1 - 5 - length l)%nat with 0%nat by lia.
    cbn [skipn]. now constructor.
Qed.

Lemma snd_drop_result {A} (c : M A) (w : world) :
  snd ((c ;;; ret tt) w) = snd (c w).
Proof. unfold bind, ret. now destruct (c w) as [[a|e|] w']. Qed.

(** An undecodable file cannot be displayed. *)
Lemma garbage_not_displayable (w : world) :
  tokens_file w = Some Garbage \/ history_file w = Some Garbage ->
  ~ displayable w.
Proof.
  intros Hg Hd. apply displayable_iff in Hd. destruct Hd as [Ht Hh].
  destruct Hg as [Hg|Hg]; [rewrite Hg in Ht|rewrite Hg in Hh];
    contradiction.
Qed.

(** X18.  Only a failed save breaks the status display.  If [show_status]
    displays the stores to the end, it still does after any run of [main]
    in which no save failed, whatever the mode, the arrivals and the
    peers' answers, and however the run ends: the credentials written by
    --auth and --refresh and the records written by a sandbox post are
    such that --status can list them.  After a run in which a save failed
    (json.dump raised on a string that cannot be encoded) it does not: the
    emptied file is left undecodable. *)
Theorem status_stays_displayable (E : env) (args : arguments) (w : world) :
  displayable w ->
  exists new,
    trace (snd (main E args w)) = trace w ++ new
    /\ (Forall (fun e => is_broken_save e = false) new ->
        displayable (snd (main E args w)))
    /\ (Exists (fun e => is_broken_save e = true) new ->
        ~ displayable (snd (main E args w))).
Proof.
  intros Hd.
  assert (Hsplit : forall w' new,
             (Forall (fun e => is_broken_save e = false) new
              /\ displayable w')
             \/ (Exists (fun e => is_broken_save e = true) new
                 /\ ~ displayable w') ->
             (Forall (fun e => is_broken_save e = false) new ->
              displayable w')
             /\ (Exists (fun e => is_broken_save e = true) new ->
                 ~ displayable w')).
  { intros w' new [[Hall Hok]|[Hex Hno]]; split; auto.
    - intros Hex. exfalso. apply Exists_exists in Hex.
      destruct Hex as (e & Hin & He). rewrite Forall_forall in Hall.
      rewrite (Hall e Hin) in He. discriminate He.
    - intros Hall. exfalso. apply Exists_exists in Hex.
      destruct Hex as (e & Hin & He). rewrite Forall_forall in Hall.
      rewrite (Hall e Hin) in He. discriminate He. }
  apply displayable_iff in Hd. destruct Hd as [Ht Hh].
  destruct (arg_auth args) eqn:Hauth.
  { unfold main. rewrite Hauth, snd_drop_result.
    destruct (authenticate_files E (arg_account args) w)
      as (new & Htrace & Hhist & Hfiles).
    exists new. split; [exact Htrace|]. apply Hsplit.
    destruct Hfiles as [(Hall & Hfile) | (Hex & Hfile)].
    - left. split; [exact Hall|]. apply displayable_iff. rewrite Hhist.
      split; [|exact Hh].
      destruct Hfile as [-> | (data & old & Hold & ->)]; [exact Ht|].
      cbn [tokens_shown]. right. eexists. split; [reflexivity|].
      apply Forall_dict_set; [now apply (tokens_shown_dict (tokens_file w))|].
      now apply (show_account_stamped _ (now_iso E)).
    - right. split; [exact Hex|]. apply garbage_not_displayable. now left. }
  destruct (arg_refresh args) eqn:Hrefresh.
  { unfold main. rewrite Hauth, Hrefresh, snd_drop_result.
    destruct (refresh_files E (arg_account args) w)
      as (new & Htrace & Hhist & Hfiles).
    exists new. split; [exact Htrace|]. apply Hsplit.
    destruct Hfiles as [(Hall & Hfile) | (Hex & Hfile)].
    - left. split; [exact Hall|]. apply displayable_iff. rewrite Hhist.
      split; [|exact Hh].
      destruct Hfile
        as [-> | (d & entry & data & access & Hfile & Hentry & ->)];
        [exact Ht|].
      rewrite Hfile in Ht. cbn [tokens_shown] in Ht |- *.
      assert (Hacc : Forall (fun data => show_account data = Ok tt)
                            (map snd d)).
      { destruct Ht as [Hfalsy|(d0 & [= <-] & Hacc)]; [|exact Hacc].
        destruct d; [discriminate Hentry|discriminate Hfalsy]. }
      right. eexists. split; [reflexivity|].
      apply Forall_dict_set; [exact Hacc|].
      rewrite Forall_forall in Hacc.
      rewrite <- (Hacc _ (dict_find_in _ _ _ Hentry)).
      unfold refreshed, dict_update. cbn [fold_left fst snd].
      apply show_account_same.
      rewrite !dict_find_set_other;
        [reflexivity|apply lit_keys_differ; reflexivity..].
    - right. split; [exact Hex|]. apply garbage_not_displayable. now left. }
  destruct (arg_status args || negb (arg_post args) || negb (arg_sandbox args))
    eqn:Hmode.
  { destruct (main_frame E args w)
      as (o & w' & new & -> & Htrace & Htok & Hhist & _ & Hquiet & _).
    cbn [snd]. exists new. split; [exact Htrace|]. apply Hsplit.
    assert (Hm : arg_status args = true \/ arg_post args = false
                 \/ arg_sandbox args = false).
    { destruct (arg_status args); [now left|].
      destruct (arg_post args); [|now right; left].
      destruct (arg_sandbox args); [discriminate Hmode|now right; right]. }
    left. split.
    - eapply Forall_impl; [|exact (Hquiet Hauth Hrefresh Hm)].
      intros ev [Hh'|[pause ->]];
        [destruct ev; try reflexivity; discriminate Hh'|reflexivity].
    - apply displayable_iff. rewrite (Htok Hauth Hrefresh).
      rewrite Hhist; [now split|]. now right; right. }
  apply orb_false_iff in Hmode. destruct Hmode as [Hmode Hsandbox].
  apply orb_false_iff in Hmode. destruct Hmode as [Hstatus Hpost].
  apply negb_false_iff in Hsandbox, Hpost.
  unfold main. rewrite Hauth, Hrefresh, Hstatus, Hpost, Hsandbox.
  rewrite snd_drop_result.
  destruct (sandbox_post_cases E (arg_video args) (arg_caption args) w)
    as (o & w' & new & -> & Htrace & Htok & _ & _ & _ & _ & Hrec).
  cbn [snd]. exists new. split; [exact Htrace|]. apply Hsplit.
  assert (Hquiet : forall t,
             Forall (fun e => is_http e = true
                              \/ exists secs, e = EvSleep secs) t ->
             Forall (fun e => is_broken_save e = false) t).
  { intros t Hq. eapply Forall_impl; [|exact Hq].
    intros ev [Hh'|[pause ->]];
      [destruct ev; try reflexivity; discriminate Hh'|reflexivity]. }
  destruct Hrec as [(_ & Hsame & Hall)
                   | (b & file & d & l & before & _ & Hof & Hall & Hs)].
  { left. split; [now apply Hquiet|]. apply displayable_iff.
    rewrite Htok, Hsame. now split. }
  cbv zeta in Hs.
  destruct Hs as [(_ & _ & -> & Hfile) | (_ & _ & -> & Hfile)].
  - left. split.
    + apply Forall_app. split; [now apply Hquiet|repeat constructor].
    + apply displayable_iff. rewrite Htok, Hfile. split; [exact Ht|].
      now apply (history_shown_append (history_file w)).
  - right. split.
    + apply Exists_app. right. now apply Exists_cons_hd.
    + apply garbage_not_displayable. now right.
Qed.

Lemma status_stays_displayable_witness :
  exists new,
    trace (snd (main Scenario.authorising Scenario.auth_args
                     (Sample.fresh [Scenario.callback_abc])))
    = trace (Sample.fresh [Scenario.callback_abc]) ++ new
    /\ (Forall (fun e => is_broken_save e = false) new ->
        displayable (snd (main Scenario.authorising Scenario.auth_args
                               (Sample.fresh [Scenario.callback_abc]))))
    /\ (Exists (fun e => is_broken_save e = true) new ->
        ~ displayable (snd (main Scenario.authorising Scenario.auth_args
                                 (Sample.fresh [Scenario.callback_abc])))).
Proof.
  apply (status_stays_displayable
           Scenario.authorising Scenario.auth_args
           (Sample.fresh [Scenario.callback_abc])).
  vm_compute. reflexivity.
Defined.

(** ** Where the credentials go *)

Section Emits.
Variable P : event -> bool.

Lemma emits_ret {A} (a : A) : emits P (ret a).
Proof. intros w. exists []. cbn. now rewrite app_nil_r. Qed.

Lemma emits_lift {A} (r : res A) : emits P (lift r).
Proof.
  intros w. exists []. unfold lift. destruct r; cbn; now rewrite app_nil_r.
Qed.

Lemma emits_bind {A B} (c : M A) (k : A -> M B) :
  emits P c -> (forall a, emits P (k a)) -> emits P (bind c k).
Proof.
  intros Hc Hk w. unfold bind. destruct (Hc w) as (new1 & Ht1 & Hall1).
  destruct (c w) as [[a|e|] w1]; cbn [snd] in *;
    try (now exists new1).
  destruct (Hk a w1) as (new2 & Ht2 & Hall2).
  exists (new1 ++ new2). rewrite Ht2, Ht1, app_assoc. split; [reflexivity|].
  now apply Forall_app.
Qed.

(** A step with at most one effect. *)
Lemma emits_one {A} (c : M A) :
  (forall w, trace (snd (c w)) = trace w
             \/ exists e, trace (snd (c w)) = trace w ++ [e] /\ P e = true) ->
  emits P c.
Proof.
  intros H w. destruct (H w) as [Hsame|(e & Hone & He)].
  - exists []. now rewrite app_nil_r.
  - exists [e]. split; [exact Hone|]. now constructor.
Qed.

Lemma emits_send (E : env) (rq : request) :
  P (EvHttp rq) = true -> emits P (send E rq).
Proof.
  intros Hrq. apply emits_one. intros w. right. exists (EvHttp rq).
  split; [|exact Hrq]. unfold send.
  now destruct (http E (http_count (trace w)) rq) as [[r|e]|].
Qed.
End Emits.

Lemma emits_sleep (secs : Z) : emits guarded (sleep secs).
Proof. apply emits_one. intros w. right. now exists (EvSleep secs). Qed.

Lemma emits_load_tokens : emits guarded load_tokens.
Proof.
  apply emits_one. intros w. left. unfold load_tokens.
  now destruct (tokens_file w) as [[v|]|].
Qed.

Lemma emits_save_tokens (tokens : pyval) : emits guarded (save_tokens tokens).
Proof.
  apply emits_one. intros w. right. unfold save_tokens.
  destruct (encodable tokens);
    [now exists (EvSave tokens)|now exists (EvSaveBroken tokens)].
Qed.

Lemma emits_load_history : emits guarded load_history.
Proof.
  apply emits_one. intros w. left. unfold load_history.
  now destruct (history_file w) as [[v|]|].
Qed.

Lemma emits_save_history (h : pyval) : emits guarded (save_history h).
Proof.
  apply emits_one. intros w. right. unfold save_history.
  destruct (encodable h);
    [now exists (EvSaveHistory h)|now exists (EvSaveHistoryBroken h)].
Qed.

Lemma emits_token_bytes (E : env) (n : nat) : emits guarded (token_bytes E n).
Proof. apply emits_one. intros w. now left. Qed.

Lemma emits_set_code_verifier (v : pystr) : emits guarded (set_code_verifier v).
Proof. apply emits_one. intros w. now left. Qed.

Lemma emits_get_code_verifier : emits guarded get_code_verifier.
Proof. apply emits_one. intros w. now left. Qed.

Lemma emits_bind_server (E : env) : emits guarded (bind_server E).
Proof. apply emits_one. intros w. right. now eexists (EvBind _). Qed.

Lemma emits_webbrowser_open (url : pystr) : emits guarded (webbrowser_open url).
Proof. apply emits_one. intros w. right. now exists (EvBrowser url). Qed.

Lemma emits_server_close : emits guarded server_close.
Proof. apply emits_one. intros w. right. now exists EvClose. Qed.

Lemma emits_handle_request (E : env) (srv : server) :
  emits guarded (handle_request E srv).
Proof.
  apply emits_one. intros w. unfold handle_request.
  destruct (inbox w) as [|rq later]; [now left|].
  destruct (handle_one E srv rq) as [srv' status]. right.
  now exists (EvServe rq status).
Qed.

(** One step of the decomposition of a function body. *)
Ltac emits_step :=
  first
    [ apply emits_ret
    | apply emits_lift
    | apply emits_sleep
    | apply emits_load_tokens
    | apply emits_save_tokens
    | apply emits_load_history
    | apply emits_save_history
    | apply emits_token_bytes
    | apply emits_set_code_verifier
    | apply emits_get_code_verifier
    | apply emits_bind_server
    | apply emits_webbrowser_open
    | apply emits_server_close
    | apply emits_handle_request
    | apply emits_send; reflexivity
    | apply emits_bind; [|intros ?]
    | match goal with
      | |- emits _ (if ?b then _ else _) => destruct b
      | |- emits _ (match ?x with _ => _ end) => destruct x
      end ].

Lemma emits_get_access_token (account : pystr) :
  emits guarded (get_access_token account).
Proof. unfold get_access_token. repeat emits_step. Qed.

Lemma emits_refresh (E : env) (account : pystr) :
  emits guarded (refresh_access_token E account).
Proof. unfold refresh_access_token, requests_post. repeat emits_step. Qed.

Lemma emits_add_to_history
      (E : env) (account video : pystr) (success : pyval) (sandbox : bool) :
  emits guarded (add_to_history E account video success sandbox).
Proof. unfold add_to_history. repeat emits_step. Qed.

Lemma emits_generate_pkce (E : env) : emits guarded (generate_pkce E).
Proof. unfold generate_pkce. cbv zeta. repeat emits_step. Qed.

Lemma emits_authenticate (E : env) (account : pystr) :
  emits guarded (authenticate E account).
Proof.
  unfold authenticate, requests_post. cbv zeta.
  repeat first [apply emits_generate_pkce | emits_step].
Qed.

Lemma emits_get_user_info (E : env) (tok : pystr) :
  emits guarded (get_user_info E tok).
Proof. unfold get_user_info. repeat emits_step. Qed.

Lemma emits_poll (E : env) (tok : pystr) (pid : pyval) (n : nat) :
  emits guarded (poll E n tok pid).
Proof.
  induction n as [|n IH]; cbn [poll]; [apply emits_ret|].
  unfold poll_once. repeat first [apply IH | emits_step].
Qed.

Lemma emits_upload
      (E : env) (path caption tok privacy : pystr) (sandbox : bool) :
  emits guarded (upload_video_direct E path caption tok privacy sandbox).
Proof.
  unfold upload_video_direct, requests_put. cbv zeta.
  repeat first [apply emits_poll | emits_step].
Qed.

Lemma emits_post_sandbox (E : env) (video caption : option pystr) :
  emits guarded (post_sandbox_video E video caption).
Proof.
  unfold post_sandbox_video. cbv zeta.
  repeat first [ apply emits_get_access_token | apply emits_get_user_info
               | apply emits_upload | apply emits_add_to_history
               | emits_step ].
Qed.

Lemma emits_show_status : emits guarded show_status.
Proof. unfold show_status. repeat emits_step. Qed.

Lemma emits_main (E : env) (args : arguments) : emits guarded (main E args).
Proof.
  unfold main. cbv zeta.
  repeat first [ apply emits_authenticate | apply emits_refresh
               | apply emits_show_status | apply emits_post_sandbox
               | apply emits_get_access_token | apply emits_upload
               | emits_step ].
Qed.

(** X19.  Credentials go to the API only.  In every run of [main], whatever
    the mode, the arrivals and the peers' answers: a request that carries
    a credential (an Authorization header, or a client_secret,
    refresh_token, code or code_verifier form field) is sent to a URL that
    starts with the API base, and a request sent anywhere else is a PUT;
    so the upload URL that the init response names, which the peer
    chooses, receives the video and nothing else.  The token exchange, the
    refresh, the user info request, the init and the status fetch all
    carry a credential; the PUT never does. *)
Theorem credentials_go_to_api_only (E : env) (args : arguments) (w : world) :
  (exists new,
      trace (snd (main E args w)) = trace w ++ new
      /\ forall rq, In (EvHttp rq) new ->
          (carries_secret rq = true -> to_api rq = true)
          /\ (to_api rq = false -> rq_verb rq = PUT))
  /\ (forall code verifier refresh_token access_token caption privacy size
             pid,
         carries_secret (token_request E code verifier) = true
         /\ carries_secret (refresh_request E refresh_token) = true
         /\ carries_secret (user_info_request access_token) = true
         /\ carries_secret (init_request caption privacy access_token size)
            = true
         /\ carries_secret (status_request access_token pid) = true)
  /\ (forall url data,
         carries_secret (put_request url data) = false
         /\ rq_url (put_request url data) = url).
Proof.
  split; [|split; [intros; repeat split|intros; split; reflexivity]].
  destruct (emits_main E args w) as (new & Htrace & Hall).
  exists new. split; [exact Htrace|]. intros rq Hin.
  rewrite Forall_forall in Hall. specialize (Hall _ Hin).
  cbn [guarded] in Hall. apply andb_prop in Hall. destruct Hall as [Himp Hput].
  split.
  - intros Hsecret. now rewrite Hsecret in Himp.
  - intros Hapi. rewrite Hapi, orb_false_r in Hput.
    now destruct (rq_verb rq).
Qed.

(** X20.  An exception after the save does not lose the credential.
    [authenticate] saves the credential before it prints the closing
    message, and that message can fail (an open_id that cannot be sliced).
    So when [authenticate] raises there are three cases.  Either no write
    of the token file was attempted and the file is what it was.  Or the
    exchange was answered 200 with a dict holding an access_token, the
    credential built from that very answer is in the token file as the
    last effect of the run, and [get_access_token] returns the new access
    token although the call did not return.  Or the write itself failed:
    the stored document holds a string that cannot be encoded, the
    exception is the encoder's, and the token file is left undecodable, so
    that the credentials of all accounts are lost. *)
Theorem raise_after_save_keeps_credential
        (E : env) (account : pystr) (w w' : world) (e : exn) :
  authenticate E account w = (Raises e, w') ->
  exists new,
    trace w' = trace w ++ new
    /\ ((tokens_file w' = tokens_file w
         /\ Forall (fun ev => writes_tokens ev = false) new)
        \/ exists verifier challenge arrival code r data old access,
            let rq := token_request E (PStr code) (PStr verifier) in
            let saved := PDict (dict_set account (credential E data) old) in
            let before :=
              [EvBind true; EvBrowser (authorize_url E account challenge);
               EvServe arrival 200; EvClose; EvHttp rq] in
            http E (http_count (trace w)) rq = Ok r
            /\ status_code r = 200
            /\ json_body r = Some (PDict data)
            /\ dict_find (lit "access_token") data = Some access
            /\ stored_dict (tokens_file w) old
            /\ ((encodable saved = true
                 /\ new = before ++ [EvSave saved]
                 /\ tokens_file w' = Some (Json saved)
                 /\ get_access_token account w' = (Returns access, w'))
                \/ (encodable saved = false
                    /\ new = before ++ [EvSaveBroken saved]
                    /\ tokens_file w' = Some Garbage
                    /\ e = UnicodeError
                    /\ get_access_token account w'
                       = (Raises JSONDecodeError, w')))).
Proof.
  intros Hrun.
  destruct (authenticate_writes E account w)
    as (o & w1 & new & Hrun' & Htrace & _ & Hcases).
  rewrite Hrun in Hrun'. injection Hrun' as <- <-.
  exists new. split; [exact Htrace|].
  destruct Hcases
    as [(Hfile & Hall & _)
       | (verifier & challenge & arrival & code & r & data & old & _
          & Hrest)].
  { left. split; [exact Hfile|]. eapply Forall_impl; [|exact Hall].
    intros ev [He|He]; destruct ev; try reflexivity; discriminate He. }
  cbv zeta in Hrest.
  destruct Hrest as (Hanswer & H200 & Hbody & Haccess & Hold & Hsaved).
  destruct (dict_find (lit "access_token") data) as [access|] eqn:Hacc;
    [|now contradiction Haccess].
  right. exists verifier, challenge, arrival, code, r, data, old, access.
  cbv zeta. do 5 (split; [assumption|]).
  destruct Hsaved as [(Henc & Hnew & Hfile & _) | (Henc & Hnew & Hfile & Ho)].
  - left. do 3 (split; [assumption|]).
    rewrite (get_access_token_stored account w' _ Hfile).
    rewrite dict_find_set_same. unfold credential. cbn [dict_find].
    change (pystr_eqb (lit "access_token") (lit "access_token")) with true.
    cbv iota. now rewrite Hacc.
  - right. do 3 (split; [assumption|]).
    split; [now injection Ho|].
    unfold get_access_token, bind, load_tokens. now rewrite Hfile.
Qed.

Lemma raise_after_save_keeps_credential_witness :
  exists new,
    trace (snd Scenario.crash_run)
    = trace (Sample.fresh [Scenario.callback_abc]) ++ new
    /\ ((tokens_file (snd Scenario.crash_run)
         = tokens_file (Sample.fresh [Scenario.callback_abc])
         /\ Forall (fun ev => writes_tokens ev = false) new)
        \/ exists verifier challenge arrival code r data old access,
            let rq :=
              token_request Scenario.crashing (PStr code) (PStr verifier) in
            let saved :=
              PDict (dict_set (lit "default")
                              (credential Scenario.crashing data) old) in
            let before :=
              [EvBind true;
               EvBrowser (authorize_url Scenario.crashing (lit "default")
                                        challenge);
               EvServe arrival 200; EvClose; EvHttp rq] in
            http Scenario.crashing
                 (http_count (trace (Sample.fresh [Scenario.callback_abc])))
                 rq = Ok r
            /\ status_code r = 200
            /\ json_body r = Some (PDict data)
            /\ dict_find (lit "access_token") data = Some access
            /\ stored_dict (tokens_file (Sample.fresh [Scenario.callback_abc]))
                           old
            /\ ((encodable saved = true
                 /\ new = before ++ [EvSave saved]
                 /\ tokens_file (snd Scenario.crash_run) = Some (Json saved)
                 /\ get_access_token (lit "default") (snd Scenario.crash_run)
                    = (Returns access, snd Scenario.crash_run))
                \/ (encodable saved = false
                    /\ new = before ++ [EvSaveBroken saved]
                    /\ tokens_file (snd Scenario.crash_run) = Some Garbage
                    /\ TypeError = UnicodeError
                    /\ get_access_token (lit "default")
                                        (snd Scenario.crash_run)
                       = (Raises JSONDecodeError, snd Scenario.crash_run)))).
Proof.
  apply (raise_after_save_keeps_credential
           Scenario.crashing (lit "default")
           (Sample.fresh [Scenario.callback_abc])
           (snd Scenario.crash_run) TypeError).
  vm_compute. reflexivity.
Defined.

